(** * Proxmox MCP server: retrying client, task polling, RBAC and dispatch

    A shallow embedding of [src/proxmox_client.py], [src/auth.py],
    [src/exceptions.py], [src/services/vm_service.py] and the tool
    dispatcher of [src/mcp_server.py], with the properties the
    specification states about them. *)

From Stdlib Require Import ZArith List Ascii String Bool Lia.
From stdpp Require Import base decidable option list strings gmap pretty.

Local Open Scope string_scope.
Local Open Scope Z_scope.

(** ** Python values *)

(** The JSON-like values that travel between the caller, the services and
    the remote endpoint.  A [dict] keeps insertion order, which [str]
    shows, so it is an association list with unique keys.  Numbers are
    integers: a [float] has no place here. *)
#[warnings="-register-all"] Inductive value : Type :=
| VNone
| VBool (b : bool)
| VInt (z : Z)
| VStr (s : string)
| VList (l : list value)
| VDict (d : list (string * value)).

Abbreviation dict := (list (string * value)).

Module Py.

(** [key in d] *)
Fixpoint contains {V} (d : list (string * V)) (key : string) : bool :=
  match d with
  | [] => false
  | (k, _) :: rest => if String.eqb k key then true else contains rest key
  end.

(** [d.get(key)], [None] of Python being [None] of option here *)
Fixpoint lookup {V} (d : list (string * V)) (key : string) : option V :=
  match d with
  | [] => None
  | (k, v) :: rest => if String.eqb k key then Some v else lookup rest key
  end.

(** [d.get(key, dflt)] *)
Definition get (d : dict) (key : string) (dflt : value) : value :=
  match lookup d key with Some v => v | None => dflt end.

(** [d[key] = v]: an existing key keeps its place *)
Fixpoint setitem {V} (d : list (string * V)) (key : string) (v : V)
    : list (string * V) :=
  match d with
  | [] => [(key, v)]
  | (k, v0) :: rest =>
      if String.eqb k key then (k, v) :: rest else (k, v0) :: setitem rest key v
  end.

(** Truthiness, as [if x:] and [not x] test it *)
Definition truthy (v : value) : bool :=
  match v with
  | VNone => false
  | VBool b => b
  | VInt z => negb (z =? 0)%Z
  | VStr s => negb (String.eqb s EmptyString)
  | VList l => match l with [] => false | _ => true end
  | VDict d => match d with [] => false | _ => true end
  end.

(** [v == s] for a string literal [s]: only a string equals a string *)
Definition eq_str (v : value) (s : string) : bool :=
  match v with VStr t => String.eqb t s | _ => false end.

(** *** [repr] and [str] *)

Definition hex_digit (n : N) : ascii :=
  ascii_of_N (if (n <? 10)%N then 48 + n else 87 + n)%N.

Definition dquote : ascii := ascii_of_N 34.

Definition mentions (c : ascii) (s : string) : bool :=
  existsb (Ascii.eqb c) (list_ascii_of_string s).

(** One character of a string literal, [q] being the quote in use.
    Bytes from 128 on are kept as they are: they are taken for the
    UTF-8 of printable text, which [repr] does not escape (what it
    does escape there, the controls from U+0080 on, is not told
    apart). *)
Definition escape_char (q c : ascii) : string :=
  let n := N_of_ascii c in
  if Ascii.eqb c "\"%char then "\\"
  else if Ascii.eqb c q then String "\"%char (String q EmptyString)
  else if (n =? 10)%N then "\n"
  else if (n =? 13)%N then "\r"
  else if (n =? 9)%N then "\t"
  else if ((n <? 32) || (n =? 127))%N
       then "\x" ++ String (hex_digit (n / 16)) (String (hex_digit (n mod 16)) EmptyString)
  else String c EmptyString.

(** [repr(s)]: single quotes, unless the text has one and no double quote *)
Definition repr_str (s : string) : string :=
  let q : ascii :=
    if mentions "'"%char s && negb (mentions dquote s)
    then dquote else "'"%char in
  String q (String.concat EmptyString
              (map (escape_char q) (list_ascii_of_string s)))
    ++ String q EmptyString.

Definition repr_int (z : Z) : string := pretty z.

Fixpoint repr (v : value) : string :=
  match v with
  | VNone => "None"
  | VBool true => "True"
  | VBool false => "False"
  | VInt z => repr_int z
  | VStr s => repr_str s
  | VList l => "[" ++ String.concat ", " (map repr l) ++ "]"
  | VDict d =>
      "{" ++ String.concat ", "
               (map (fun kv => repr_str (fst kv) ++ ": " ++ repr (snd kv)) d)
          ++ "}"
  end.

(** [str(v)]: a string is itself, everything else prints as its [repr] *)
Definition str (v : value) : string :=
  match v with VStr s => s | _ => repr v end.

End Py.

(** ** Exceptions ([src/exceptions.py]) *)

Inductive exception_class : Type :=
| ProxmoxMCPException
| ProxmoxConnectionException
| ProxmoxAuthenticationException
| ProxmoxOperationException
| ProxmoxValidationException
| ProxmoxPermissionException
| ProxmoxTimeoutException
| ProxmoxResourceNotFoundException.

(** An exception in flight, of class [Exception]: one of the server's
    own classes with its [message], [error_code] and [details], or any
    other [Exception] (of the interpreter, of the HTTP stack, of the
    token library), of which only the class name and the text [str(e)]
    are used. *)
Inductive exn : Type :=
| Proxmox (cls : exception_class) (message error_code : string) (details : dict)
| Foreign (class_name text : string).

(** What is raised without being an [Exception]: the classes that derive
    from [BaseException] alone.  [except Exception] does not catch them.
    ([asyncio.CancelledError] is one of them from Python 3.8 on.) *)
Inductive BaseException : Type :=
| CancelledError
| KeyboardInterrupt
| SystemExit
| GeneratorExit.

Module Exn.

(** [x or dflt] on an optional argument *)
Definition or_dict (details : option dict) : dict :=
  match details with Some ((_ :: _) as d) => d | _ => [] end.

(** [ProxmoxMCPException.__init__] *)
Definition base (cls : exception_class) (message : string)
    (error_code : option string) (details : option dict) : exn :=
  Proxmox cls message
    (match error_code with
     | Some c => if String.eqb c EmptyString then "PROXMOX_MCP_ERROR" else c
     | None => "PROXMOX_MCP_ERROR"
     end)
    (or_dict details).

(** [ProxmoxMCPException(message)], the only form the code raises *)
Definition mcp (message : string) : exn :=
  base ProxmoxMCPException message None None.

(** [ProxmoxOperationException(message, operation, details)] *)
Definition operation_failed (message : string) (operation : option string)
    (details : option dict) : exn :=
  let error_details := or_dict details in
  let error_details :=
    match operation with
    | Some o => if String.eqb o EmptyString then error_details
                else Py.setitem error_details "operation" (VStr o)
    | None => error_details
    end in
  base ProxmoxOperationException message (Some "PROXMOX_OPERATION_ERROR")
    (Some error_details).

(** [ProxmoxPermissionException(message, required_permission, details)] *)
Definition permission_denied (message : string)
    (required_permission : option string) (details : option dict) : exn :=
  let error_details := or_dict details in
  let error_details :=
    match required_permission with
    | Some p => if String.eqb p EmptyString then error_details
                else Py.setitem error_details "required_permission" (VStr p)
    | None => error_details
    end in
  base ProxmoxPermissionException message (Some "PROXMOX_PERMISSION_ERROR")
    (Some error_details).

(** [ProxmoxTimeoutException(message, timeout, details)] *)
Definition timed_out (message : string) (timeout : option Z)
    (details : option dict) : exn :=
  let error_details := or_dict details in
  let error_details :=
    match timeout with
    | Some t => if (t =? 0)%Z then error_details
                else Py.setitem error_details "timeout" (VInt t)
    | None => error_details
    end in
  base ProxmoxTimeoutException message (Some "PROXMOX_TIMEOUT_ERROR")
    (Some error_details).

(** [KeyError(key)]: its text is the [repr] of the key *)
Definition key_error (key : string) : exn :=
  Foreign "KeyError" (Py.repr_str key).

(** Reading [.name] off [None] *)
Definition none_has_no (name : string) : exn :=
  Foreign "AttributeError"
    ("'NoneType' object has no attribute '" ++ name ++ "'").

(** [str(e)] *)
Definition str (e : exn) : string :=
  match e with
  | Proxmox _ message _ _ => message
  | Foreign _ text => text
  end.

(** [str(e)] where [e] may still be [None] *)
Definition str_opt (e : option exn) : string :=
  match e with Some e => str e | None => "None" end.

Definition class_of (e : exn) : option exception_class :=
  match e with Proxmox c _ _ _ => Some c | Foreign _ _ => None end.

Definition code_of (e : exn) : option string :=
  match e with Proxmox _ _ c _ => Some c | Foreign _ _ => None end.

End Exn.

(** ** Settings ([src/config.py]), the fields this development reads *)

Record Settings : Type := {
  secret_key : string;
  jwt_algorithm : string;
  jwt_expire_minutes : Z;
  enable_rbac : bool
}.

(** The defaults of [config.py], for a given signing secret *)
Definition default_settings (secret : string) : Settings :=
  {| secret_key := secret; jwt_algorithm := "HS256";
     jwt_expire_minutes := 60; enable_rbac := true |}.

(** ** Authorization ([src/auth.py], [RBACManager]) *)

Module RBACManager.

Definition admin_permissions : list string :=
  [ "vm:create"; "vm:delete"; "vm:start"; "vm:stop"; "vm:clone"; "vm:migrate";
    "vm:snapshot"; "vm:config"; "vm:monitor";
    "lxc:create"; "lxc:delete"; "lxc:start"; "lxc:stop"; "lxc:clone";
    "lxc:snapshot"; "lxc:config"; "lxc:monitor"; "lxc:exec";
    "node:monitor"; "node:configure"; "node:reboot"; "node:shutdown";
    "node:services"; "node:tasks";
    "cluster:monitor"; "cluster:configure"; "cluster:ha"; "cluster:backup";
    "storage:create"; "storage:delete"; "storage:configure"; "storage:monitor";
    "storage:upload"; "storage:download";
    "network:create"; "network:delete"; "network:configure"; "network:monitor";
    "network:sdn"; "network:firewall";
    "backup:create"; "backup:restore"; "backup:delete"; "backup:schedule";
    "backup:monitor";
    "system:configure"; "system:monitor"; "system:logs" ].

Definition operator_permissions : list string :=
  [ "vm:start"; "vm:stop"; "vm:clone"; "vm:snapshot"; "vm:monitor";
    "lxc:start"; "lxc:stop"; "lxc:clone"; "lxc:snapshot"; "lxc:monitor";
    "node:monitor"; "node:tasks";
    "cluster:monitor";
    "storage:monitor"; "storage:upload";
    "network:monitor";
    "backup:create"; "backup:monitor";
    "system:monitor" ].

Definition viewer_permissions : list string :=
  [ "vm:monitor"; "lxc:monitor"; "node:monitor"; "cluster:monitor";
    "storage:monitor"; "network:monitor"; "backup:monitor"; "system:monitor" ].

(** The class attribute [ROLES] *)
Definition ROLES : gmap string (list string) :=
  <["admin" := admin_permissions]>
    (<["operator" := operator_permissions]>
       (<["viewer" := viewer_permissions]> ∅)).

(** [required_permission in user_permissions] *)
Definition py_in (x : string) (l : list string) : bool :=
  existsb (String.eqb x) l.

(** [get_user_permissions]: [cls.ROLES.get(user_role, [])] *)
Definition get_user_permissions (user_role : string) : list string :=
  default [] (ROLES !! user_role).

Definition check_permission (settings : Settings)
    (user_role required_permission : string) : bool :=
  if negb (enable_rbac settings) then true
  else
    let user_permissions := default [] (ROLES !! user_role) in
    py_in required_permission user_permissions.

End RBACManager.

(** ** The world the client runs in *)

(** The remote calls the modelled accessors issue, named after the path
    of [self.api] they go through. *)
Inductive RemoteCall : Type :=
| version_get
| qemu_status_start_post (node vmid : value)
| qemu_status_stop_post (node vmid : value)
| qemu_status_shutdown_post (node vmid : value)
| qemu_delete (node vmid : value) (purge : Z)
| tasks_status_get (node upid : value).

(** The first attribute a call reads off [self.api] *)
Definition first_attribute (c : RemoteCall) : string :=
  match c with
  | version_get => "version"
  | _ => "nodes"
  end.

(** What the endpoint does with one call: it answers or fails with an
    [Exception], after [took] microseconds. *)
Record Reply : Type := { answer : exn + value; took : Z }.

(** The endpoint behind [ProxmoxAPI], as a test double scripts it: the
    reply to a call may depend on every call made before it. *)
Definition Transport : Type := list RemoteCall -> RemoteCall -> Reply.

Inductive level : Type := INFO | WARNING | ERROR.

(** The fields of [ProxmoxClient] that outlive a call *)
Record ProxmoxClient : Type := {
  api : option Transport;
  _last_connection_check : option Z
}.

(** [clock] is what [datetime.now()] reads, in microseconds; [issued] the
    calls that reached the endpoint, oldest first; [slept] the arguments
    of [asyncio.sleep], in microseconds; [logged] the log records. *)
Record World : Type := {
  clock : Z;
  self : ProxmoxClient;
  issued : list RemoteCall;
  slept : list Z;
  logged : list (level * string)
}.

(** ** Computations: state, exceptions, and loops that may not end *)

(** How a computation ends: it returns, it raises an [Exception], it is
    still in a [while True] loop when the fuel runs out, or it is cut
    short by a [BaseException] that is no [Exception]. *)
Inductive outcome (A : Type) : Type :=
| Returned (a : A)
| Raised (e : exn)
| Pending
| Interrupted (b : BaseException).
Arguments Returned {A} a.
Arguments Raised {A} e.
Arguments Pending {A}.
Arguments Interrupted {A} b.

Definition M (A : Type) : Type := World -> outcome A * World.

Definition ret {A} (a : A) : M A := fun w => (Returned a, w).

Definition bind {A B} (m : M A) (k : A -> M B) : M B :=
  fun w =>
    match m w with
    | (Returned a, w') => k a w'
    | (Raised e, w') => (Raised e, w')
    | (Pending, w') => (Pending, w')
    | (Interrupted b, w') => (Interrupted b, w')
    end.

Definition raise {A} (e : exn) : M A := fun w => (Raised e, w).

Definition pending {A} : M A := fun w => (Pending, w).

(** A [BaseException] that is no [Exception], raised from outside: a
    cancellation, an interrupt from the keyboard *)
Definition interrupt {A} (b : BaseException) : M A := fun w => (Interrupted b, w).

(** [try: m  except Exception as e: handler e].  Only an [Exception] is
    handed to the handler: a [BaseException] that is none goes through. *)
Definition try_except {A} (m : M A) (handler : exn -> M A) : M A :=
  fun w =>
    match m w with
    | (Raised e, w') => handler e w'
    | r => r
    end.

Declare Scope py_scope.
Delimit Scope py_scope with py.
Notation "x <- m ;; k" := (bind m (fun x => k))
  (at level 100, m at next level, right associativity) : py_scope.
Notation "m ;;; k" := (bind m (fun _ => k))
  (at level 100, right associativity) : py_scope.
Local Open Scope py_scope.

(** A result or an exception, lifted *)
Definition lift {A} (r : exn + A) : M A :=
  match r with inl e => raise e | inr a => ret a end.

(** [datetime.now()] *)
Definition datetime_now : M Z := fun w => (Returned (clock w), w).

(** [datetime.utcnow()]: the same instant, read in UTC.  Only differences
    of two readings of the same kind are ever taken. *)
Definition datetime_utcnow : M Z := datetime_now.

(** [await asyncio.sleep(d)] *)
Definition sleep (d : Z) : M unit :=
  fun w => (Returned tt,
            {| clock := clock w + d; self := self w; issued := issued w;
               slept := slept w ++ [d]; logged := logged w |}).

(** [logger.<lvl>(msg)] *)
Definition log (lvl : level) (msg : string) : M unit :=
  fun w => (Returned tt,
            {| clock := clock w; self := self w; issued := issued w;
               slept := slept w; logged := logged w ++ [(lvl, msg)] |}).

(** One call through [self.api]: with no connection the attribute access
    on [None] fails and nothing is sent. *)
Definition remote (c : RemoteCall) : M value :=
  fun w =>
    match api (self w) with
    | None => (Raised (Exn.none_has_no (first_attribute c)), w)
    | Some endpoint =>
        let r := endpoint (issued w) c in
        (match answer r with inl e => Raised e | inr v => Returned v end,
         {| clock := clock w + took r; self := self w;
            issued := issued w ++ [c]; slept := slept w; logged := logged w |})
    end.

Definition set_last_connection_check (t : Z) : M unit :=
  fun w => (Returned tt,
            {| clock := clock w;
               self := {| api := api (self w);
                          _last_connection_check := Some t |};
               issued := issued w; slept := slept w; logged := logged w |}).

Module timedelta.
(** The [seconds] field of a difference of two datetimes, given in
    microseconds: what is left once whole days are taken out. *)
Definition seconds (delta : Z) : Z := (delta / 1000000) mod 86400.
Definition days (delta : Z) : Z := delta / 1000000 / 86400.
Definition total_seconds (delta : Z) : Z := delta / 1000000.
End timedelta.

Definition second : Z := 1000000.

(** [range(n)] *)
Definition range (n : Z) : list Z := map Z.of_nat (seq 0 (Z.to_nat n)).

(** [v[key]] for a string key *)
Definition getitem (v : value) (key : string) : exn + value :=
  match v with
  | VDict d =>
      match Py.lookup d key with
      | Some x => inr x
      | None => inl (Exn.key_error key)
      end
  | VList _ =>
      inl (Foreign "TypeError" "list indices must be integers or slices, not str")
  | VStr _ => inl (Foreign "TypeError" "string indices must be integers, not 'str'")
  | VNone => inl (Foreign "TypeError" "'NoneType' object is not subscriptable")
  | VBool _ => inl (Foreign "TypeError" "'bool' object is not subscriptable")
  | VInt _ => inl (Foreign "TypeError" "'int' object is not subscriptable")
  end.

(** [v.get(key)] *)
Definition get_method (v : value) (key : string) : exn + value :=
  match v with
  | VDict d => inr (Py.get d key VNone)
  | VList _ => inl (Foreign "AttributeError" "'list' object has no attribute 'get'")
  | VStr _ => inl (Foreign "AttributeError" "'str' object has no attribute 'get'")
  | VNone => inl (Foreign "AttributeError" "'NoneType' object has no attribute 'get'")
  | VBool _ => inl (Foreign "AttributeError" "'bool' object has no attribute 'get'")
  | VInt _ => inl (Foreign "AttributeError" "'int' object has no attribute 'get'")
  end.

(** [int(v)] *)
Module Builtins.

Definition is_space (c : ascii) : bool :=
  let n := N_of_ascii c in ((n =? 32) || ((9 <=? n) && (n <=? 13)))%N.

Definition digit (c : ascii) : option Z :=
  let n := N_of_ascii c in
  if ((48 <=? n) && (n <=? 57))%N then Some (Z.of_N (n - 48)) else None.

(** Decimal digits, with single underscores between two of them *)
Fixpoint digits (s : list ascii) (acc : Z) (after_digit : bool) : option Z :=
  match s with
  | [] => if after_digit then Some acc else None
  | c :: rest =>
      match digit c with
      | Some d => digits rest (10 * acc + d) true
      | None =>
          if Ascii.eqb c "_"%char && after_digit then digits rest acc false
          else None
      end
  end.

Fixpoint lstrip (s : list ascii) : list ascii :=
  match s with
  | c :: rest => if is_space c then lstrip rest else s
  | [] => []
  end.

(** The integer a string spells: spaces around, a sign, digits.  Digits
    and spaces from outside ASCII are not read. *)
Definition numeral (s : string) : option Z :=
  match rev (lstrip (rev (lstrip (list_ascii_of_string s)))) with
  | c :: rest =>
      if Ascii.eqb c "-"%char then option_map Z.opp (digits rest 0 false)
      else if Ascii.eqb c "+"%char then digits rest 0 false
      else digits (c :: rest) 0 false
  | [] => None
  end.

Definition not_a_number (type_name : string) : exn :=
  Foreign "TypeError"
    ("int() argument must be a string, a bytes-like object or a real number, not '"
       ++ type_name ++ "'").

Definition int (v : value) : exn + Z :=
  match v with
  | VInt z => inr z
  | VBool b => inr (if b then 1 else 0)
  | VStr s =>
      match numeral s with
      | Some z => inr z
      | None => inl (Foreign "ValueError"
                       ("invalid literal for int() with base 10: " ++ Py.repr_str s))
      end
  | VNone => inl (not_a_number "NoneType")
  | VList _ => inl (not_a_number "list")
  | VDict _ => inl (not_a_number "dict")
  end.

End Builtins.

(** ** The transport client ([src/proxmox_client.py]) *)

(** What [_execute_with_retry] is handed: a coroutine function or a plain
    callable (every call site passes a lambda). *)
Record Callable : Type := {
  iscoroutinefunction : bool;
  call : M value
}.

(** [lambda: self.api....] around one remote call *)
Definition lambda (c : RemoteCall) : Callable :=
  {| iscoroutinefunction := false; call := remote c |}.

(** [loop.run_in_executor(None, operation)], awaited at once *)
Definition run_in_executor (operation : Callable) : M value := call operation.

Module ProxmoxClient.

(** The body of [for attempt in range(max_retries)], over the attempts
    still to make, and the [raise] after the loop.  [delay] is in
    microseconds. *)
Fixpoint retry_from (operation : Callable) (max_retries delay : Z)
    (attempts : list Z) (last_exception : option exn) : M value :=
  match attempts with
  | [] =>
      raise (Exn.mcp ("Operation failed after " ++ Py.repr_int max_retries
                        ++ " attempts: " ++ Exn.str_opt last_exception))
  | attempt :: rest =>
      try_except
        (if iscoroutinefunction operation
         then call operation
         else run_in_executor operation)
        (fun e =>
           log WARNING ("Operation failed (attempt "
                          ++ Py.repr_int (attempt + 1) ++ "/"
                          ++ Py.repr_int max_retries ++ "): " ++ Exn.str e) ;;;
           (if attempt <? max_retries - 1
            then sleep (delay * 2 ^ attempt)
            else log ERROR ("Operation failed after "
                              ++ Py.repr_int max_retries ++ " attempts")) ;;;
           retry_from operation max_retries delay rest (Some e))
  end.

Definition _execute_with_retry (operation : Callable)
    (max_retries delay : Z) : M value :=
  retry_from operation max_retries delay (range max_retries) None.

(** The defaults [max_retries=3, delay=1.0] *)
Definition execute (operation : Callable) : M value :=
  _execute_with_retry operation 3 (1 * second).

Definition probe (now : Z) : M bool :=
  version_info <- execute (lambda version_get) ;;
  if Py.truthy version_info
  then (set_last_connection_check now ;;; ret true)
  else ret false.

Definition validate_connection : M bool :=
  try_except
    (fun w =>
       match api (self w) with
       | None => ret false w
       | Some _ =>
           (now <- datetime_now ;;
            match _last_connection_check (self w) with
            | Some checked =>
                if timedelta.seconds (now - checked) <? 300
                then ret true
                else probe now
            | None => probe now
            end) w
       end)
    (fun e =>
       log ERROR ("Connection validation failed: " ++ Exn.str e) ;;;
       ret false).

Definition start_vm (node vmid : value) : M value :=
  execute (lambda (qemu_status_start_post node vmid)).

Definition stop_vm (node vmid force : value) : M value :=
  if Py.truthy force
  then execute (lambda (qemu_status_stop_post node vmid))
  else execute (lambda (qemu_status_shutdown_post node vmid)).

Definition delete_vm (node vmid purge : value) : M value :=
  execute (lambda (qemu_delete node vmid (if Py.truthy purge then 1 else 0))).

Definition get_task_status (node upid : value) : M value :=
  execute (lambda (tasks_status_get node upid)).

(** The [while True] of [wait_for_task]; [timeout] is in seconds. *)
Fixpoint poll (fuel : nat) (node upid : value) (timeout start_time : Z)
    : M value :=
  match fuel with
  | O => pending
  | S fuel' =>
      status <- get_task_status node upid ;;
      state <- lift (getitem status "status") ;;
      if negb (Py.eq_str state "running") then ret status
      else
        now <- datetime_now ;;
        if timedelta.seconds (now - start_time) >? timeout
        then raise (Exn.mcp ("Task " ++ Py.str upid ++ " timed out after "
                               ++ Py.repr_int timeout ++ " seconds"))
        else (sleep (2 * second) ;;; poll fuel' node upid timeout start_time)
  end.

Definition wait_for_task (fuel : nat) (node upid : value) (timeout : Z)
    : M value :=
  start_time <- datetime_now ;;
  poll fuel node upid timeout start_time.

End ProxmoxClient.

(** ** The VM service ([src/services/vm_service.py]) *)

Module VMService.

Section WithClient.
(** [self.client]: the accessors of the client the three methods
    call, [wait_for_task(node, task_id)] with its timeout left at
    the default. *)
Variable client_start_vm : value -> value -> M value.
Variable client_stop_vm : value -> value -> value -> M value.
Variable client_delete_vm : value -> value -> value -> M value.
Variable client_wait_for_task : value -> value -> M value.

Definition start_vm_on (node vmid : value) : M value :=
  try_except
    (task_id <- client_start_vm node vmid ;;
     ret (VDict [ ("vmid", vmid); ("node", node); ("task_id", task_id);
                  ("action", VStr "start"); ("status", VStr "started") ]))
    (fun e =>
       log ERROR ("Failed to start VM " ++ Py.str vmid ++ ": " ++ Exn.str e) ;;;
       raise (Exn.mcp ("Failed to start VM: " ++ Exn.str e))).

Definition stop_vm_on (node vmid force : value) : M value :=
  try_except
    (task_id <- client_stop_vm node vmid force ;;
     ret (VDict [ ("vmid", vmid); ("node", node); ("task_id", task_id);
                  ("action", VStr "stop"); ("force", force);
                  ("status", VStr "stopped") ]))
    (fun e =>
       log ERROR ("Failed to stop VM " ++ Py.str vmid ++ ": " ++ Exn.str e) ;;;
       raise (Exn.mcp ("Failed to stop VM: " ++ Exn.str e))).

Definition delete_vm_on (node vmid purge : value) : M value :=
  try_except
    (task_id <- client_delete_vm node vmid purge ;;
     task_result <- client_wait_for_task node task_id ;;
     exitstatus <- lift (get_method task_result "exitstatus") ;;
     if negb (Py.eq_str exitstatus "OK")
     then raise (Exn.mcp ("VM deletion failed: " ++ Py.str exitstatus))
     else
       ret (VDict [ ("vmid", vmid); ("node", node); ("task_id", task_id);
                    ("action", VStr "delete"); ("purge", purge);
                    ("status", VStr "deleted") ]))
    (fun e =>
       log ERROR ("Failed to delete VM " ++ Py.str vmid ++ ": " ++ Exn.str e) ;;;
       raise (Exn.mcp ("Failed to delete VM: " ++ Exn.str e))).

End WithClient.

(** The three methods on the client of this process, [proxmox_client];
    [wait_for_task(node, task_id)] runs with its default timeout of
    300. *)
Definition start_vm (node vmid : value) : M value :=
  start_vm_on ProxmoxClient.start_vm node vmid.

Definition stop_vm (node vmid force : value) : M value :=
  stop_vm_on ProxmoxClient.stop_vm node vmid force.

Definition delete_vm (fuel : nat) (node vmid purge : value) : M value :=
  delete_vm_on ProxmoxClient.delete_vm
    (fun node task_id => ProxmoxClient.wait_for_task fuel node task_id 300)
    node vmid purge.

End VMService.

(** ** The tool dispatcher ([src/mcp_server.py]) *)

(** A call on one of the seven services, with its arguments in order. *)
Inductive ServiceCall : Type :=
| vm_list_vms (node filters : value)
| vm_get_vm_details (node vmid : value)
| vm_create_vm (node vmid config : value)
| vm_start_vm (node vmid : value)
| vm_stop_vm (node vmid force : value)
| vm_delete_vm (node vmid purge : value)
| vm_clone_vm (node vmid newid config : value)
| vm_migrate_vm (node vmid target_node config : value)
| lxc_list_containers (node filters : value)
| lxc_get_container_details (node vmid : value)
| lxc_create_container (node vmid config : value)
| lxc_start_container (node vmid : value)
| lxc_stop_container (node vmid force : value)
| lxc_delete_container (node vmid purge : value)
| lxc_clone_container (node vmid newid config : value)
| cluster_get_cluster_status
| cluster_get_cluster_resources (resource_type : value)
| cluster_get_ha_resources
| storage_list_storages (node : value)
| storage_get_storage_status (node storage : value)
| storage_get_storage_content (node storage content_type : value)
| network_get_network_config (node : value)
| network_create_bridge (node bridge_name config : value)
| node_list_nodes
| node_get_node_status (node : value)
| node_get_node_services (node : value)
| backup_create_backup (node vmid config : value)
| backup_list_backups (node storage : value)
| backup_restore_backup (node vmid archive config : value).

(** The services behind the dispatcher.  The three VM operations modelled
    above run as written; every other service method is a collaborator,
    given by [others]. *)
Definition services (fuel : nat) (others : ServiceCall -> M value)
    (c : ServiceCall) : M value :=
  match c with
  | vm_start_vm node vmid => VMService.start_vm node vmid
  | vm_stop_vm node vmid force => VMService.stop_vm node vmid force
  | vm_delete_vm node vmid purge => VMService.delete_vm fuel node vmid purge
  | _ => others c
  end.

Record TextContent : Type := { type : string; text : string }.

(** One entry of [handle_list_tools]: the name and the [required] list of
    its input schema. *)
Record Tool : Type := { name : string; required : list string }.

Module ProxmoxMCPServer.

Definition handle_list_tools : list Tool :=
  [ {| name := "list_vms"; required := [] |};
    {| name := "get_vm_details"; required := ["node"; "vmid"] |};
    {| name := "create_vm"; required := ["node"; "vmid"; "config"] |};
    {| name := "start_vm"; required := ["node"; "vmid"] |};
    {| name := "stop_vm"; required := ["node"; "vmid"] |};
    {| name := "delete_vm"; required := ["node"; "vmid"] |};
    {| name := "clone_vm"; required := ["node"; "vmid"; "newid"] |};
    {| name := "migrate_vm"; required := ["node"; "vmid"; "target_node"] |};
    {| name := "list_containers"; required := [] |};
    {| name := "get_container_details"; required := ["node"; "vmid"] |};
    {| name := "create_container"; required := ["node"; "vmid"; "config"] |};
    {| name := "start_container"; required := ["node"; "vmid"] |};
    {| name := "stop_container"; required := ["node"; "vmid"] |};
    {| name := "delete_container"; required := ["node"; "vmid"] |};
    {| name := "clone_container"; required := ["node"; "vmid"; "newid"] |};
    {| name := "get_cluster_status"; required := [] |};
    {| name := "get_cluster_resources"; required := [] |};
    {| name := "get_ha_resources"; required := [] |};
    {| name := "list_storages"; required := [] |};
    {| name := "get_storage_status"; required := ["node"; "storage"] |};
    {| name := "get_storage_content"; required := ["node"; "storage"] |};
    {| name := "get_network_config"; required := ["node"] |};
    {| name := "create_bridge"; required := ["node"; "bridge_name"] |};
    {| name := "list_nodes"; required := [] |};
    {| name := "get_node_status"; required := ["node"] |};
    {| name := "get_node_services"; required := ["node"] |};
    {| name := "create_backup"; required := ["node"; "vmid"; "config"] |};
    {| name := "list_backups"; required := [] |};
    {| name := "restore_backup"; required := ["node"; "vmid"; "archive"] |} ].

(** [arguments[key]] *)
Definition arg (arguments : dict) (key : string) : M value :=
  lift (getitem (VDict arguments) key).

(** [arguments.get(key)] *)
Definition opt (arguments : dict) (key : string) : value :=
  Py.get arguments key VNone.

(** The [filters] dictionary of the two listing tools *)
Definition status_filter (arguments : dict) : value :=
  VDict (match Py.lookup arguments "status" with
         | Some v => Py.setitem [] "status" v
         | None => []
         end).

Section Dispatch.
Variable svc : ServiceCall -> M value.

Definition _execute_tool (name : string) (arguments : dict) : M value :=
  if String.eqb name "list_vms" then
    svc (vm_list_vms (opt arguments "node") (status_filter arguments))
  else if String.eqb name "get_vm_details" then
    node <- arg arguments "node" ;; vmid <- arg arguments "vmid" ;;
    svc (vm_get_vm_details node vmid)
  else if String.eqb name "create_vm" then
    node <- arg arguments "node" ;; vmid <- arg arguments "vmid" ;;
    config <- arg arguments "config" ;;
    svc (vm_create_vm node vmid config)
  else if String.eqb name "start_vm" then
    node <- arg arguments "node" ;; vmid <- arg arguments "vmid" ;;
    svc (vm_start_vm node vmid)
  else if String.eqb name "stop_vm" then
    node <- arg arguments "node" ;; vmid <- arg arguments "vmid" ;;
    svc (vm_stop_vm node vmid (Py.get arguments "force" (VBool false)))
  else if String.eqb name "delete_vm" then
    node <- arg arguments "node" ;; vmid <- arg arguments "vmid" ;;
    svc (vm_delete_vm node vmid (Py.get arguments "purge" (VBool false)))
  else if String.eqb name "clone_vm" then
    node <- arg arguments "node" ;; vmid <- arg arguments "vmid" ;;
    newid <- arg arguments "newid" ;;
    svc (vm_clone_vm node vmid newid (opt arguments "config"))
  else if String.eqb name "migrate_vm" then
    node <- arg arguments "node" ;; vmid <- arg arguments "vmid" ;;
    target_node <- arg arguments "target_node" ;;
    svc (vm_migrate_vm node vmid target_node (opt arguments "config"))
  else if String.eqb name "list_containers" then
    svc (lxc_list_containers (opt arguments "node") (status_filter arguments))
  else if String.eqb name "get_container_details" then
    node <- arg arguments "node" ;; vmid <- arg arguments "vmid" ;;
    svc (lxc_get_container_details node vmid)
  else if String.eqb name "create_container" then
    node <- arg arguments "node" ;; vmid <- arg arguments "vmid" ;;
    config <- arg arguments "config" ;;
    svc (lxc_create_container node vmid config)
  else if String.eqb name "start_container" then
    node <- arg arguments "node" ;; vmid <- arg arguments "vmid" ;;
    svc (lxc_start_container node vmid)
  else if String.eqb name "stop_container" then
    node <- arg arguments "node" ;; vmid <- arg arguments "vmid" ;;
    svc (lxc_stop_container node vmid (Py.get arguments "force" (VBool false)))
  else if String.eqb name "delete_container" then
    node <- arg arguments "node" ;; vmid <- arg arguments "vmid" ;;
    svc (lxc_delete_container node vmid (Py.get arguments "purge" (VBool false)))
  else if String.eqb name "clone_container" then
    node <- arg arguments "node" ;; vmid <- arg arguments "vmid" ;;
    newid <- arg arguments "newid" ;;
    svc (lxc_clone_container node vmid newid (opt arguments "config"))
  else if String.eqb name "get_cluster_status" then
    svc cluster_get_cluster_status
  else if String.eqb name "get_cluster_resources" then
    svc (cluster_get_cluster_resources (opt arguments "type"))
  else if String.eqb name "get_ha_resources" then
    svc cluster_get_ha_resources
  else if String.eqb name "list_storages" then
    svc (storage_list_storages (opt arguments "node"))
  else if String.eqb name "get_storage_status" then
    node <- arg arguments "node" ;; storage <- arg arguments "storage" ;;
    svc (storage_get_storage_status node storage)
  else if String.eqb name "get_storage_content" then
    node <- arg arguments "node" ;; storage <- arg arguments "storage" ;;
    svc (storage_get_storage_content node storage (opt arguments "content_type"))
  else if String.eqb name "get_network_config" then
    node <- arg arguments "node" ;;
    svc (network_get_network_config node)
  else if String.eqb name "create_bridge" then
    node <- arg arguments "node" ;; bridge_name <- arg arguments "bridge_name" ;;
    svc (network_create_bridge node bridge_name (opt arguments "config"))
  else if String.eqb name "list_nodes" then
    svc node_list_nodes
  else if String.eqb name "get_node_status" then
    node <- arg arguments "node" ;;
    svc (node_get_node_status node)
  else if String.eqb name "get_node_services" then
    node <- arg arguments "node" ;;
    svc (node_get_node_services node)
  else if String.eqb name "create_backup" then
    node <- arg arguments "node" ;; vmid <- arg arguments "vmid" ;;
    config <- arg arguments "config" ;;
    svc (backup_create_backup node vmid config)
  else if String.eqb name "list_backups" then
    svc (backup_list_backups (opt arguments "node") (opt arguments "storage"))
  else if String.eqb name "restore_backup" then
    node <- arg arguments "node" ;; vmid <- arg arguments "vmid" ;;
    archive <- arg arguments "archive" ;;
    svc (backup_restore_backup node vmid archive (opt arguments "config"))
  else
    raise (Exn.mcp ("Unknown tool: " ++ name)).

Definition handle_call_tool (name : string) (arguments : dict)
    : M (list TextContent) :=
  try_except
    (result <- _execute_tool name arguments ;;
     ret [ {| type := "text"; text := Py.str result |} ])
    (fun e =>
       log ERROR ("Error executing tool " ++ name ++ ": " ++ Exn.str e) ;;;
       ret [ {| type := "text";
                text := "Tool execution failed: " ++ Exn.str e |} ]).

End Dispatch.

End ProxmoxMCPServer.

(** ** Bearer tokens ([src/auth.py], [JWTManager]) *)

(** A claim as the caller hands it over: a JSON value, or a [datetime]
    (in microseconds), which is what [create_access_token] stores under
    ["exp"]. *)
Inductive claim : Type :=
| Plain (v : value)
| Datetime (microseconds : Z).

Abbreviation claims := (list (string * claim)).

Module Jose.

(** The classes [except JWTError] catches: the class and its subclasses *)
Definition is_JWTError (e : exn) : bool :=
  match e with
  | Foreign c _ =>
      existsb (String.eqb c) ["JWTError"; "ExpiredSignatureError"; "JWTClaimsError"]
  | Proxmox _ _ _ _ => false
  end.

(** A claim on the wire: a [datetime] travels as whole seconds *)
Definition on_wire (c : claim) : value :=
  match c with
  | Plain v => v
  | Datetime t => VInt (t / 1000000)
  end.

Definition wire (c : claims) : dict := map (fun kv => (fst kv, on_wire (snd kv))) c.

(** The expiry test of the token library, [now] in whole seconds *)
Definition expired (payload : dict) (now : Z) : bool :=
  match Py.lookup payload "exp" with
  | Some (VInt e) => e <? now
  | _ => false
  end.

(** [_validate_exp(claims)] of the library, [now] in whole seconds:
    [int(claims['exp'])] is taken, a [ValueError] of which becomes a
    [JWTClaimsError]; any other error of [int] is let through. *)
Definition _validate_exp (payload : dict) (now : Z) : exn + unit :=
  match Py.lookup payload "exp" with
  | None => inr tt
  | Some v =>
      match Builtins.int v with
      | inr exp =>
          if exp <? now
          then inl (Foreign "ExpiredSignatureError" "Signature has expired.")
          else inr tt
      | inl (Foreign c t) =>
          if String.eqb c "ValueError"
          then inl (Foreign "JWTClaimsError"
                      "Expiration Time claim (exp) must be an integer.")
          else inl (Foreign c t)
      | inl e => inl e
      end
  end.

(** Claim names the library validates besides ["exp"] *)
Definition validated_names : list string :=
  ["nbf"; "iat"; "aud"; "iss"; "sub"; "jti"; "at_hash"].

(** Claims of which the library checks nothing but the expiry, and for
    which the expiry test is the comparison of two integers: a subject
    that is a string, an expiry that is a [datetime] or an integer, and
    no other validated name. *)
Definition only_expiry_checked (c : claims) : bool :=
  forallb (fun kv =>
             if String.eqb (fst kv) "sub"
             then match snd kv with Plain (VStr _) => true | _ => false end
             else if String.eqb (fst kv) "exp"
             then match snd kv with
                  | Datetime _ | Plain (VInt _) => true
                  | _ => false
                  end
             else negb (existsb (String.eqb (fst kv)) validated_names))
          c.

End Jose.

Module JWTManager.

Section WithLibrary.
(** The token library ([jose.jwt]): the type of its tokens, [encode]
    and [decode], the last one given the time it reads, in whole
    seconds. *)
Variable Token : Type.
Variable jwt_encode : claims -> string -> string -> exn + Token.
Variable jwt_decode : Token -> string -> list string -> Z -> exn + dict.
Variable settings : Settings.

(** [expires_delta] is a [timedelta] in microseconds *)
Definition create_access_token (data : claims) (expires_delta : option Z)
    : M Token :=
  let to_encode := data in
  utcnow <- datetime_utcnow ;;
  let expire :=
    match expires_delta with
    | Some delta =>
        if delta =? 0
        then utcnow + jwt_expire_minutes settings * 60 * second
        else utcnow + delta
    | None => utcnow + jwt_expire_minutes settings * 60 * second
    end in
  let to_encode := Py.setitem to_encode "exp" (Datetime expire) in
  lift (jwt_encode to_encode (secret_key settings) (jwt_algorithm settings)).

Definition verify_token (token : Token) : M (option dict) :=
  fun w =>
    match jwt_decode token (secret_key settings) [jwt_algorithm settings]
            (clock w / 1000000) with
    | inr payload => (Returned (Some payload), w)
    | inl e =>
        if Jose.is_JWTError e
        then (log ERROR ("JWT verification failed: " ++ Exn.str e) ;;;
              ret None) w
        else (Raised e, w)
    end.

End WithLibrary.

End JWTManager.

(** A symbolic token library: a token is the claims it was made from,
    under the key and algorithm that signed it, or text that is no token.
    Reading a token checks the signature first and the expiry after it,
    as the library does; the claims it is run on hold no other name the
    library validates. *)
Module Symbolic.

Inductive Token : Type :=
| Signed (c : claims) (key algorithm : string)
| Junk (s : string).

Definition encode (c : claims) (key algorithm : string) : exn + Token :=
  inr (Signed c key algorithm).

Definition decode (t : Token) (key : string) (algorithms : list string)
    (now : Z) : exn + dict :=
  match t with
  | Signed c k a =>
      if String.eqb k key && existsb (String.eqb a) algorithms
      then match Jose._validate_exp (Jose.wire c) now with
           | inl e => inl e
           | inr _ => inr (Jose.wire c)
           end
      else inl (Foreign "JWTError" "Signature verification failed.")
  | Junk _ => inl (Foreign "JWTError" "Not enough segments")
  end.

End Symbolic.

(** ** Operations, worlds and endpoints to state the properties on *)

(** An operation that is one remote call, as every call site passes *)
Definition one_call (coroutine : bool) (c : RemoteCall) : Callable :=
  {| iscoroutinefunction := coroutine; call := remote c |}.

(** A task status that is still running *)
Definition running : value := VDict [("status", VStr "running")].

(** Worlds and endpoints to run the code on *)
Module Scenario.

Definition connected (endpoint : Transport) (at_time : Z) : World :=
  {| clock := at_time;
     self := {| api := Some endpoint; _last_connection_check := None |};
     issued := []; slept := []; logged := [] |}.

Definition refused : exn := Foreign "ConnectionError" "connection refused".

(** Down for the first [k] calls, then answering [v] *)
Definition flaky (k : nat) (v : value) : Transport :=
  fun history _ =>
    if (length history <? k)%nat
    then {| answer := inl refused; took := 0 |}
    else {| answer := inr v; took := 0 |}.

(** Each status fetch takes ten hours and reports ["running"] *)
Definition slow_task : Transport :=
  fun _ _ => {| answer := inr running; took := 36000 * second |}.

(** Down for good *)
Definition down : Transport :=
  fun _ _ => {| answer := inl refused; took := 0 |}.

End Scenario.


(** ** The response envelope, in the words of the specification

    [{success: bool, result?: any, error?: {code, message}}].  The code
    has no such value; these two are here to compare its replies with. *)
Module Spec.

Definition error_envelope (code message : string) : value :=
  VDict [ ("success", VBool false);
          ("error", VDict [("code", VStr code); ("message", VStr message)]) ].

Definition success_envelope (result : value) : value :=
  VDict [ ("success", VBool true); ("result", result) ].

(** [part in s] on strings *)
Definition occurs (part s : string) : bool :=
  match String.index 0 part s with Some _ => true | None => false end.

End Spec.

(** More scenarios: the dispatcher's collaborators and a task endpoint *)
Module Stage.

(** Services other than the VM ones, not exercised *)
Definition idle : ServiceCall -> M value := fun _ => ret VNone.

(** Accepts a start call with the handle ["UPID:123"]; a status fetch
    reports ["running"] twice and ["stopped"] with exit status ["OK"]
    from then on. *)
Definition accepting : Transport :=
  fun history c =>
    match c with
    | tasks_status_get _ _ =>
        let polls :=
          length (List.filter (fun c' => match c' with
                                    | tasks_status_get _ _ => true
                                    | _ => false
                                    end) history) in
        if (polls <? 2)%nat
        then {| answer := inr running; took := 0 |}
        else {| answer := inr (VDict [("status", VStr "stopped");
                                      ("exitstatus", VStr "OK")]);
                took := 0 |}
    | _ => {| answer := inr (VStr "UPID:123"); took := 0 |}
    end.

Definition start_arguments : dict := [("node", VStr "pve1"); ("vmid", VInt 101)].

(** A coroutine that is cancelled as soon as it is awaited *)
Definition cancelled : Callable :=
  {| iscoroutinefunction := true; call := interrupt CancelledError |}.

(** Services that are cancelled as soon as they are awaited *)
Definition cancelled_services : ServiceCall -> M value :=
  fun _ => interrupt CancelledError.

End Stage.

(** ** What a computation does to the record of calls *)

(** [w'] is [w] with more calls issued, on the same connection *)
Definition extends (w w' : World) : Prop :=
  (exists more, issued w' = (issued w ++ more)%list)
  /\ api (self w') = api (self w).

(** A computation that only ever appends to the record *)
Definition appending {A} (m : M A) : Prop :=
  forall w, extends w (snd (m w)).

(** A computation whose first call to the endpoint is [c] *)
Definition opens_with {A} (c : RemoteCall) (m : M A) (w : World) : Prop :=
  exists more, issued (snd (m w)) = (issued w ++ c :: more)%list.


(** ** Helpers to state the token properties *)

(** How long a token lives, in microseconds: the [expires_delta] handed
    in if it is there and not zero, the configured minutes otherwise. *)
Definition lifetime (settings : Settings) (expires_delta : option Z) : Z :=
  match expires_delta with
  | Some delta =>
      if delta =? 0 then jwt_expire_minutes settings * 60 * second else delta
  | None => jwt_expire_minutes settings * 60 * second
  end.

(** The claims [{sub: subject}] *)
Definition subject_claims (subject : string) : claims :=
  [("sub", Plain (VStr subject))].

(** A token for ["alice"], signed with the server's key, whose expiry
    is [null] *)
Definition token_without_expiry (key algorithm : string) : Symbolic.Token :=
  Symbolic.Signed [("sub", Plain (VStr "alice")); ("exp", Plain VNone)]
    key algorithm.

(** * More of the code *)

(** ** Helpers to state what connection validation does *)

(** No check on record, or one that [seconds] puts at 300 or more *)
Definition due (w : World) : Prop :=
  match _last_connection_check (self w) with
  | Some checked => 300 <= timedelta.seconds (clock w - checked)
  | None => True
  end.

(** ** Helpers to state what the task wait does *)

(** A status that ends the wait: it has a ["status"] entry that is not
    ["running"]. *)
Definition terminal (status : value) : Prop :=
  exists state,
    getitem status "status" = inr state /\ Py.eq_str state "running" = false.

(** The endpoint reports ["running"], at once, to the first [j] status
    fetches after the calls in [history], and [final] to the next. *)
Definition reports_after (endpoint : Transport) (history : list RemoteCall)
    (node upid : value) (j : nat) (final : value) : Prop :=
  (forall i, (i < j)%nat ->
     endpoint (history ++ repeat (tasks_status_get node upid) i)%list
       (tasks_status_get node upid)
     = {| answer := inr running; took := 0 |})
  /\ answer (endpoint (history ++ repeat (tasks_status_get node upid) j)%list
               (tasks_status_get node upid)) = inr final.

(** ** Connecting and disconnecting ([src/proxmox_client.py]) *)

(** [self.api = handle] *)
Definition set_api (handle : option Transport) : M unit :=
  fun w => (Returned tt,
            {| clock := clock w;
               self := {| api := handle;
                          _last_connection_check :=
                            _last_connection_check (self w) |};
               issued := issued w; slept := slept w; logged := logged w |}).

(** [v.get(key, dflt)] *)
Definition get_method_or (v : value) (key : string) (dflt : value) : exn + value :=
  match v with
  | VDict d => inr (Py.get d key dflt)
  | VList _ => inl (Foreign "AttributeError" "'list' object has no attribute 'get'")
  | VStr _ => inl (Foreign "AttributeError" "'str' object has no attribute 'get'")
  | VNone => inl (Foreign "AttributeError" "'NoneType' object has no attribute 'get'")
  | VBool _ => inl (Foreign "AttributeError" "'bool' object has no attribute 'get'")
  | VInt _ => inl (Foreign "AttributeError" "'int' object has no attribute 'get'")
  end.

(** [connect] and [disconnect] of [ProxmoxClient].  The [requests]
    session they open and close is kept in [self.session] and read by
    nothing else; it and the empty [_connection_cache] are left out. *)
Module Lifecycle.

Section Connect.
(** What [ProxmoxAPI(host=..., user=..., ...)] gives this time: the
    handle on the endpoint, or the failure to log in. *)
Variable ProxmoxAPI : exn + Transport.

Definition connect : M bool :=
  try_except
    (handle <- lift ProxmoxAPI ;;
     set_api (Some handle) ;;;
     version_info <- ProxmoxClient.execute (lambda version_get) ;;
     if negb (Py.truthy version_info)
     then (log ERROR "Failed to retrieve Proxmox version information" ;;;
           ret false)
     else
       version <- lift (get_method_or version_info "version" (VStr "Unknown")) ;;
       log INFO ("Successfully connected to Proxmox VE: " ++ Py.str version) ;;;
       now <- datetime_now ;;
       set_last_connection_check now ;;;
       ret true)
    (fun e =>
       log ERROR ("Failed to connect to Proxmox VE: " ++ Exn.str e) ;;;
       ret false).

End Connect.

Definition disconnect : M unit :=
  try_except
    (set_api None ;;;
     log INFO "Disconnected from Proxmox VE")
    (fun e => log ERROR ("Error during disconnect: " ++ Exn.str e)).

End Lifecycle.

(** ** The session manager ([src/auth.py], [ProxmoxAuthManager]) *)

Module ProxmoxAuthManager.

Section Manager.
Variable ProxmoxAPI : exn + Transport.
(** [settings.proxmox_host] *)
Variable proxmox_host : string.

Definition connect : M bool :=
  try_except
    (success <- Lifecycle.connect ProxmoxAPI ;;
     (if success
      then log INFO ("Successfully connected to Proxmox VE: " ++ proxmox_host)
      else ret tt) ;;;
     ret success)
    (fun e =>
       log ERROR ("Failed to connect to Proxmox VE: " ++ Exn.str e) ;;;
       ret false).

End Manager.

Definition disconnect : M unit :=
  try_except
    (Lifecycle.disconnect ;;;
     log INFO "Disconnected from Proxmox VE")
    (fun e => log ERROR ("Error during disconnect: " ++ Exn.str e)).

Definition validate_connection : M bool :=
  try_except ProxmoxClient.validate_connection
    (fun e =>
       log ERROR ("Connection validation failed: " ++ Exn.str e) ;;;
       ret false).

End ProxmoxAuthManager.

(** A computation that leaves the client as it found it *)
Definition keeps_client {A} (m : M A) : Prop :=
  forall w, self (snd (m w)) = self w.

(** ** Resources ([src/mcp_server.py]) *)

(** What a resource is read from: one method of one service, called
    with no argument. *)
Inductive ResourceSource : Type :=
| from_cluster_status
| from_cluster_resources
| from_node_summary
| from_list_vms
| from_list_containers
| from_storage_summary
| from_network_summary
| from_backup_summary.

(** One entry of [handle_list_resources]: its URI and its name *)
Record Resource : Type := { uri : string; title : string }.

Module Resources.

Definition handle_list_resources : list Resource :=
  [ {| uri := "proxmox://cluster/status"; title := "Cluster Status" |};
    {| uri := "proxmox://cluster/resources"; title := "Cluster Resources" |};
    {| uri := "proxmox://nodes/summary"; title := "Nodes Summary" |};
    {| uri := "proxmox://vms/list"; title := "Virtual Machines" |};
    {| uri := "proxmox://containers/list"; title := "LXC Containers" |};
    {| uri := "proxmox://storage/summary"; title := "Storage Summary" |};
    {| uri := "proxmox://network/summary"; title := "Network Summary" |};
    {| uri := "proxmox://backups/summary"; title := "Backup Summary" |} ].

Section Read.
(** The service methods behind the resources *)
Variable read : ResourceSource -> M value.

(** [x = await ...; return str(x)] *)
Definition serve (source : ResourceSource) : M string :=
  x <- read source ;; ret (Py.str x).

Definition handle_read_resource (uri : string) : M string :=
  try_except
    (if String.eqb uri "proxmox://cluster/status" then
       serve from_cluster_status
     else if String.eqb uri "proxmox://cluster/resources" then
       serve from_cluster_resources
     else if String.eqb uri "proxmox://nodes/summary" then
       serve from_node_summary
     else if String.eqb uri "proxmox://vms/list" then
       serve from_list_vms
     else if String.eqb uri "proxmox://containers/list" then
       serve from_list_containers
     else if String.eqb uri "proxmox://storage/summary" then
       serve from_storage_summary
     else if String.eqb uri "proxmox://network/summary" then
       serve from_network_summary
     else if String.eqb uri "proxmox://backups/summary" then
       serve from_backup_summary
     else
       raise (Exn.mcp ("Unknown resource URI: " ++ uri)))
    (fun e =>
       log ERROR ("Error reading resource " ++ uri ++ ": " ++ Exn.str e) ;;;
       raise (Exn.mcp ("Failed to read resource: " ++ Exn.str e))).

End Read.

End Resources.

(** ** More of Python: equality, iteration, membership, merging *)

Module Py2.

(** [a == b] on values.  [True] and [False] are the numbers 1 and 0;
    dictionaries are equal when they hold the same keys with equal
    values, in whatever order. *)
Fixpoint eqv (a b : value) {struct a} : bool :=
  match a, b with
  | VNone, VNone => true
  | VBool x, VBool y => Bool.eqb x y
  | VBool x, VInt z => z =? (if x then 1 else 0)
  | VInt z, VBool x => z =? (if x then 1 else 0)
  | VInt x, VInt y => x =? y
  | VStr x, VStr y => String.eqb x y
  | VList x, VList y =>
      (fix all2 (x : list value) (y : list value) {struct x} : bool :=
         match x, y with
         | [], [] => true
         | a :: x', b :: y' => eqv a b && all2 x' y'
         | _, _ => false
         end) x y
  | VDict x, VDict y =>
      (length x =? length y)%nat
      && (fix within (x : list (string * value)) {struct x} : bool :=
            match x with
            | [] => true
            | (k, v) :: x' =>
                match Py.lookup y k with
                | Some v' => eqv v v' && within x'
                | None => false
                end
            end) x
  | _, _ => false
  end.

Definition type_name (v : value) : string :=
  match v with
  | VNone => "NoneType"
  | VBool _ => "bool"
  | VInt _ => "int"
  | VStr _ => "str"
  | VList _ => "list"
  | VDict _ => "dict"
  end.

(** What [for x in v] goes through *)
Definition iterate (v : value) : exn + list value :=
  match v with
  | VList l => inr l
  | VDict d => inr (map (fun kv => VStr (fst kv)) d)
  | VStr s => inr (map (fun c => VStr (String c EmptyString)) (list_ascii_of_string s))
  | _ => inl (Foreign "TypeError"
                ("'" ++ type_name v ++ "' object is not iterable"))
  end.

(** [part in s] on strings *)
Definition substring (part s : string) : bool :=
  match String.index 0 part s with Some _ => true | None => false end.

(** [key in v] for a string [key] *)
Definition contains (v : value) (key : string) : exn + bool :=
  match v with
  | VDict d => inr (Py.contains d key)
  | VList l => inr (existsb (fun x => Py.eq_str x key) l)
  | VStr s => inr (substring key s)
  | _ => inl (Foreign "TypeError"
                ("argument of type '" ++ type_name v ++ "' is not iterable"))
  end.

(** [{**base, **extra}]: a key of [extra] that [base] has keeps its
    place and takes the new value, the others follow in order. *)
Definition merge (base extra : dict) : dict :=
  fold_left (fun acc kv => Py.setitem acc (fst kv) (snd kv)) extra base.

(** [{k: v for k, v in d.items() if v is not None}] *)
Definition drop_none (d : dict) : dict :=
  List.filter (fun kv => match snd kv with VNone => false | _ => true end) d.

(** [config or {}] *)
Definition or_empty (config : value) : value :=
  if Py.truthy config then config else VDict [].

(** [f(a, b, **kwargs)] for a method [f] whose parameters before
    [**kwargs] are [positional]: a keyword that bears one of those
    names is refused before [f] is entered, and the error names the
    first such keyword, in the order of [kwargs]. *)
Definition keywords (qualname : string) (positional : list string)
    (kwargs : dict) : exn + dict :=
  match List.find (fun kv => existsb (String.eqb (fst kv)) positional) kwargs with
  | Some (key, _) =>
      inl (Foreign "TypeError"
             (qualname ++ "() got multiple values for argument '" ++ key ++ "'"))
  | None => inr kwargs
  end.

End Py2.

(** ** The rest of the VM service ([src/services/vm_service.py]) *)

Module VMService2.

(** The test of the inner loop of [list_vms]: no filter entry whose key
    the VM has with another value. *)
Fixpoint matches (filters : dict) (vm : value) : exn + bool :=
  match filters with
  | [] => inr true
  | (key, wanted) :: rest =>
      match Py2.contains vm key with
      | inl e => inl e
      | inr false => matches rest vm
      | inr true =>
          match getitem vm key with
          | inl e => inl e
          | inr held =>
              if negb (Py2.eqv held wanted) then inr false
              else matches rest vm
          end
      end
  end.

(** The outer loop of [list_vms] *)
Fixpoint select (filters : dict) (vms : list value) : exn + list value :=
  match vms with
  | [] => inr []
  | vm :: rest =>
      match matches filters vm with
      | inl e => inl e
      | inr keep =>
          match select filters rest with
          | inl e => inl e
          | inr kept => inr (if keep then vm :: kept else kept)
          end
      end
  end.

(** The request [create_vm] builds from the caller's [config] *)
Definition vm_config_of (config : dict) : dict :=
  Py2.drop_none
    (Py2.merge
       [ ("memory", Py.get config "memory" VNone);
         ("cores", Py.get config "cores" (VInt 1));
         ("sockets", Py.get config "sockets" (VInt 1));
         ("cpu", Py.get config "cpu" (VStr "kvm64"));
         ("ostype", Py.get config "ostype" (VStr "l26"));
         ("boot", Py.get config "boot" (VStr "cdn"));
         ("net0", Py.get config "net0" (VStr "virtio,bridge=vmbr0")) ]
       config).

(** The parameters [clone_vm] sends along *)
Definition clone_params_of (node vmid : value) (clone_config : dict) : dict :=
  Py2.merge
    [ ("name", Py.get clone_config "name" (VStr ("clone-of-" ++ Py.str vmid)));
      ("full", Py.get clone_config "full" (VInt 1));
      ("target", Py.get clone_config "target" node) ]
    clone_config.

(** The parameters [migrate_vm] sends along *)
Definition migrate_params_of (migrate_config : dict) : dict :=
  Py2.merge
    [ ("online", Py.get migrate_config "online" (VInt 1));
      ("with-local-disks", Py.get migrate_config "with_local_disks" (VInt 0)) ]
    migrate_config.

(** A dictionary, or the error of reading [.get] off something else *)
Definition as_dict (v : value) : exn + dict :=
  match v with
  | VDict d => inr d
  | _ => inl (Foreign "AttributeError"
                ("'" ++ Py2.type_name v ++ "' object has no attribute 'get'"))
  end.

Section WithClient.
(** The accessors of the client these methods call, each one remote
    call behind the retry wrapper: [get_vms(node)],
    [create_vm(node, vmid, **kwargs)],
    [clone_vm(node, vmid, newid, **kwargs)] and
    [migrate_vm(node, vmid, target, **kwargs)], as they run once
    Python has bound their arguments. *)
Variable get_vms : value -> M value.
Variable client_create_vm : value -> value -> dict -> M value.
Variable client_clone_vm : value -> value -> value -> dict -> M value.
Variable client_migrate_vm : value -> value -> value -> dict -> M value.

Definition list_vms (node : value) (filters : option dict) : M value :=
  try_except
    (vms <- get_vms node ;;
     match filters with
     | Some ((_ :: _) as wanted) =>
         each <- lift (Py2.iterate vms) ;;
         filtered_vms <- lift (select wanted each) ;;
         ret (VList filtered_vms)
     | _ => ret vms
     end)
    (fun e =>
       log ERROR ("Failed to list VMs: " ++ Exn.str e) ;;;
       raise (Exn.mcp ("Failed to list VMs: " ++ Exn.str e))).

Definition create_vm (fuel : nat) (node vmid config : value) : M value :=
  try_except
    (settings <- lift (as_dict config) ;;
     if negb (Py.truthy (Py.get settings "memory" VNone))
     then raise (Exn.mcp "Memory configuration is required")
     else
       let vm_config := vm_config_of settings in
       kwargs <- lift (Py2.keywords "ProxmoxClient.create_vm"
                         ["self"; "node"; "vmid"] vm_config) ;;
       task_id <- client_create_vm node vmid kwargs ;;
       task_result <- ProxmoxClient.wait_for_task fuel node task_id 300 ;;
       exitstatus <- lift (get_method task_result "exitstatus") ;;
       if negb (Py.eq_str exitstatus "OK")
       then raise (Exn.mcp ("VM creation failed: " ++ Py.str exitstatus))
       else
         ret (VDict [ ("vmid", vmid); ("node", node); ("task_id", task_id);
                      ("status", VStr "created");
                      ("config", VDict vm_config) ]))
    (fun e =>
       log ERROR ("Failed to create VM " ++ Py.str vmid ++ ": " ++ Exn.str e) ;;;
       raise (Exn.mcp ("Failed to create VM: " ++ Exn.str e))).

Definition clone_vm (fuel : nat) (node vmid newid config : value) : M value :=
  try_except
    (clone_config <- lift (as_dict (Py2.or_empty config)) ;;
     let clone_params := clone_params_of node vmid clone_config in
     kwargs <- lift (Py2.keywords "ProxmoxClient.clone_vm"
                       ["self"; "node"; "vmid"; "newid"] clone_params) ;;
     task_id <- client_clone_vm node vmid newid kwargs ;;
     task_result <- ProxmoxClient.wait_for_task fuel node task_id 300 ;;
     exitstatus <- lift (get_method task_result "exitstatus") ;;
     if negb (Py.eq_str exitstatus "OK")
     then raise (Exn.mcp ("VM cloning failed: " ++ Py.str exitstatus))
     else
       ret (VDict [ ("source_vmid", vmid); ("new_vmid", newid);
                    ("node", node);
                    ("target_node", Py.get clone_params "target" node);
                    ("task_id", task_id); ("action", VStr "clone");
                    ("status", VStr "cloned");
                    ("config", VDict clone_params) ]))
    (fun e =>
       log ERROR ("Failed to clone VM " ++ Py.str vmid ++ " to "
                    ++ Py.str newid ++ ": " ++ Exn.str e) ;;;
       raise (Exn.mcp ("Failed to clone VM: " ++ Exn.str e))).

Definition migrate_vm (node vmid target_node config : value) : M value :=
  try_except
    (migrate_config <- lift (as_dict (Py2.or_empty config)) ;;
     let migrate_params := migrate_params_of migrate_config in
     kwargs <- lift (Py2.keywords "ProxmoxClient.migrate_vm"
                       ["self"; "node"; "vmid"; "target"] migrate_params) ;;
     task_id <- client_migrate_vm node vmid target_node kwargs ;;
     ret (VDict [ ("vmid", vmid); ("source_node", node);
                  ("target_node", target_node); ("task_id", task_id);
                  ("action", VStr "migrate");
                  ("online", Py.get migrate_params "online" (VInt 1));
                  ("status", VStr "migrating") ]))
    (fun e =>
       log ERROR ("Failed to migrate VM " ++ Py.str vmid ++ " from "
                    ++ Py.str node ++ " to " ++ Py.str target_node ++ ": "
                    ++ Exn.str e) ;;;
       raise (Exn.mcp ("Failed to migrate VM: " ++ Exn.str e))).

End WithClient.

End VMService2.

(** ** Helpers to state what the VM service does *)

(** A VM passes the filters when it has no filtered key under another
    value: a key it lacks does not count against it. *)
Definition admits (filters : dict) (vm : dict) : Prop :=
  forall key wanted held,
    In (key, wanted) filters -> Py.lookup vm key = Some held ->
    Py2.eqv held wanted = true.

Definition all_dicts (vms : list value) : Prop :=
  forall vm, In vm vms -> exists d, vm = VDict d.

(** What [create_vm] fills in for the keys the caller leaves out *)
Definition create_defaults : dict :=
  [ ("cores", VInt 1); ("sockets", VInt 1); ("cpu", VStr "kvm64");
    ("ostype", VStr "l26"); ("boot", VStr "cdn");
    ("net0", VStr "virtio,bridge=vmbr0") ].

(** What [clone_vm] fills in for the keys the caller leaves out *)
Definition clone_defaults (node vmid : value) : dict :=
  [ ("name", VStr ("clone-of-" ++ Py.str vmid)); ("full", VInt 1);
    ("target", node) ].

(** A request that holds none of the names the call binds by position,
    which [**kwargs] may not repeat *)
Definition free_of (positional : list string) (request : dict) : Prop :=
  forall name, In name positional -> Py.lookup request name = None.

(** A caller's entry, or else the default; [None] if neither *)
Definition chosen (config defaults : dict) (key : string) : option value :=
  match Py.lookup config key with
  | Some v => Some v
  | None => Py.lookup defaults key
  end.

(** Stand-ins for the client, to run the VM service on *)
Module Fake.

Definition three_vms : list value :=
  [ VDict [("vmid", VInt 100); ("status", VStr "running")];
    VDict [("vmid", VInt 101); ("status", VStr "stopped")];
    VDict [("vmid", VInt 102)] ].

Definition get_vms : value -> M value := fun _ => ret (VList three_vms).

Definition accept3 : value -> value -> dict -> M value :=
  fun _ _ _ => ret (VStr "UPID:123").

Definition accept4 : value -> value -> value -> dict -> M value :=
  fun _ _ _ _ => ret (VStr "UPID:123").

Definition refuse3 : value -> value -> dict -> M value :=
  fun _ _ _ => raise Scenario.refused.

End Fake.
(** * Properties *)

(** ** Authorization *)

Section Permissions.
Import RBACManager.

Lemma py_in_spec (x : string) (l : list string) : py_in x l = true <-> In x l.
Proof.
  unfold py_in. rewrite existsb_exists. split.
  - intros (y & Hy & E). apply String.eqb_eq in E. now subst.
  - intros H. exists x. split; [assumption | apply String.eqb_refl].
Qed.

Lemma ROLES_admin : ROLES !! "admin" = Some admin_permissions.
Proof. reflexivity. Qed.

Lemma ROLES_operator : ROLES !! "operator" = Some operator_permissions.
Proof. reflexivity. Qed.

Lemma ROLES_viewer : ROLES !! "viewer" = Some viewer_permissions.
Proof. reflexivity. Qed.

Lemma ROLES_unknown (role : string) :
  role <> "admin" -> role <> "operator" -> role <> "viewer" ->
  ROLES !! role = None.
Proof.
  intros Ha Ho Hv. unfold ROLES.
  rewrite !lookup_insert_ne by congruence. apply lookup_empty.
Qed.

Lemma ROLES_known (role : string) (perms : list string) :
  ROLES !! role = Some perms ->
  (role = "admin" /\ perms = admin_permissions)
  \/ (role = "operator" /\ perms = operator_permissions)
  \/ (role = "viewer" /\ perms = viewer_permissions).
Proof.
  intros H.
  destruct (decide (role = "admin")) as [->|Ha];
    [left; split; [reflexivity | rewrite ROLES_admin in H; congruence] |].
  destruct (decide (role = "operator")) as [->|Ho];
    [right; left; split; [reflexivity | rewrite ROLES_operator in H; congruence] |].
  destruct (decide (role = "viewer")) as [->|Hv];
    [right; right; split; [reflexivity | rewrite ROLES_viewer in H; congruence] |].
  rewrite ROLES_unknown in H by assumption. discriminate.
Qed.

End Permissions.

Section PermissionClaims.
Import RBACManager.

(** C5.  [check_permission] is a function of the settings, the role and
    the permission alone (so total and deterministic, and outside [M],
    so without effects).  With enforcement off it grants every pair;
    with enforcement on, a role that is none of the three built-in ones
    has no entry in [ROLES] and is denied everything, and a role with
    an entry is granted exactly the permissions in its list. *)
Theorem check_permission_total_deny_by_default
    (settings : Settings) (role permission : string) :
  (enable_rbac settings = false ->
   check_permission settings role permission = true)
  /\ (enable_rbac settings = true ->
      role <> "admin" -> role <> "operator" -> role <> "viewer" ->
      ROLES !! role = None
      /\ check_permission settings role permission = false)
  /\ (enable_rbac settings = true ->
      forall perms : list string, ROLES !! role = Some perms ->
      (check_permission settings role permission = true
       <-> In permission perms)).
Proof.
  unfold check_permission. repeat split.
  - intros ->. reflexivity.
  - now apply ROLES_unknown.
  - rewrite H. rewrite ROLES_unknown by assumption. reflexivity.
  - rewrite H, H0. simpl. apply py_in_spec.
  - rewrite H, H0. simpl. apply py_in_spec.
Qed.

Lemma check_permission_total_deny_by_default_witness :
  check_permission (default_settings "s3cret") "auditor" "vm:monitor" = false
  /\ (check_permission (default_settings "s3cret") "viewer" "vm:monitor" = true
      <-> In "vm:monitor" viewer_permissions).
Proof.
  split.
  - apply (check_permission_total_deny_by_default
             (default_settings "s3cret") "auditor" "vm:monitor");
      [reflexivity | discriminate | discriminate | discriminate].
  - apply (check_permission_total_deny_by_default
             (default_settings "s3cret") "viewer" "vm:monitor");
      reflexivity.
Defined.

Lemma viewer_in_operator (p : string) :
  In p viewer_permissions -> In p operator_permissions.
Proof.
  intros H. apply py_in_spec. simpl in H.
  repeat (destruct H as [<-|H]; [reflexivity|]). contradiction.
Qed.

Lemma operator_in_admin (p : string) :
  In p operator_permissions -> In p admin_permissions.
Proof.
  intros H. apply py_in_spec. simpl in H.
  repeat (destruct H as [<-|H]; [reflexivity|]). contradiction.
Qed.

Lemma check_permission_enabled (settings : Settings) (role p : string)
    (perms : list string) :
  enable_rbac settings = true -> ROLES !! role = Some perms ->
  check_permission settings role p = py_in p perms.
Proof. intros E R. unfold check_permission. now rewrite E, R. Qed.

(** C6.  The built-in permission lists are nested, and strictly so:
    every viewer permission is an operator permission and every
    operator permission an admin permission, while the operator holds
    ["vm:start"], which the viewer lacks, and the admin ["vm:delete"],
    which the operator lacks.  With enforcement on, a grant to the
    viewer is a grant to the operator, and a grant to the operator a
    grant to the admin. *)
Theorem roles_nested (p : string) :
  (In p viewer_permissions -> In p operator_permissions)
  /\ (In p operator_permissions -> In p admin_permissions)
  /\ (In "vm:start" operator_permissions /\ ~ In "vm:start" viewer_permissions)
  /\ (In "vm:delete" admin_permissions /\ ~ In "vm:delete" operator_permissions)
  /\ forall settings : Settings, enable_rbac settings = true ->
       (check_permission settings "viewer" p = true ->
        check_permission settings "operator" p = true)
       /\ (check_permission settings "operator" p = true ->
           check_permission settings "admin" p = true).
Proof.
  split; [apply viewer_in_operator|].
  split; [apply operator_in_admin|].
  split.
  { split; [apply py_in_spec; reflexivity|].
    intros H. apply py_in_spec in H. discriminate. }
  split.
  { split; [apply py_in_spec; reflexivity|].
    intros H. apply py_in_spec in H. discriminate. }
  intros settings E.
  rewrite (check_permission_enabled settings "viewer" p _ E ROLES_viewer).
  rewrite (check_permission_enabled settings "operator" p _ E ROLES_operator).
  rewrite (check_permission_enabled settings "admin" p _ E ROLES_admin).
  rewrite !py_in_spec.
  split; [apply viewer_in_operator | apply operator_in_admin].
Qed.

Lemma roles_nested_witness :
  check_permission (default_settings "s3cret") "admin" "node:monitor" = true.
Proof.
  destruct (roles_nested "node:monitor") as (_ & _ & _ & _ & H).
  destruct (H (default_settings "s3cret") eq_refl) as [Hvo Hoa].
  apply Hoa, Hvo. reflexivity.
Defined.

End PermissionClaims.

(** ** The retry wrapper *)

Section Retry.
Import ProxmoxClient.


Lemma range_nonpositive (n : Z) : n <= 0 -> range n = [].
Proof.
  intros H. unfold range.
  replace (Z.to_nat n) with 0%nat by lia. reflexivity.
Qed.

Lemma range_nat (n : nat) : range (Z.of_nat n) = map Z.of_nat (seq 0 n).
Proof. unfold range. now rewrite Nat2Z.id. Qed.

Lemma remote_connected (c : RemoteCall) (w : World) (endpoint : Transport) :
  api (self w) = Some endpoint ->
  remote c w =
    (match answer (endpoint (issued w) c) with
     | inl e => Raised e
     | inr v => Returned v
     end,
     {| clock := clock w + took (endpoint (issued w) c); self := self w;
        issued := (issued w ++ [c])%list; slept := slept w; logged := logged w |}).
Proof. intros H. unfold remote. now rewrite H. Qed.

Lemma attempt_is_remote (coroutine : bool) (c : RemoteCall) :
  (if iscoroutinefunction (one_call coroutine c)
   then call (one_call coroutine c)
   else run_in_executor (one_call coroutine c)) = remote c.
Proof. now destruct coroutine. Qed.

(** What the [except] branch does before the next attempt touches
    neither the connection nor the record of calls. *)
Lemma between_attempts {A} (msg msg' : string) (backoff : bool) (d : Z)
    (next : M A) (w : World) :
  exists w2,
    (log WARNING msg ;;;
     (if backoff then sleep d else log ERROR msg') ;;; next) w = next w2
    /\ issued w2 = issued w /\ self w2 = self w.
Proof.
  destruct backoff; eexists; (split; [reflexivity | split; reflexivity]).
Qed.

Lemma retry_from_cons (operation : Callable) (n d attempt : Z)
    (rest : list Z) (last : option exn) :
  retry_from operation n d (attempt :: rest) last =
  try_except
    (if iscoroutinefunction operation
     then call operation
     else run_in_executor operation)
    (fun e =>
       log WARNING ("Operation failed (attempt "
                      ++ Py.repr_int (attempt + 1) ++ "/"
                      ++ Py.repr_int n ++ "): " ++ Exn.str e) ;;;
       (if attempt <? n - 1
        then sleep (d * 2 ^ attempt)
        else log ERROR ("Operation failed after "
                          ++ Py.repr_int n ++ " attempts")) ;;;
       retry_from operation n d rest (Some e)).
Proof. reflexivity. Qed.

Lemma repeat_shift {A} (l : list A) (x : A) (i : nat) :
  ((l ++ [x]) ++ repeat x i = l ++ repeat x (S i))%list.
Proof. now rewrite <- app_assoc. Qed.

Variables (coroutine : bool) (c : RemoteCall) (endpoint : Transport).
Variables (max_retries delay : Z).

Lemma retry_from_first_failure (attempt : Z) (rest : list Z)
    (last : option exn) (w : World) (e : exn) :
  api (self w) = Some endpoint ->
  answer (endpoint (issued w) c) = inl e ->
  exists w2,
    retry_from (one_call coroutine c) max_retries delay (attempt :: rest) last w
    = retry_from (one_call coroutine c) max_retries delay rest (Some e) w2
    /\ issued w2 = (issued w ++ [c])%list /\ self w2 = self w.
Proof.
  intros Hapi Hfail. rewrite retry_from_cons. unfold try_except.
  rewrite attempt_is_remote, (remote_connected c w endpoint Hapi), Hfail.
  cbv beta iota.
  match goal with
  | |- exists _, bind (log WARNING ?m)
                   (fun _ => bind (if ?b then sleep ?d else log ERROR ?m')
                               (fun _ => ?k)) ?w1 = _ /\ _ =>
      destruct (between_attempts m m' b d k w1) as (w2 & E & Hi & Hs)
  end.
  exists w2. split; [exact E|]. rewrite Hi, Hs. split; reflexivity.
Qed.

Lemma retry_from_first_success (attempt : Z) (rest : list Z)
    (last : option exn) (w : World) (v : value) :
  api (self w) = Some endpoint ->
  answer (endpoint (issued w) c) = inr v ->
  exists w',
    retry_from (one_call coroutine c) max_retries delay (attempt :: rest) last w
    = (Returned v, w')
    /\ issued w' = (issued w ++ [c])%list /\ self w' = self w.
Proof.
  intros Hapi Hok. rewrite retry_from_cons. unfold try_except.
  rewrite attempt_is_remote, (remote_connected c w endpoint Hapi), Hok.
  eexists. split; [reflexivity | split; reflexivity].
Qed.

(** [k] failures, then a success, with attempts to spare *)
Lemma retry_from_succeeds (v : value) :
  forall (k m a : nat) (last : option exn) (w : World),
    api (self w) = Some endpoint ->
    (k < m)%nat ->
    (forall i, (i < k)%nat ->
       exists e, answer (endpoint (issued w ++ repeat c i)%list c) = inl e) ->
    answer (endpoint (issued w ++ repeat c k)%list c) = inr v ->
    exists w',
      retry_from (one_call coroutine c) max_retries delay
        (map Z.of_nat (seq a m)) last w = (Returned v, w')
      /\ issued w' = (issued w ++ repeat c (S k))%list /\ self w' = self w.
Proof.
  induction k as [|k IH]; intros m a last w Hapi Hkm Hfail Hok.
  - destruct m as [|m]; [lia|]. simpl seq. simpl map.
    simpl repeat in Hok. rewrite app_nil_r in Hok.
    apply retry_from_first_success; assumption.
  - destruct m as [|m]; [lia|]. simpl seq. simpl map.
    destruct (Hfail 0%nat ltac:(lia)) as [e He].
    simpl repeat in He. rewrite app_nil_r in He.
    destruct (retry_from_first_failure (Z.of_nat a) (map Z.of_nat (seq (S a) m))
                last w e Hapi He) as (w2 & -> & Hi & Hs).
    destruct (IH m (S a) (Some e) w2) as (w' & Hrun & Hi' & Hs').
    + now rewrite Hs.
    + lia.
    + intros i Hik. rewrite Hi, repeat_shift. apply Hfail. lia.
    + now rewrite Hi, repeat_shift.
    + exists w'. split; [exact Hrun|]. split.
      * now rewrite Hi', Hi, repeat_shift.
      * now rewrite Hs', Hs.
Qed.

(** Every attempt fails: the loop runs out and the last error is named *)
Lemma retry_from_exhausted :
  forall (m a : nat) (last : option exn) (w : World) (errs : nat -> exn),
    api (self w) = Some endpoint ->
    (forall i, (i < m)%nat ->
       answer (endpoint (issued w ++ repeat c i)%list c) = inl (errs i)) ->
    exists w',
      retry_from (one_call coroutine c) max_retries delay
        (map Z.of_nat (seq a m)) last w
      = (Raised (Exn.mcp ("Operation failed after " ++ Py.repr_int max_retries
                            ++ " attempts: "
                            ++ Exn.str_opt (match m with
                                            | O => last
                                            | S j => Some (errs j)
                                            end))), w')
      /\ issued w' = (issued w ++ repeat c m)%list /\ self w' = self w.
Proof.
  induction m as [|m IH]; intros a last w errs Hapi Hfail.
  - exists w. simpl. rewrite app_nil_r. repeat split.
  - simpl seq. simpl map.
    pose proof (Hfail 0%nat ltac:(lia)) as He.
    simpl repeat in He. rewrite app_nil_r in He.
    destruct (retry_from_first_failure (Z.of_nat a) (map Z.of_nat (seq (S a) m))
                last w (errs 0%nat) Hapi He) as (w2 & -> & Hi & Hs).
    destruct (IH (S a) (Some (errs 0%nat)) w2 (fun i => errs (S i)))
      as (w' & Hrun & Hi' & Hs').
    + now rewrite Hs.
    + intros i Him. rewrite Hi, repeat_shift. apply Hfail. lia.
    + exists w'. split; [|split].
      * rewrite Hrun. now destruct m.
      * now rewrite Hi', Hi, repeat_shift.
      * now rewrite Hs', Hs.
Qed.

End Retry.


Section RetryClaims.
Import ProxmoxClient.

(** How many calls the wrapper makes.  For an operation that is one
    remote call, [max_retries] being [n] (3 by default): if the call
    fails [k < n] times and then succeeds with [v],
    [_execute_with_retry] returns [v] and the endpoint has seen exactly
    [k + 1] calls; if the call fails every time, the endpoint has seen
    exactly [n] calls and the wrapper raises the exception whose
    message names the number of attempts and the text of the last
    error. *)
Lemma execute_with_retry_attempts
    (coroutine : bool) (c : RemoteCall) (endpoint : Transport)
    (delay : Z) (w : World) (errs : nat -> exn) (n : nat) :
  api (self w) = Some endpoint ->
  (forall (k : nat) (v : value),
      (k < n)%nat ->
      (forall i, (i < k)%nat ->
         answer (endpoint (issued w ++ repeat c i)%list c) = inl (errs i)) ->
      answer (endpoint (issued w ++ repeat c k)%list c) = inr v ->
      exists w',
        _execute_with_retry (one_call coroutine c) (Z.of_nat n) delay w
        = (Returned v, w')
        /\ issued w' = (issued w ++ repeat c (k + 1))%list)
  /\ ((0 < n)%nat ->
      (forall i, (i < n)%nat ->
         answer (endpoint (issued w ++ repeat c i)%list c) = inl (errs i)) ->
      exists w',
        _execute_with_retry (one_call coroutine c) (Z.of_nat n) delay w
        = (Raised (Proxmox ProxmoxMCPException
                     ("Operation failed after " ++ Py.repr_int (Z.of_nat n)
                        ++ " attempts: " ++ Exn.str (errs (n - 1)%nat))
                     "PROXMOX_MCP_ERROR" []), w')
        /\ issued w' = (issued w ++ repeat c n)%list).
Proof.
  intros Hapi. unfold _execute_with_retry. rewrite range_nat. split.
  - intros k v Hk Hfail Hok.
    destruct (retry_from_succeeds coroutine c endpoint (Z.of_nat n) delay v
                k n 0%nat None w Hapi Hk) as (w' & Hrun & Hi & _).
    + intros i Hi. eexists. now apply Hfail.
    + exact Hok.
    + exists w'. split; [exact Hrun|]. now rewrite Nat.add_1_r.
  - intros Hn Hfail.
    destruct (retry_from_exhausted coroutine c endpoint (Z.of_nat n) delay
                n 0%nat None w errs Hapi Hfail) as (w' & Hrun & Hi & _).
    exists w'. split; [|exact Hi]. rewrite Hrun.
    destruct n as [|m]; [lia|]. simpl Nat.sub. now rewrite Nat.sub_0_r.
Qed.

(** Two refusals and then an answer: three calls, and the answer *)
Example execute_with_retry_on_a_flaky_endpoint :
  exists w',
    _execute_with_retry (one_call false version_get) 3 second
      (Scenario.connected (Scenario.flaky 2 (VStr "8.1")) 0)
    = (Returned (VStr "8.1"), w')
    /\ issued w' = [version_get; version_get; version_get].
Proof.
  apply (proj1 (execute_with_retry_attempts false version_get
                  (Scenario.flaky 2 (VStr "8.1")) second
                  (Scenario.connected (Scenario.flaky 2 (VStr "8.1")) 0)
                  (fun _ => Scenario.refused) 3 eq_refl) 2%nat (VStr "8.1")).
  - lia.
  - intros [|[|i]] H; [reflexivity | reflexivity | lia].
  - reflexivity.
Qed.

(** C2, where the code departs from it.  Against an endpoint that
    fails every call the wrapper makes exactly [n] calls (3 by
    default) and then raises, as the claim has it; but what it raises
    is the base [ProxmoxMCPException], with the generic code and no
    details, not the [ProxmoxOperationException] that [exceptions.py]
    declares for an operation that fails and that nothing raises.  Of
    the last error it keeps the text alone, inside its own message:
    the error itself, and its class, are gone. *)
Theorem execute_with_retry_raises_untyped_error
    (coroutine : bool) (c : RemoteCall) (endpoint : Transport)
    (delay : Z) (w : World) (errs : nat -> exn) (n : nat) :
  api (self w) = Some endpoint ->
  (0 < n)%nat ->
  (forall i, (i < n)%nat ->
     answer (endpoint (issued w ++ repeat c i)%list c) = inl (errs i)) ->
  exists e w',
    _execute_with_retry (one_call coroutine c) (Z.of_nat n) delay w
    = (Raised e, w')
    /\ issued w' = (issued w ++ repeat c n)%list
    /\ e = Proxmox ProxmoxMCPException
              ("Operation failed after " ++ Py.repr_int (Z.of_nat n)
                 ++ " attempts: " ++ Exn.str (errs (n - 1)%nat))
              "PROXMOX_MCP_ERROR" []
    /\ Exn.class_of e <> Some ProxmoxOperationException
    /\ Exn.code_of e <> Some "PROXMOX_OPERATION_ERROR"
    /\ (forall (message : string) (operation : option string)
               (details : option dict),
          e <> Exn.operation_failed message operation details).
Proof.
  intros Hapi Hn Hfail.
  destruct (proj2 (execute_with_retry_attempts coroutine c endpoint delay w
                     errs n Hapi) Hn Hfail) as (w' & Hrun & Hi).
  eexists. exists w'. split; [exact Hrun|]. split; [exact Hi|].
  split; [reflexivity|]. split; [discriminate|]. split; [discriminate|].
  intros message operation details H. unfold Exn.operation_failed, Exn.base in H.
  discriminate H.
Qed.

Lemma execute_with_retry_raises_untyped_error_witness :
  exists e w',
    _execute_with_retry (one_call false version_get) 3 second
      (Scenario.connected Scenario.down 0) = (Raised e, w')
    /\ issued w' = [version_get; version_get; version_get]
    /\ e = Exn.mcp "Operation failed after 3 attempts: connection refused"
    /\ Exn.class_of e <> Some ProxmoxOperationException.
Proof.
  destruct (execute_with_retry_raises_untyped_error false version_get
              Scenario.down second (Scenario.connected Scenario.down 0)
              (fun _ => Scenario.refused) 3 eq_refl)
    as (e & w' & Hrun & Hi & He & Hclass & _).
  - lia.
  - intros i _. reflexivity.
  - exists e, w'. split; [exact Hrun|]. split; [exact Hi|].
    split; [exact He | exact Hclass].
Defined.

(** C10.  With [max_retries <= 0] the loop body never runs: whatever
    the operation is, the world is left as it was (no call, no sleep, no
    log record) and the exception raised at once names [None] as the
    last error. *)
Theorem execute_with_retry_no_attempts
    (operation : Callable) (max_retries delay : Z) (w : World) :
  max_retries <= 0 ->
  _execute_with_retry operation max_retries delay w
  = (Raised (Proxmox ProxmoxMCPException
               ("Operation failed after " ++ Py.repr_int max_retries
                  ++ " attempts: None")
               "PROXMOX_MCP_ERROR" []), w).
Proof.
  intros H. unfold _execute_with_retry. now rewrite range_nonpositive.
Qed.

Lemma execute_with_retry_no_attempts_witness :
  _execute_with_retry (lambda version_get) (-1) second
    (Scenario.connected (Scenario.flaky 0 (VStr "8.1")) 0)
  = (Raised (Exn.mcp "Operation failed after -1 attempts: None"),
     Scenario.connected (Scenario.flaky 0 (VStr "8.1")) 0).
Proof.
  apply (execute_with_retry_no_attempts (lambda version_get) (-1) second).
  lia.
Defined.

End RetryClaims.

(** ** Connection validation *)

Section Validation.
Import ProxmoxClient.

Lemma seconds_bounds (delta : Z) : 0 <= timedelta.seconds delta < 86400.
Proof. unfold timedelta.seconds. apply Z.mod_pos_bound. lia. Qed.

(** Within a day of the last check, [seconds] is the age in seconds *)
Lemma seconds_within_a_day (delta : Z) :
  0 <= delta < 86400 * second ->
  timedelta.seconds delta = timedelta.total_seconds delta.
Proof.
  intros H. unfold timedelta.seconds, timedelta.total_seconds, second in *.
  apply Z.mod_small. split.
  - apply Z.div_pos; lia.
  - apply Z.div_lt_upper_bound; lia.
Qed.

(** A check younger than 300 seconds is trusted: no probe is sent and
    the world is left as it was. *)
Lemma validate_connection_cached (w : World) (endpoint : Transport)
    (checked : Z) :
  api (self w) = Some endpoint ->
  _last_connection_check (self w) = Some checked ->
  0 <= clock w - checked < 300 * second ->
  validate_connection w = (Returned true, w).
Proof.
  intros Hapi Hlast Hage.
  unfold validate_connection, try_except. rewrite Hapi, Hlast.
  unfold bind, datetime_now. cbv beta iota.
  rewrite seconds_within_a_day by (unfold second in *; lia).
  replace (timedelta.total_seconds (clock w - checked) <? 300) with true.
  - reflexivity.
  - symmetry. apply Z.ltb_lt. unfold timedelta.total_seconds, second in *.
    apply Z.div_lt_upper_bound; lia.
Qed.

(** With no connection the answer is [False], and nothing happens. *)
Lemma validate_connection_unset (w : World) :
  api (self w) = None -> validate_connection w = (Returned false, w).
Proof.
  intros Hapi. unfold validate_connection, try_except. now rewrite Hapi.
Qed.

(** C4, where the code departs from it.  A check made one day and ten
    seconds ago is taken for a check made ten seconds ago, because
    [seconds] drops the whole days: the cached answer comes back and
    the endpoint, whatever it would say, is not asked.  The source
    means to check the connection every five minutes. *)
Theorem validate_connection_trusts_day_old_check
    (endpoint : Transport) (checked : Z)
    (calls : list RemoteCall) (naps : list Z) (records : list (level * string)) :
  let w := {| clock := checked + 86410 * second;
              self := {| api := Some endpoint;
                         _last_connection_check := Some checked |};
              issued := calls; slept := naps; logged := records |} in
  timedelta.total_seconds (clock w - checked) = 86410
  /\ timedelta.seconds (clock w - checked) = 10
  /\ validate_connection w = (Returned true, w).
Proof.
  intros w. subst w. cbn [clock].
  replace (checked + 86410 * second - checked) with (86410 * second) by lia.
  split; [reflexivity|]. split; [reflexivity|].
  unfold validate_connection, try_except. cbn [self api _last_connection_check].
  unfold bind, datetime_now. cbn [clock].
  replace (checked + 86410 * second - checked) with (86410 * second) by lia.
  reflexivity.
Qed.

End Validation.

(** ** Waiting for a task *)

Section TaskPolling.
Import ProxmoxClient.


Lemma getitem_running : getitem running "status" = inr (VStr "running").
Proof. reflexivity. Qed.

Lemma poll_unfold (fuel : nat) (node upid : value) (timeout start_time : Z) :
  poll (S fuel) node upid timeout start_time =
  (status <- get_task_status node upid ;;
   state <- lift (getitem status "status") ;;
   if negb (Py.eq_str state "running") then ret status
   else
     now <- datetime_now ;;
     if timedelta.seconds (now - start_time) >? timeout
     then raise (Exn.mcp ("Task " ++ Py.str upid ++ " timed out after "
                            ++ Py.repr_int timeout ++ " seconds"))
     else (sleep (2 * second) ;;; poll fuel node upid timeout start_time)).
Proof. reflexivity. Qed.

(** A status fetch that the endpoint answers at once *)
Lemma get_task_status_answered (node upid status : value) (w : World)
    (endpoint : Transport) :
  api (self w) = Some endpoint ->
  answer (endpoint (issued w) (tasks_status_get node upid)) = inr status ->
  exists w',
    get_task_status node upid w = (Returned status, w')
    /\ issued w' = (issued w ++ [tasks_status_get node upid])%list
    /\ self w' = self w /\ slept w' = slept w.
Proof.
  intros Hapi Hok. unfold get_task_status, execute, _execute_with_retry.
  change (range 3) with [0; 1; 2]. rewrite retry_from_cons. unfold try_except.
  change (lambda (tasks_status_get node upid))
    with (one_call false (tasks_status_get node upid)).
  rewrite attempt_is_remote, (remote_connected _ w endpoint Hapi), Hok.
  eexists. repeat split.
Qed.

(** The status [wait_for_task] hands back is never a running one: it
    has a ["status"] entry, and that entry is not ["running"]. *)
Lemma poll_returns_terminal (fuel : nat) (node upid : value)
    (timeout start_time : Z) :
  forall (w w' : World) (status : value),
    poll fuel node upid timeout start_time w = (Returned status, w') ->
    exists state,
      getitem status "status" = inr state
      /\ Py.eq_str state "running" = false.
Proof.
  induction fuel as [|fuel IH]; intros w w' status H.
  - discriminate.
  - rewrite poll_unfold in H. unfold bind at 1 in H.
    destruct (get_task_status node upid w) as [[fetched| | |interruption] w1];
      try discriminate.
    unfold bind at 1 in H. unfold lift in H.
    destruct (getitem fetched "status") as [e|state] eqn:Hget;
      [discriminate|].
    unfold ret at 1 in H.
    destruct (Py.eq_str state "running") eqn:Hrun; cbn [negb] in H.
    + unfold bind at 1 in H. unfold datetime_now at 1 in H.
      destruct (timedelta.seconds (clock w1 - start_time) >? timeout);
        [discriminate|].
      unfold bind at 1, sleep at 1 in H.
      eapply IH. exact H.
    + unfold ret in H. injection H as <- <-.
      exists state. split; assumption.
Qed.

(** C3, where the code departs from it.  With a timeout of 86399
    seconds or more and a task that stays ["running"], the wait never
    fails: however long it has run, [seconds] stays below 86400, the
    test against the timeout is never met, and for every amount of fuel
    the loop is still going. *)
Theorem wait_for_task_never_times_out
    (fuel : nat) (node upid : value) (timeout : Z)
    (endpoint : Transport) (w : World) :
  api (self w) = Some endpoint ->
  86399 <= timeout ->
  (forall history,
      answer (endpoint history (tasks_status_get node upid)) = inr running) ->
  fst (wait_for_task fuel node upid timeout w) = Pending.
Proof.
  intros Hapi Hlong Hrunning. unfold wait_for_task, bind, datetime_now.
  cbv beta iota. generalize (clock w) as start_time. intros start_time.
  revert w Hapi. induction fuel as [|fuel IH]; intros w Hapi.
  - reflexivity.
  - rewrite poll_unfold. unfold bind at 1.
    destruct (get_task_status_answered node upid running w endpoint Hapi
                (Hrunning _)) as (w1 & -> & _ & Hself & _).
    rewrite getitem_running. unfold lift. unfold bind at 1, ret at 1.
    change (Py.eq_str (VStr "running") "running") with true.
    cbv beta iota. cbn [negb]. cbv iota.
    unfold bind at 1, datetime_now at 1.
    pose proof (seconds_bounds (clock w1 - start_time)) as Hb.
    replace (timedelta.seconds (clock w1 - start_time) >? timeout) with false
      by (symmetry; rewrite Z.gtb_ltb; apply Z.ltb_ge; lia).
    unfold bind at 1, sleep at 1. apply IH. cbn [self]. now rewrite Hself.
Qed.


Lemma wait_for_task_never_times_out_witness :
  fst (wait_for_task 4 (VStr "pve1") (VStr "UPID:123") 86400
         (Scenario.connected Scenario.slow_task 0)) = Pending.
Proof.
  apply (wait_for_task_never_times_out 4 (VStr "pve1") (VStr "UPID:123")
           86400 Scenario.slow_task (Scenario.connected Scenario.slow_task 0)).
  - reflexivity.
  - lia.
  - intros history. reflexivity.
Defined.

(** On that run forty hours have gone by, against a timeout of one day *)
Example wait_for_task_past_its_timeout :
  let w' := snd (wait_for_task 4 (VStr "pve1") (VStr "UPID:123") 86400
                   (Scenario.connected Scenario.slow_task 0)) in
  clock w' = (4 * 36000 + 4 * 2) * second
  /\ length (issued w') = 4%nat.
Proof. vm_compute. split; reflexivity. Qed.

End TaskPolling.

(** ** What a computation may do to the record of calls *)

Import ProxmoxClient.

Lemma extends_refl (w : World) : extends w w.
Proof. split; [exists []; now rewrite app_nil_r | reflexivity]. Qed.

Lemma extends_trans (w1 w2 w3 : World) :
  extends w1 w2 -> extends w2 w3 -> extends w1 w3.
Proof.
  intros [[m1 H1] A1] [[m2 H2] A2]. split.
  - exists (m1 ++ m2)%list. now rewrite H2, H1, app_assoc.
  - now rewrite A2.
Qed.

Lemma appending_ret {A} (a : A) : appending (ret a).
Proof. intros w. apply extends_refl. Qed.

Lemma appending_raise {A} (e : exn) : appending (@raise A e).
Proof. intros w. apply extends_refl. Qed.

Lemma appending_pending {A} : appending (@pending A).
Proof. intros w. apply extends_refl. Qed.

Lemma appending_lift {A} (r : exn + A) : appending (lift r).
Proof. destruct r; [apply appending_raise | apply appending_ret]. Qed.

Lemma appending_log (lvl : level) (msg : string) : appending (log lvl msg).
Proof. intros w. split; [exists []; simpl; now rewrite app_nil_r | reflexivity]. Qed.

Lemma appending_sleep (d : Z) : appending (sleep d).
Proof. intros w. split; [exists []; simpl; now rewrite app_nil_r | reflexivity]. Qed.

Lemma appending_now : appending datetime_now.
Proof. intros w. apply extends_refl. Qed.

Lemma appending_remote (c : RemoteCall) : appending (remote c).
Proof.
  intros w. unfold remote. destruct (api (self w)) as [endpoint|].
  - split; [exists [c]; reflexivity | reflexivity].
  - apply extends_refl.
Qed.

Lemma appending_bind {A B} (m : M A) (k : A -> M B) :
  appending m -> (forall a, appending (k a)) -> appending (bind m k).
Proof.
  intros Hm Hk w. unfold bind. specialize (Hm w).
  destruct (m w) as [[a|e| |interruption] w1]; simpl in Hm; try exact Hm.
  eapply extends_trans; [exact Hm | apply Hk].
Qed.

Lemma appending_try {A} (m : M A) (handler : exn -> M A) :
  appending m -> (forall e, appending (handler e)) ->
  appending (try_except m handler).
Proof.
  intros Hm Hh w. unfold try_except. specialize (Hm w).
  destruct (m w) as [[a|e| |interruption] w1]; simpl in Hm; try exact Hm.
  eapply extends_trans; [exact Hm | apply Hh].
Qed.

Lemma appending_if {A} (b : bool) (m1 m2 : M A) :
  appending m1 -> appending m2 -> appending (if b then m1 else m2).
Proof. now destruct b. Qed.

Lemma appending_retry_from (operation : Callable) (n d : Z) :
  appending (call operation) ->
  forall attempts last, appending (retry_from operation n d attempts last).
Proof.
  intros Hop. induction attempts as [|attempt rest IH]; intros last.
  - apply appending_raise.
  - rewrite retry_from_cons. apply appending_try.
    + unfold run_in_executor. now destruct (iscoroutinefunction operation).
    + intros e. repeat (apply appending_bind; [|intros ?]);
        [apply appending_log | apply appending_if;
                               [apply appending_sleep | apply appending_log]
        | apply IH].
Qed.

Lemma appending_execute (c : RemoteCall) : appending (execute (lambda c)).
Proof. apply appending_retry_from, appending_remote. Qed.

Create HintDb appending.
#[local] Hint Resolve appending_ret appending_raise appending_pending appending_lift
  appending_log appending_sleep appending_now appending_remote
  appending_if : appending.

Ltac appending :=
  repeat match goal with
    | |- appending (bind _ _) => apply appending_bind; [|intros ?]
    | |- appending (try_except _ _) => apply appending_try; [|intros ?]
    | |- appending (if _ then _ else _) => apply appending_if
    | |- appending (get_task_status _ _) => apply appending_execute
    | |- appending (execute (lambda _)) => apply appending_execute
    | |- _ => solve [auto with appending]
    end.

Lemma appending_poll (fuel : nat) (node upid : value) (timeout start : Z) :
  appending (poll fuel node upid timeout start).
Proof.
  induction fuel as [|fuel IH].
  - apply appending_pending.
  - rewrite poll_unfold. appending; try apply appending_execute; try exact IH.
Qed.

Lemma appending_wait_for_task (fuel : nat) (node upid : value) (timeout : Z) :
  appending (wait_for_task fuel node upid timeout).
Proof. unfold wait_for_task. appending; apply appending_poll. Qed.

Lemma opens_with_extends {A} (c : RemoteCall) (m : M A) (w w2 : World) :
  opens_with c m w -> extends (snd (m w)) w2 ->
  exists more, issued w2 = (issued w ++ c :: more)%list.
Proof.
  intros [m1 H1] [[m2 H2] _]. exists (m1 ++ m2)%list.
  now rewrite H2, H1, <- app_assoc.
Qed.

Lemma opens_with_bind {A B} (c : RemoteCall) (m : M A) (k : A -> M B)
    (w : World) :
  opens_with c m w -> (forall a, appending (k a)) ->
  opens_with c (bind m k) w.
Proof.
  intros Hm Hk. unfold opens_with, bind.
  destruct (m w) as [[a|e| |interruption] w1] eqn:E;
    try (unfold opens_with in Hm; rewrite E in Hm; exact Hm).
  eapply opens_with_extends; [exact Hm|]. rewrite E. apply Hk.
Qed.

Lemma opens_with_try {A} (c : RemoteCall) (m : M A) (handler : exn -> M A)
    (w : World) :
  opens_with c m w -> (forall e, appending (handler e)) ->
  opens_with c (try_except m handler) w.
Proof.
  intros Hm Hh. unfold opens_with, try_except.
  destruct (m w) as [[a|e| |interruption] w1] eqn:E;
    try (unfold opens_with in Hm; rewrite E in Hm; exact Hm).
  eapply opens_with_extends; [exact Hm|]. rewrite E. apply Hh.
Qed.

(** With a connection, the retry wrapper sends its call at least once *)
Lemma execute_opens (c : RemoteCall) (w : World) (endpoint : Transport) :
  api (self w) = Some endpoint -> opens_with c (execute (lambda c)) w.
Proof.
  intros Hapi. unfold execute, _execute_with_retry.
  change (range 3) with [0; 1; 2]. rewrite retry_from_cons.
  apply opens_with_try.
  - unfold opens_with. cbn [lambda iscoroutinefunction].
    unfold run_in_executor. cbn [lambda call].
    rewrite (remote_connected c w endpoint Hapi). exists []. reflexivity.
  - intros e. appending; apply appending_retry_from, appending_remote.
Qed.


(** ** The VM service and the dispatcher *)

Section Dispatcher.
Import ProxmoxMCPServer.

Lemma start_vm_opens (node vmid : value) (w : World) (endpoint : Transport) :
  api (self w) = Some endpoint ->
  opens_with (qemu_status_start_post node vmid) (VMService.start_vm node vmid) w.
Proof.
  intros Hapi. unfold VMService.start_vm, VMService.start_vm_on.
  apply opens_with_try; [apply opens_with_bind|]; try (intros ?; appending).
  now apply execute_opens with endpoint.
Qed.

Lemma stop_vm_opens (node vmid force : value) (w : World) (endpoint : Transport) :
  api (self w) = Some endpoint ->
  opens_with (if Py.truthy force
              then qemu_status_stop_post node vmid
              else qemu_status_shutdown_post node vmid)
    (VMService.stop_vm node vmid force) w.
Proof.
  intros Hapi. unfold VMService.stop_vm, VMService.stop_vm_on.
  apply opens_with_try; [apply opens_with_bind|]; try (intros ?; appending).
  unfold ProxmoxClient.stop_vm.
  destruct (Py.truthy force); now apply execute_opens with endpoint.
Qed.

Lemma delete_vm_opens (fuel : nat) (node vmid purge : value) (w : World)
    (endpoint : Transport) :
  api (self w) = Some endpoint ->
  opens_with (qemu_delete node vmid (if Py.truthy purge then 1 else 0))
    (VMService.delete_vm fuel node vmid purge) w.
Proof.
  intros Hapi. unfold VMService.delete_vm, VMService.delete_vm_on.
  apply opens_with_try; [apply opens_with_bind|]; try (intros ?; appending).
  - now apply execute_opens with endpoint.
  - apply appending_wait_for_task.
Qed.

Variable others : ServiceCall -> M value.
Variable fuel : nat.

Lemma arg_present (arguments : dict) (key : string) (v : value) :
  Py.lookup arguments key = Some v -> arg arguments key = ret v.
Proof. intros H. unfold arg, getitem. now rewrite H. Qed.

Lemma execute_tool_start_vm (arguments : dict) (node vmid : value) :
  Py.lookup arguments "node" = Some node ->
  Py.lookup arguments "vmid" = Some vmid ->
  _execute_tool (services fuel others) "start_vm" arguments
  = VMService.start_vm node vmid.
Proof.
  intros Hn Hv. unfold _execute_tool. cbn [String.eqb Ascii.eqb Bool.eqb].
  now rewrite (arg_present _ _ _ Hn), (arg_present _ _ _ Hv).
Qed.

Lemma execute_tool_stop_vm (arguments : dict) (node vmid : value) :
  Py.lookup arguments "node" = Some node ->
  Py.lookup arguments "vmid" = Some vmid ->
  _execute_tool (services fuel others) "stop_vm" arguments
  = VMService.stop_vm node vmid (Py.get arguments "force" (VBool false)).
Proof.
  intros Hn Hv. unfold _execute_tool. cbn [String.eqb Ascii.eqb Bool.eqb].
  now rewrite (arg_present _ _ _ Hn), (arg_present _ _ _ Hv).
Qed.

Lemma execute_tool_delete_vm (arguments : dict) (node vmid : value) :
  Py.lookup arguments "node" = Some node ->
  Py.lookup arguments "vmid" = Some vmid ->
  _execute_tool (services fuel others) "delete_vm" arguments
  = VMService.delete_vm fuel node vmid (Py.get arguments "purge" (VBool false)).
Proof.
  intros Hn Hv. unfold _execute_tool. cbn [String.eqb Ascii.eqb Bool.eqb].
  now rewrite (arg_present _ _ _ Hn), (arg_present _ _ _ Hv).
Qed.

Lemma handle_call_tool_opens (c : RemoteCall) (name : string)
    (arguments : dict) (w : World) :
  opens_with c (_execute_tool (services fuel others) name arguments) w ->
  opens_with c (handle_call_tool (services fuel others) name arguments) w.
Proof.
  intros H. unfold handle_call_tool.
  apply opens_with_try; [apply opens_with_bind|]; try (intros ?; appending).
  exact H.
Qed.

End Dispatcher.

Section DispatcherClaims.
Import ProxmoxMCPServer.

(** C1, where the code departs from it.  With enforcement on, as it
    is by default, [check_permission] denies the viewer ["vm:start"];
    and yet [start_vm] called for a viewer goes through.  The
    dispatcher has no role to look at and asks [check_permission]
    nothing: the start call reaches the endpoint and the reply is the
    handler's result, with no mention of a denial. *)
Theorem viewer_start_vm_reaches_endpoint :
  RBACManager.check_permission (default_settings "s3cret") "viewer" "vm:start"
  = false
  /\ let reply :=
       handle_call_tool (services 0 Stage.idle) "start_vm"
         Stage.start_arguments (Scenario.connected Stage.accepting 0) in
     fst reply
     = Returned
         [ {| type := "text";
              text := "{'vmid': 101, 'node': 'pve1', 'task_id': 'UPID:123', "
                        ++ "'action': 'start', 'status': 'started'}" |} ]
     /\ issued (snd reply) = [qemu_status_start_post (VStr "pve1") (VInt 101)]
     /\ (forall texts, fst reply = Returned texts ->
         forallb (fun t => Spec.occurs "PermissionDenied" (text t)
                           || Spec.occurs "PERMISSION" (text t)) texts = false).
Proof.
  split; [reflexivity|]. cbv zeta. split; [reflexivity|].
  split; [reflexivity|].
  intros texts H. vm_compute in H. injection H as <-. reflexivity.
Qed.

(** The same holds of every call of the three VM tools whose handlers
    are run here: with a node and a VM id, over a connection, the
    first thing that happens is the remote call, whoever asks. *)
Lemma vm_tools_open_with_their_call
    (others : ServiceCall -> M value) (fuel : nat)
    (arguments : dict) (node vmid : value)
    (endpoint : Transport) (w : World) :
  api (self w) = Some endpoint ->
  Py.lookup arguments "node" = Some node ->
  Py.lookup arguments "vmid" = Some vmid ->
  opens_with (qemu_status_start_post node vmid)
    (handle_call_tool (services fuel others) "start_vm" arguments) w
  /\ opens_with (if Py.truthy (Py.get arguments "force" (VBool false))
                 then qemu_status_stop_post node vmid
                 else qemu_status_shutdown_post node vmid)
       (handle_call_tool (services fuel others) "stop_vm" arguments) w
  /\ opens_with (qemu_delete node vmid
                   (if Py.truthy (Py.get arguments "purge" (VBool false))
                    then 1 else 0))
       (handle_call_tool (services fuel others) "delete_vm" arguments) w.
Proof.
  intros Hapi Hn Hv. repeat split; apply handle_call_tool_opens.
  - rewrite (execute_tool_start_vm others fuel arguments node vmid Hn Hv).
    now apply start_vm_opens with endpoint.
  - rewrite (execute_tool_stop_vm others fuel arguments node vmid Hn Hv).
    now apply stop_vm_opens with endpoint.
  - rewrite (execute_tool_delete_vm others fuel arguments node vmid Hn Hv).
    now apply delete_vm_opens with endpoint.
Qed.

(** C9, as stated, fails: the handler of [start_vm] does not wait for
    the task.  Against an endpoint whose task would report ["running"]
    twice before it ends, the reply comes after the start call alone,
    with no status fetch and no sleep, and the result has five entries,
    not the three of the envelope. *)
Lemma start_vm_does_not_poll :
  let reply :=
    handle_call_tool (services 9 Stage.idle) "start_vm"
      Stage.start_arguments (Scenario.connected Stage.accepting 0) in
  issued (snd reply) = [qemu_status_start_post (VStr "pve1") (VInt 101)]
  /\ slept (snd reply) = []
  /\ fst reply
     <> Returned
          [ {| type := "text";
               text := Py.str (Spec.success_envelope
                                 (VDict [ ("vmid", VInt 101);
                                          ("node", VStr "pve1");
                                          ("status", VStr "started") ])) |} ]
  /\ fst reply
     <> Returned
          [ {| type := "text";
               text := Py.str (VDict [ ("vmid", VInt 101);
                                       ("node", VStr "pve1");
                                       ("status", VStr "started") ]) |} ].
Proof.
  cbv zeta. split; [reflexivity|]. split; [reflexivity|].
  split; intros H; vm_compute in H; discriminate H.
Qed.

(** C9, amended.  [start_vm] called with a node and a VM id, over a
    connection whose endpoint accepts the start call with a task
    handle, replies with one text item, the [str] of the dictionary
    with [vmid], [node], [task_id], [action] = ["start"] and [status] =
    ["started"]; the start call is the only call made, nothing is
    slept and nothing logged: the task is not waited for. *)
Theorem start_vm_replies_after_the_start_call
    (others : ServiceCall -> M value) (fuel : nat)
    (arguments : dict) (node vmid task_id : value)
    (endpoint : Transport) (w : World) :
  api (self w) = Some endpoint ->
  Py.lookup arguments "node" = Some node ->
  Py.lookup arguments "vmid" = Some vmid ->
  answer (endpoint (issued w) (qemu_status_start_post node vmid)) = inr task_id ->
  handle_call_tool (services fuel others) "start_vm" arguments w
  = (Returned
       [ {| type := "text";
            text := Py.str (VDict [ ("vmid", vmid); ("node", node);
                                    ("task_id", task_id);
                                    ("action", VStr "start");
                                    ("status", VStr "started") ]) |} ],
     {| clock := clock w
                 + took (endpoint (issued w) (qemu_status_start_post node vmid));
        self := self w;
        issued := (issued w ++ [qemu_status_start_post node vmid])%list;
        slept := slept w;
        logged := logged w |}).
Proof.
  intros Hapi Hn Hv Hok. unfold handle_call_tool.
  rewrite (execute_tool_start_vm others fuel arguments node vmid Hn Hv).
  unfold VMService.start_vm, VMService.start_vm_on, ProxmoxClient.start_vm, execute,
    _execute_with_retry.
  change (range 3) with [0; 1; 2]. rewrite retry_from_cons.
  unfold try_except, bind. cbn [lambda iscoroutinefunction].
  unfold run_in_executor. cbn [lambda call].
  rewrite (remote_connected _ w endpoint Hapi), Hok. reflexivity.
Qed.

Lemma start_vm_replies_after_the_start_call_witness :
  fst (handle_call_tool (services 0 Stage.idle) "start_vm"
         Stage.start_arguments (Scenario.connected Stage.accepting 0))
  = Returned
      [ {| type := "text";
           text := "{'vmid': 101, 'node': 'pve1', 'task_id': 'UPID:123', "
                     ++ "'action': 'start', 'status': 'started'}" |} ].
Proof.
  rewrite (start_vm_replies_after_the_start_call Stage.idle 0
             Stage.start_arguments (VStr "pve1") (VInt 101) (VStr "UPID:123")
             Stage.accepting (Scenario.connected Stage.accepting 0)
             eq_refl eq_refl eq_refl eq_refl).
  reflexivity.
Defined.

End DispatcherClaims.

Section UnknownTool.
Import ProxmoxMCPServer.

Variable svc : ServiceCall -> M value.

Lemma execute_tool_unknown (tool : string) (arguments : dict) :
  ~ In tool (map name handle_list_tools) ->
  _execute_tool svc tool arguments = raise (Exn.mcp ("Unknown tool: " ++ tool)).
Proof.
  intros Hout. unfold _execute_tool.
  repeat match goal with
         | |- context [String.eqb tool ?s] =>
             destruct (String.eqb_spec tool s) as [->|_];
             [exfalso; apply Hout; vm_compute; tauto|]
         end.
  reflexivity.
Qed.

(** Whatever the services do, the handler's [except] branch turns an
    [Exception] into a reply. *)
Lemma handle_call_tool_catches (tool : string) (arguments : dict)
    (w : World) (e : exn) :
  fst (handle_call_tool svc tool arguments w) <> Raised e.
Proof.
  unfold handle_call_tool, try_except, bind.
  destruct (_execute_tool svc tool arguments w) as [[v|e'| |interruption] w1];
    cbn; discriminate.
Qed.

(** C8, amended.  For a name that [handle_list_tools] does not list,
    whatever the arguments, the reply is one text item, "Tool execution
    failed: Unknown tool: " followed by the name, one error record is
    logged and nothing else happens.  For every name and arguments:
    an [Exception] that [_execute_tool] raises is logged and becomes
    the reply "Tool execution failed: " followed by its text, in the
    world it was raised in; a result becomes the reply that is its
    [str]; so no [Exception] leaves [handle_call_tool].  The handler is
    [except Exception]: what is raised without being one, a
    cancellation say, goes through it untouched. *)
Theorem unknown_tool_is_reported_as_text
    (tool : string) (arguments : dict) (w : World) :
  (~ In tool (map name handle_list_tools) ->
   handle_call_tool svc tool arguments w
   = (Returned [ {| type := "text";
                    text := "Tool execution failed: Unknown tool: " ++ tool |} ],
      {| clock := clock w; self := self w; issued := issued w;
         slept := slept w;
         logged := (logged w
                    ++ [(ERROR, ("Error executing tool " ++ tool
                                   ++ ": Unknown tool: " ++ tool)%string)])%list |}))
  /\ (forall (e : exn) (w1 : World),
        _execute_tool svc tool arguments w = (Raised e, w1) ->
        handle_call_tool svc tool arguments w
        = (Returned [ {| type := "text";
                         text := "Tool execution failed: " ++ Exn.str e |} ],
           {| clock := clock w1; self := self w1; issued := issued w1;
              slept := slept w1;
              logged := (logged w1
                         ++ [(ERROR, ("Error executing tool " ++ tool ++ ": "
                                        ++ Exn.str e)%string)])%list |}))
  /\ (forall (result : value) (w1 : World),
        _execute_tool svc tool arguments w = (Returned result, w1) ->
        handle_call_tool svc tool arguments w
        = (Returned [ {| type := "text"; text := Py.str result |} ], w1))
  /\ (forall e : exn, fst (handle_call_tool svc tool arguments w) <> Raised e)
  /\ (forall (b : BaseException) (w1 : World),
        _execute_tool svc tool arguments w = (Interrupted b, w1) ->
        handle_call_tool svc tool arguments w = (Interrupted b, w1)).
Proof.
  split; [|split; [|split; [|split]]].
  - intros Hout. unfold handle_call_tool.
    rewrite (execute_tool_unknown tool arguments Hout). reflexivity.
  - intros e w1 H. unfold handle_call_tool, try_except, bind. now rewrite H.
  - intros result w1 H. unfold handle_call_tool, try_except, bind. now rewrite H.
  - intros e. apply handle_call_tool_catches.
  - intros b w1 H. unfold handle_call_tool, try_except, bind. now rewrite H.
Qed.

End UnknownTool.

(** C8, as stated, fails: the reply to an unknown tool is one text item
    that reads "Tool execution failed: Unknown tool: ..."; it is no
    envelope with a success flag, and the code of the exception behind
    it is the generic one, not ["UnknownOperation"]. *)
Lemma unknown_tool_reply_has_no_code :
  let w := Scenario.connected Scenario.down 0 in
  fst (ProxmoxMCPServer.handle_call_tool Stage.idle "reboot_cluster" [] w)
  = Returned [ {| type := "text";
                  text := "Tool execution failed: Unknown tool: reboot_cluster" |} ]
  /\ (forall message,
         fst (ProxmoxMCPServer.handle_call_tool Stage.idle "reboot_cluster" [] w)
         <> Returned [ {| type := "text";
                          text := Py.str (Spec.error_envelope
                                            "UnknownOperation" message) |} ])
  /\ Spec.occurs "UnknownOperation"
       "Tool execution failed: Unknown tool: reboot_cluster" = false
  /\ (exists e, fst (ProxmoxMCPServer._execute_tool Stage.idle "reboot_cluster" [] w) = Raised e
                /\ Exn.code_of e = Some "PROXMOX_MCP_ERROR").
Proof.
  cbv zeta.
  assert (E : fst (ProxmoxMCPServer.handle_call_tool Stage.idle "reboot_cluster" []
                     (Scenario.connected Scenario.down 0))
              = Returned [ {| type := "text";
                              text := "Tool execution failed: Unknown tool: reboot_cluster" |} ])
    by reflexivity.
  split; [exact E|]. split.
  - intros message H. rewrite E in H. discriminate H.
  - split; [reflexivity|]. eexists. split; reflexivity.
Qed.

Lemma unknown_tool_is_reported_as_text_witness :
  fst (ProxmoxMCPServer.handle_call_tool Stage.idle "reboot_cluster" []
         (Scenario.connected Scenario.down 0))
  = Returned [ {| type := "text";
                  text := "Tool execution failed: Unknown tool: reboot_cluster" |} ]
  /\ fst (ProxmoxMCPServer.handle_call_tool Stage.idle "start_vm"
            [("node", VStr "pve1")] (Scenario.connected Scenario.down 0))
     = Returned [ {| type := "text"; text := "Tool execution failed: 'vmid'" |} ]
  /\ fst (ProxmoxMCPServer.handle_call_tool Stage.idle "list_nodes" []
            (Scenario.connected Scenario.down 0))
     = Returned [ {| type := "text"; text := "None" |} ]
  /\ ProxmoxMCPServer.handle_call_tool Stage.cancelled_services "list_nodes" []
       (Scenario.connected Scenario.down 0)
     = (Interrupted CancelledError, Scenario.connected Scenario.down 0).
Proof.
  split; [|split; [|split]].
  - rewrite (proj1 (unknown_tool_is_reported_as_text Stage.idle "reboot_cluster" []
                      (Scenario.connected Scenario.down 0))).
    + reflexivity.
    + vm_compute. intros H.
      repeat (destruct H as [H|H]; [discriminate H|]). exact H.
  - rewrite (proj1 (proj2 (unknown_tool_is_reported_as_text Stage.idle "start_vm"
                             [("node", VStr "pve1")]
                             (Scenario.connected Scenario.down 0)))
               (Exn.key_error "vmid") (Scenario.connected Scenario.down 0) eq_refl).
    reflexivity.
  - rewrite (proj1 (proj2 (proj2 (unknown_tool_is_reported_as_text Stage.idle
                                    "list_nodes" []
                                    (Scenario.connected Scenario.down 0))))
               VNone (Scenario.connected Scenario.down 0) eq_refl).
    reflexivity.
  - apply (proj2 (proj2 (proj2 (proj2 (unknown_tool_is_reported_as_text
                                         Stage.cancelled_services "list_nodes" []
                                         (Scenario.connected Scenario.down 0)))))).
    reflexivity.
Defined.

(** ** Bearer tokens *)

Section Tokens.
Import JWTManager.

(** The token library and what is known of it: a token it made, read
    back under the same key and an allowed algorithm, gives the claims
    as they went on the wire, unless its expiry lies before the
    library's clock; a token it did not make under the key and an
    allowed algorithm fails with a [JWTError]. *)
Variable Token : Type.
Variable jwt_encode : claims -> string -> string -> exn + Token.
Variable jwt_decode : Token -> string -> list string -> Z -> exn + dict.
Variable settings : Settings.

Hypothesis decode_genuine :
  forall (c : claims) (key a : string) (algorithms : list string)
         (now : Z) (t : Token),
    Jose.only_expiry_checked c = true ->
    jwt_encode c key a = inr t -> In a algorithms ->
    jwt_decode t key algorithms now
    = if Jose.expired (Jose.wire c) now
      then inl (Foreign "ExpiredSignatureError" "Signature has expired.")
      else inr (Jose.wire c).

Hypothesis decode_rejects_forgery :
  forall (t : Token) (key : string) (algorithms : list string) (now : Z),
    (forall c a, In a algorithms -> jwt_encode c key a <> inr t) ->
    exists e, jwt_decode t key algorithms now = inl e
              /\ Jose.is_JWTError e = true.

Abbreviation create := (create_access_token Token jwt_encode settings).
Abbreviation verify := (verify_token Token jwt_decode settings).

Lemma create_access_token_encodes (data : claims) (expires_delta : option Z)
    (w : World) :
  create data expires_delta w
  = lift (jwt_encode
            (Py.setitem data "exp"
               (Datetime (clock w + lifetime settings expires_delta)))
            (secret_key settings) (jwt_algorithm settings)) w.
Proof.
  unfold create_access_token, lifetime, bind, datetime_utcnow, datetime_now.
  destruct expires_delta as [delta|]; [destruct (delta =? 0)|]; reflexivity.
Qed.

Lemma verify_token_rejects (token : Token) (w : World) (e : exn) :
  jwt_decode token (secret_key settings) [jwt_algorithm settings]
    (clock w / 1000000) = inl e ->
  Jose.is_JWTError e = true ->
  verify token w
  = (Returned None,
     {| clock := clock w; self := self w; issued := issued w;
        slept := slept w;
        logged := (logged w
                   ++ [(ERROR, ("JWT verification failed: " ++ Exn.str e)%string)])%list |}).
Proof. intros H HJ. unfold verify_token. now rewrite H, HJ. Qed.

(** The round trip.  A token issued for the claims [{sub: subject}],
    read while the clock, in whole seconds, has not passed its expiry
    (at once, for a lifetime that is not negative), gives back claims
    in which ["sub"] is the subject; read once the clock has passed the
    expiry it gives [None]; a token the library did not make under the
    server's key and algorithm gives [None]. *)
Lemma token_round_trip_and_rejection
    (subject : string) (expires_delta : option Z) (w : World) (token : Token) :
  let expire := clock w + lifetime settings expires_delta in
  jwt_encode [("sub", Plain (VStr subject)); ("exp", Datetime expire)]
    (secret_key settings) (jwt_algorithm settings) = inr token ->
  create (subject_claims subject) expires_delta w = (Returned token, w)
  /\ (forall w2, clock w2 / 1000000 <= expire / 1000000 ->
        exists payload,
          verify token w2 = (Returned (Some payload), w2)
          /\ Py.lookup payload "sub" = Some (VStr subject))
  /\ (0 <= lifetime settings expires_delta ->
        exists payload,
          verify token w = (Returned (Some payload), w)
          /\ Py.lookup payload "sub" = Some (VStr subject))
  /\ (forall w2, expire / 1000000 < clock w2 / 1000000 ->
        fst (verify token w2) = Returned None)
  /\ (forall forged w2,
        (forall c a, In a [jwt_algorithm settings] ->
                     jwt_encode c (secret_key settings) a <> inr forged) ->
        fst (verify forged w2) = Returned None).
Proof.
  intros expire Henc.
  assert (Hread : forall w2,
             jwt_decode token (secret_key settings) [jwt_algorithm settings]
               (clock w2 / 1000000)
             = if expire / 1000000 <? clock w2 / 1000000
               then inl (Foreign "ExpiredSignatureError" "Signature has expired.")
               else inr [("sub", VStr subject); ("exp", VInt (expire / 1000000))]).
  { intros w2.
    rewrite (decode_genuine
               [("sub", Plain (VStr subject)); ("exp", Datetime expire)]
               _ _ [jwt_algorithm settings] (clock w2 / 1000000)
               _ eq_refl Henc (or_introl eq_refl)).
    reflexivity. }
  assert (Hfresh : forall w2, clock w2 / 1000000 <= expire / 1000000 ->
             exists payload,
               verify token w2 = (Returned (Some payload), w2)
               /\ Py.lookup payload "sub" = Some (VStr subject)).
  { intros w2 Hle. eexists. unfold verify_token. rewrite Hread.
    replace (expire / 1000000 <? clock w2 / 1000000) with false
      by (symmetry; apply Z.ltb_ge; exact Hle).
    split; reflexivity. }
  split; [|split; [exact Hfresh|split; [|split]]].
  - rewrite create_access_token_encodes. unfold subject_claims.
    change (Py.setitem [("sub", Plain (VStr subject))] "exp"
              (Datetime (clock w + lifetime settings expires_delta)))
      with [("sub", Plain (VStr subject)); ("exp", Datetime expire)].
    now rewrite Henc.
  - intros Hlife. apply Hfresh. apply Z.div_le_mono; [lia|]. subst expire. lia.
  - intros w2 Hlate.
    rewrite (verify_token_rejects token w2
               (Foreign "ExpiredSignatureError" "Signature has expired.")).
    + reflexivity.
    + rewrite Hread.
      now replace (expire / 1000000 <? clock w2 / 1000000) with true
        by (symmetry; apply Z.ltb_lt; exact Hlate).
    + reflexivity.
  - intros forged w2 Hforged.
    destruct (decode_rejects_forgery forged (secret_key settings)
                [jwt_algorithm settings] (clock w2 / 1000000) Hforged)
      as (e & He & HJ).
    now rewrite (verify_token_rejects forged w2 e He HJ).
Qed.

End Tokens.

Section TokenBoundary.
Import JWTManager.

Variable Token : Type.
Variable jwt_decode : Token -> string -> list string -> Z -> exn + dict.
Variable settings : Settings.

(** C7, where the code departs from it.  [verify_token] catches
    [JWTError] and nothing else.  So whatever the token library is,
    when its [decode] fails with an exception of another class, that
    exception leaves [verify_token], in the world as it was, with
    nothing logged and no [None] returned; and these failures are all
    that [verify_token] raises.  The library at hand has such a
    failure: for a token whose signature is right and whose ["exp"] is
    [null], its [int(claims['exp'])] raises a [TypeError], where only a
    [ValueError] is turned into a [JWTError]. *)
Theorem verify_token_raises_what_is_no_JWTError
    (token : Token) (w : World) (e : exn) :
  (jwt_decode token (secret_key settings) [jwt_algorithm settings]
     (clock w / 1000000) = inl e ->
   Jose.is_JWTError e = false ->
   verify_token Token jwt_decode settings token w = (Raised e, w))
  /\ (fst (verify_token Token jwt_decode settings token w) = Raised e ->
      jwt_decode token (secret_key settings) [jwt_algorithm settings]
        (clock w / 1000000) = inl e
      /\ Jose.is_JWTError e = false).
Proof.
  unfold verify_token. split.
  - intros H HJ. now rewrite H, HJ.
  - destruct (jwt_decode token (secret_key settings) [jwt_algorithm settings]
                (clock w / 1000000)) as [e'|payload]; [|discriminate].
    destruct (Jose.is_JWTError e') eqn:HJ; [discriminate|].
    cbn [fst]. intros H. injection H as <-. split; [reflexivity | exact HJ].
Qed.

End TokenBoundary.

(** The symbolic library meets what is assumed of the token library *)
Section SymbolicLibrary.

Lemma existsb_eqb_In (a : string) (l : list string) :
  existsb (String.eqb a) l = true <-> In a l.
Proof.
  rewrite existsb_exists. split.
  - intros (b & Hb & E). apply String.eqb_eq in E. now subst.
  - intros H. exists a. split; [assumption | apply String.eqb_refl].
Qed.

(** On claims whose expiry is a [datetime] or an integer, the
    library's test of the expiry is the comparison with the clock. *)
Lemma validate_exp_of_integer (c : claims) (now : Z) :
  Jose.only_expiry_checked c = true ->
  Jose._validate_exp (Jose.wire c) now
  = if Jose.expired (Jose.wire c) now
    then inl (Foreign "ExpiredSignatureError" "Signature has expired.")
    else inr tt.
Proof.
  unfold Jose._validate_exp, Jose.expired, Jose.only_expiry_checked.
  induction c as [|[k v] c IH]; [reflexivity|].
  cbn [forallb fst snd Jose.wire map Py.lookup]. intros H.
  apply andb_true_iff in H as [Hk Hc].
  destruct (String.eqb_spec k "exp") as [->|Hne].
  - cbn [String.eqb Ascii.eqb Bool.eqb] in Hk.
    destruct v as [[| | z | | |]|t]; try discriminate Hk; reflexivity.
  - now apply IH.
Qed.

Lemma symbolic_decode_genuine
    (c : claims) (key a : string) (algorithms : list string) (now : Z)
    (t : Symbolic.Token) :
  Jose.only_expiry_checked c = true ->
  Symbolic.encode c key a = inr t -> In a algorithms ->
  Symbolic.decode t key algorithms now
  = if Jose.expired (Jose.wire c) now
    then inl (Foreign "ExpiredSignatureError" "Signature has expired.")
    else inr (Jose.wire c).
Proof.
  intros Hc Henc Hin. injection Henc as <-. unfold Symbolic.decode.
  rewrite String.eqb_refl, (proj2 (existsb_eqb_In a algorithms) Hin).
  cbn [andb]. rewrite (validate_exp_of_integer c now Hc).
  now destruct (Jose.expired (Jose.wire c) now).
Qed.

Lemma symbolic_decode_rejects_forgery
    (t : Symbolic.Token) (key : string) (algorithms : list string) (now : Z) :
  (forall c a, In a algorithms -> Symbolic.encode c key a <> inr t) ->
  exists e, Symbolic.decode t key algorithms now = inl e
            /\ Jose.is_JWTError e = true.
Proof.
  intros Hforged. unfold Symbolic.decode. destruct t as [c k a|s].
  - destruct (String.eqb_spec k key) as [->|Hk].
    + destruct (existsb (String.eqb a) algorithms) eqn:Ha.
      * exfalso. apply (Hforged c a); [now apply existsb_eqb_In | reflexivity].
      * eexists. split; reflexivity.
    + eexists. split; reflexivity.
  - eexists. split; reflexivity.
Qed.

End SymbolicLibrary.

Lemma verify_token_raises_what_is_no_JWTError_witness :
  let settings := default_settings "s3cret" in
  let w := Scenario.connected Scenario.down 1700000000000000 in
  JWTManager.verify_token Symbolic.Token Symbolic.decode settings
    (token_without_expiry "s3cret" "HS256") w
  = (Raised (Foreign "TypeError"
               ("int() argument must be a string, a bytes-like object or a "
                  ++ "real number, not 'NoneType'")), w).
Proof.
  cbv zeta.
  apply (proj1 (verify_token_raises_what_is_no_JWTError Symbolic.Token
                  Symbolic.decode (default_settings "s3cret")
                  (token_without_expiry "s3cret" "HS256")
                  (Scenario.connected Scenario.down 1700000000000000)
                  (Foreign "TypeError"
                     ("int() argument must be a string, a bytes-like object or a "
                        ++ "real number, not 'NoneType'")))).
  - reflexivity.
  - reflexivity.
Defined.

(** On the symbolic library: a token for ["alice"] is issued and read
    back at once. *)
Example symbolic_token_round_trip :
  let settings := default_settings "s3cret" in
  let w := Scenario.connected Scenario.down 1700000000000000 in
  let token :=
    Symbolic.Signed [("sub", Plain (VStr "alice"));
                     ("exp", Datetime (1700000000000000 + 3600 * second))]
      "s3cret" "HS256" in
  JWTManager.create_access_token Symbolic.Token Symbolic.encode settings
    (subject_claims "alice") None w = (Returned token, w)
  /\ (exists payload,
         JWTManager.verify_token Symbolic.Token Symbolic.decode settings token w
         = (Returned (Some payload), w)
         /\ Py.lookup payload "sub" = Some (VStr "alice")).
Proof.
  cbv zeta.
  destruct (token_round_trip_and_rejection Symbolic.Token Symbolic.encode
              Symbolic.decode (default_settings "s3cret")
              symbolic_decode_genuine symbolic_decode_rejects_forgery
              "alice" None
              (Scenario.connected Scenario.down 1700000000000000)
              (Symbolic.Signed
                 [("sub", Plain (VStr "alice"));
                  ("exp", Datetime (1700000000000000 + 3600 * second))]
                 "s3cret" "HS256")
              eq_refl) as (Hcreate & _ & Hnow & _).
  split; [exact Hcreate|]. apply Hnow. vm_compute. discriminate.
Qed.

(** On the symbolic library: read after the hour is over, or under a
    token signed with another key, the answer is [None]. *)
Example symbolic_tokens_expire_and_forgeries_fail :
  let settings := default_settings "s3cret" in
  let claims := [("sub", Plain (VStr "alice"));
                 ("exp", Datetime (1700000000000000 + 3600 * second))] in
  fst (JWTManager.verify_token Symbolic.Token Symbolic.decode settings
         (Symbolic.Signed claims "s3cret" "HS256")
         (Scenario.connected Scenario.down (1700000000000000 + 3601 * second)))
  = Returned None
  /\ fst (JWTManager.verify_token Symbolic.Token Symbolic.decode settings
            (Symbolic.Signed claims "0ther" "HS256")
            (Scenario.connected Scenario.down 1700000000000000))
     = Returned None.
Proof. split; reflexivity. Qed.

(** ** Where the two time tests do what they are meant to *)

Section WithinADay.

(** [validate_connection] never raises: its [except] branch answers
    [False]. *)
Lemma validate_connection_never_raises (w : World) (e : exn) :
  fst (validate_connection w) <> Raised e.
Proof.
  unfold validate_connection, try_except.
  match goal with
  | |- fst (match ?inner with _ => _ end) <> _ =>
      destruct inner as [[b|e'| |interruption] w1]
  end; cbn; discriminate.
Qed.

Lemma probe_opens (now : Z) (w : World) (endpoint : Transport) :
  api (self w) = Some endpoint -> opens_with version_get (probe now) w.
Proof.
  intros Hapi. unfold probe. apply opens_with_bind.
  - now apply execute_opens with endpoint.
  - intros v. destruct (Py.truthy v).
    + apply appending_bind; [|intros ?; apply appending_ret].
      intros w'. split; [exists []; simpl; now rewrite app_nil_r | reflexivity].
    + apply appending_ret.
Qed.

(** A check between 300 seconds and one day old is not trusted: the
    probe is sent. *)
Lemma validate_connection_reprobes (w : World) (endpoint : Transport)
    (checked : Z) :
  api (self w) = Some endpoint ->
  _last_connection_check (self w) = Some checked ->
  300 * second <= clock w - checked < 86400 * second ->
  opens_with version_get validate_connection w.
Proof.
  intros Hapi Hlast Hage. unfold validate_connection.
  apply opens_with_try.
  - unfold opens_with. rewrite Hapi, Hlast. unfold bind at 1, datetime_now.
    cbv beta iota.
    rewrite seconds_within_a_day by (unfold second in *; lia).
    replace (timedelta.total_seconds (clock w - checked) <? 300) with false.
    + now apply probe_opens with endpoint.
    + symmetry. apply Z.ltb_ge. unfold timedelta.total_seconds, second in *.
      apply Z.div_le_lower_bound; lia.
  - intros e. apply appending_bind; [apply appending_log|].
    intros ?. apply appending_ret.
Qed.

(** Within a day of its start, a wait whose task is still running
    after more than [timeout] whole seconds fails, and the message
    names the handle and the timeout. *)
Lemma poll_times_out_within_a_day (fuel : nat) (node upid : value)
    (timeout start_time : Z) (w : World) (endpoint : Transport) :
  api (self w) = Some endpoint ->
  answer (endpoint (issued w) (tasks_status_get node upid)) = inr running ->
  let arrived := clock w + took (endpoint (issued w) (tasks_status_get node upid)) in
  0 <= arrived - start_time < 86400 * second ->
  timeout < timedelta.total_seconds (arrived - start_time) ->
  fst (poll (S fuel) node upid timeout start_time w)
  = Raised (Proxmox ProxmoxMCPException
              ("Task " ++ Py.str upid ++ " timed out after "
                 ++ Py.repr_int timeout ++ " seconds")
              "PROXMOX_MCP_ERROR" []).
Proof.
  intros Hapi Hrun arrived Hday Hlate. rewrite poll_unfold.
  unfold get_task_status, execute, _execute_with_retry.
  change (range 3) with [0; 1; 2]. rewrite retry_from_cons.
  unfold bind at 1, try_except.
  change (lambda (tasks_status_get node upid))
    with (one_call false (tasks_status_get node upid)).
  rewrite attempt_is_remote, (remote_connected _ w endpoint Hapi), Hrun.
  cbv beta iota. rewrite getitem_running. unfold lift.
  unfold bind at 1, ret at 1.
  change (Py.eq_str (VStr "running") "running") with true.
  cbv beta iota. cbn [negb]. cbv iota.
  unfold bind at 1, datetime_now at 1. cbn [clock].
  fold arrived. rewrite seconds_within_a_day by exact Hday.
  replace (timedelta.total_seconds (arrived - start_time) >? timeout) with true
    by (symmetry; rewrite Z.gtb_ltb; apply Z.ltb_lt; exact Hlate).
  reflexivity.
Qed.

End WithinADay.

(** * Further properties of the code *)

(** ** The retry wrapper, for any operation *)

Lemma attempt_is_call (operation : Callable) :
  (if iscoroutinefunction operation
   then call operation
   else run_in_executor operation) = call operation.
Proof. unfold run_in_executor. now destruct (iscoroutinefunction operation). Qed.

(** One failed attempt: the warning, the back-off or the final error
    record, and on to the attempts that are left. *)
Lemma retry_from_failed_attempt (operation : Callable) (n d attempt : Z)
    (rest : list Z) (last : option exn) (w w1 : World) (e : exn) :
  call operation w = (Raised e, w1) ->
  retry_from operation n d (attempt :: rest) last w
  = retry_from operation n d rest (Some e)
      {| clock := clock w1 + (if attempt <? n - 1 then d * 2 ^ attempt else 0);
         self := self w1; issued := issued w1;
         slept := (slept w1 ++ (if attempt <? n - 1 then [d * 2 ^ attempt] else []))%list;
         logged :=
           (logged w1
            ++ (WARNING, ("Operation failed (attempt " ++ Py.repr_int (attempt + 1)
                            ++ "/" ++ Py.repr_int n ++ "): " ++ Exn.str e)%string)
               :: (if attempt <? n - 1 then []
                   else [(ERROR, ("Operation failed after " ++ Py.repr_int n
                                    ++ " attempts")%string)]))%list |}.
Proof.
  intros Hfail. rewrite retry_from_cons. unfold try_except.
  rewrite attempt_is_call, Hfail. unfold bind, log, sleep. cbn.
  destruct (attempt <? n - 1); cbn.
  - reflexivity.
  - now rewrite Z.add_0_r, app_nil_r, <- app_assoc.
Qed.

Lemma retry_from_raises_exhaustion (operation : Callable) (n d : Z) :
  forall (attempts : list Z) (last : option exn) (w w' : World) (e : exn),
    retry_from operation n d attempts last w = (Raised e, w') ->
    exists last',
      e = Exn.mcp ("Operation failed after " ++ Py.repr_int n ++ " attempts: "
                     ++ Exn.str_opt last').
Proof.
  induction attempts as [|attempt rest IH]; intros last w w' e H.
  - injection H as <- _. now exists last.
  - destruct (call operation w) as [[v|e0| |interruption] w1] eqn:Hcall.
    + rewrite retry_from_cons in H. unfold try_except in H.
      rewrite attempt_is_call, Hcall in H. discriminate H.
    + rewrite (retry_from_failed_attempt _ _ _ _ _ _ _ _ _ Hcall) in H.
      eapply IH. exact H.
    + rewrite retry_from_cons in H. unfold try_except in H.
      rewrite attempt_is_call, Hcall in H. discriminate H.
    + rewrite retry_from_cons in H. unfold try_except in H.
      rewrite attempt_is_call, Hcall in H. discriminate H.
Qed.

(** An attempt cut short by a [BaseException] that is no [Exception]
    ends the loop there: [except Exception] does not see it. *)
Lemma retry_from_interrupted (operation : Callable) (n d attempt : Z)
    (rest : list Z) (last : option exn) (w w1 : World) (b : BaseException) :
  call operation w = (Interrupted b, w1) ->
  retry_from operation n d (attempt :: rest) last w = (Interrupted b, w1).
Proof.
  intros Hcall. rewrite retry_from_cons. unfold try_except.
  now rewrite attempt_is_call, Hcall.
Qed.

(** X1.  Whatever the operation is, every [Exception] that leaves
    [_execute_with_retry] is the server's own base exception, with the
    generic code and the message "Operation failed after n attempts:
    ...": the operation's own [Exception]s never pass.  What is no
    [Exception] does pass: the handler is [except Exception], so when the
    first attempt is cut short by a cancellation or an interrupt from the
    keyboard, that leaves the wrapper as it is, in the world the attempt
    left: nothing is logged, nothing slept, and no second attempt is
    made. *)
Theorem execute_with_retry_raises_only_exhaustion
    (operation : Callable) (max_retries delay : Z) (w w' : World) :
  (forall e : exn,
      _execute_with_retry operation max_retries delay w = (Raised e, w') ->
      exists last,
        e = Proxmox ProxmoxMCPException
              ("Operation failed after " ++ Py.repr_int max_retries
                 ++ " attempts: " ++ Exn.str_opt last)
              "PROXMOX_MCP_ERROR" [])
  /\ (forall b : BaseException,
        0 < max_retries ->
        call operation w = (Interrupted b, w') ->
        _execute_with_retry operation max_retries delay w = (Interrupted b, w')).
Proof.
  unfold _execute_with_retry. split.
  - intros e H.
    destruct (retry_from_raises_exhaustion _ _ _ _ _ _ _ _ H) as [last ->].
    now exists last.
  - intros b Hpos Hcall. unfold range.
    destruct (Z.to_nat max_retries) as [|m] eqn:Hm; [lia|].
    cbn [seq map]. now apply retry_from_interrupted.
Qed.

Lemma execute_with_retry_raises_only_exhaustion_witness :
  (exists last,
      Exn.mcp "Operation failed after 3 attempts: connection refused"
      = Proxmox ProxmoxMCPException
          ("Operation failed after " ++ Py.repr_int 3 ++ " attempts: "
             ++ Exn.str_opt last)
          "PROXMOX_MCP_ERROR" [])
  /\ _execute_with_retry Stage.cancelled 3 second (Scenario.connected Scenario.down 0)
     = (Interrupted CancelledError, Scenario.connected Scenario.down 0).
Proof.
  split.
  - apply (proj1 (execute_with_retry_raises_only_exhaustion (lambda version_get)
                    3 second (Scenario.connected Scenario.down 0)
                    (snd (_execute_with_retry (lambda version_get) 3 second
                            (Scenario.connected Scenario.down 0))))).
    reflexivity.
  - apply (proj2 (execute_with_retry_raises_only_exhaustion Stage.cancelled
                    3 second (Scenario.connected Scenario.down 0)
                    (Scenario.connected Scenario.down 0))).
    + lia.
    + reflexivity.
Defined.

(** The attempts that are followed by a sleep: all but the last *)
Lemma backoff_attempts (n : nat) :
  List.filter (fun attempt => attempt <? Z.of_nat n - 1) (range (Z.of_nat n))
  = range (Z.of_nat n - 1).
Proof.
  unfold range. rewrite Nat2Z.id.
  replace (Z.to_nat (Z.of_nat n - 1)) with (n - 1)%nat by lia.
  assert (G : forall m a, (a + m <= n)%nat ->
            List.filter (fun attempt => attempt <? Z.of_nat n - 1)
              (map Z.of_nat (seq a m))
            = map Z.of_nat (seq a (Nat.min m (n - 1 - a)))).
  { induction m as [|m IH]; intros a Ha; [reflexivity|].
    cbn [seq map List.filter].
    destruct (Z.of_nat a <? Z.of_nat n - 1) eqn:E.
    - apply Z.ltb_lt in E. rewrite IH by lia.
      replace (Nat.min (S m) (n - 1 - a)) with (S (Nat.min m (n - 1 - S a))) by lia.
      reflexivity.
    - apply Z.ltb_ge in E. rewrite IH by lia.
      replace (Nat.min m (n - 1 - S a)) with 0%nat by lia.
      replace (Nat.min (S m) (n - 1 - a)) with 0%nat by lia.
      reflexivity. }
  rewrite (G n 0%nat) by lia. f_equal. f_equal. lia.
Qed.

Lemma retry_from_backoff (operation : Callable) (n d : Z) (client : ProxmoxClient) :
  (forall w, self w = client ->
     exists e w1,
       call operation w = (Raised e, w1)
       /\ slept w1 = slept w /\ self w1 = self w) ->
  forall (attempts : list Z) (last : option exn) (w : World),
    self w = client ->
    exists e w',
      retry_from operation n d attempts last w = (Raised e, w')
      /\ slept w'
         = (slept w
            ++ map (fun attempt => d * 2 ^ attempt)
                 (List.filter (fun attempt => attempt <? n - 1) attempts))%list.
Proof.
  intros Hfails. induction attempts as [|attempt rest IH]; intros last w Hself.
  - exists (Exn.mcp ("Operation failed after " ++ Py.repr_int n ++ " attempts: "
                       ++ Exn.str_opt last)), w.
    split; [reflexivity|]. cbn. now rewrite app_nil_r.
  - destruct (Hfails w Hself) as (e0 & w1 & Hcall & Hslept & Hself1).
    rewrite (retry_from_failed_attempt _ _ _ _ _ _ _ _ _ Hcall).
    match goal with
    | |- context [retry_from _ _ _ rest (Some e0) ?w2] =>
        destruct (IH (Some e0) w2) as (e & w' & Hrun & Hs)
    end.
    + cbn [self]. now rewrite Hself1.
    + exists e, w'. split; [exact Hrun|]. rewrite Hs. cbn [slept List.filter].
      rewrite Hslept. destruct (attempt <? n - 1); cbn [map].
      * now rewrite <- app_assoc.
      * now rewrite app_nil_r.
Qed.

(** X2.  An operation that fails for as long as the client is what it
    is, and neither sleeps nor touches the client itself, is tried [n]
    times with a sleep after every attempt but the last, of
    [delay], twice [delay], four times [delay] and so on: the wrapper
    sleeps [n - 1] times, [delay * 2 ^ i] after attempt [i], and then
    raises. *)
Theorem execute_with_retry_backoff_schedule
    (operation : Callable) (n : nat) (delay : Z) (w : World) :
  (forall w0, self w0 = self w ->
     exists e w1,
       call operation w0 = (Raised e, w1)
       /\ slept w1 = slept w0 /\ self w1 = self w0) ->
  exists e w',
    _execute_with_retry operation (Z.of_nat n) delay w = (Raised e, w')
    /\ slept w'
       = (slept w ++ map (fun attempt => delay * 2 ^ attempt)
                       (range (Z.of_nat n - 1)))%list
    /\ length (slept w') = (length (slept w) + (n - 1))%nat.
Proof.
  intros Hfails. unfold _execute_with_retry.
  destruct (retry_from_backoff operation (Z.of_nat n) delay (self w) Hfails
              (range (Z.of_nat n)) None w eq_refl) as (e & w' & Hrun & Hs).
  exists e, w'. split; [exact Hrun|]. rewrite backoff_attempts in Hs.
  split; [exact Hs|]. rewrite Hs, length_app, length_map. unfold range.
  rewrite length_map, length_seq. lia.
Qed.

Lemma execute_with_retry_backoff_schedule_witness :
  exists e w',
    _execute_with_retry (lambda version_get) 3 second
      (Scenario.connected Scenario.down 0) = (Raised e, w')
    /\ slept w' = [1000000; 2000000].
Proof.
  destruct (execute_with_retry_backoff_schedule (lambda version_get) 3 second
              (Scenario.connected Scenario.down 0)) as (e & w' & H1 & H2 & _).
  - intros w0 Hself. cbn [lambda call]. unfold remote. rewrite Hself.
    eexists. eexists. split; [reflexivity | split; reflexivity].
  - exists e, w'. split; [exact H1 | exact H2].
Defined.

(** ** Accessors without a connection *)

Lemma remote_disconnected (c : RemoteCall) (w : World) :
  api (self w) = None ->
  remote c w = (Raised (Exn.none_has_no (first_attribute c)), w).
Proof. intros H. unfold remote. now rewrite H. Qed.

Lemma retry_from_disconnected (coroutine : bool) (c : RemoteCall) (n d : Z) :
  forall (attempts : list Z) (last : option exn) (w : World),
    api (self w) = None ->
    exists w',
      retry_from (one_call coroutine c) n d attempts last w
      = (Raised (Exn.mcp ("Operation failed after " ++ Py.repr_int n
                            ++ " attempts: "
                            ++ Exn.str_opt
                                 (match attempts with
                                  | [] => last
                                  | _ :: _ => Some (Exn.none_has_no (first_attribute c))
                                  end))), w')
      /\ issued w' = issued w /\ self w' = self w.
Proof.
  induction attempts as [|attempt rest IH]; intros last w Hapi.
  - exists w. repeat split.
  - rewrite (retry_from_failed_attempt (one_call coroutine c) n d attempt rest
               last w w (Exn.none_has_no (first_attribute c))
               (remote_disconnected c w Hapi)).
    match goal with
    | |- context [retry_from _ _ _ rest _ ?w2] =>
        destruct (IH (Some (Exn.none_has_no (first_attribute c))) w2 Hapi)
          as (w' & Hrun & Hi & Hs)
    end.
    exists w'. split; [|split; assumption].
    rewrite Hrun. now destruct rest.
Qed.

(** X3.  With no connection ([self.api] is [None]) an accessor reaches
    nothing: each attempt fails on the attribute access, the endpoint's
    record and the client are as before, and after the attempts the
    exception names the attribute that [None] lacks. *)
Theorem accessor_without_connection_reaches_nothing
    (coroutine : bool) (c : RemoteCall) (n : nat) (delay : Z) (w : World) :
  api (self w) = None ->
  (0 < n)%nat ->
  exists w',
    _execute_with_retry (one_call coroutine c) (Z.of_nat n) delay w
    = (Raised (Proxmox ProxmoxMCPException
                 ("Operation failed after " ++ Py.repr_int (Z.of_nat n)
                    ++ " attempts: 'NoneType' object has no attribute '"
                    ++ first_attribute c ++ "'")
                 "PROXMOX_MCP_ERROR" []), w')
    /\ issued w' = issued w /\ self w' = self w.
Proof.
  intros Hapi Hn. unfold _execute_with_retry.
  destruct (retry_from_disconnected coroutine c (Z.of_nat n) delay
              (range (Z.of_nat n)) None w Hapi) as (w' & Hrun & Hi & Hs).
  exists w'. split; [|split; assumption]. rewrite Hrun.
  rewrite range_nat. destruct n as [|n]; [lia|]. reflexivity.
Qed.

Lemma accessor_without_connection_reaches_nothing_witness :
  exists w',
    ProxmoxClient.start_vm (VStr "pve1") (VInt 101)
      {| clock := 0;
         self := {| api := None; _last_connection_check := None |};
         issued := []; slept := []; logged := [] |}
    = (Raised (Exn.mcp ("Operation failed after 3 attempts: "
                          ++ "'NoneType' object has no attribute 'nodes'")), w')
    /\ issued w' = [] /\ self w' = {| api := None; _last_connection_check := None |}.
Proof.
  apply (accessor_without_connection_reaches_nothing false
           (qemu_status_start_post (VStr "pve1") (VInt 101)) 3 second
           {| clock := 0;
              self := {| api := None; _last_connection_check := None |};
              issued := []; slept := []; logged := [] |}).
  - reflexivity.
  - lia.
Defined.

(** ** Connection validation, probing *)

Lemma validate_connection_probes (w : World) (endpoint : Transport) :
  api (self w) = Some endpoint -> due w ->
  validate_connection w
  = try_except (probe (clock w))
      (fun e =>
         log ERROR ("Connection validation failed: " ++ Exn.str e) ;;; ret false)%py
      w.
Proof.
  intros Hapi Hdue. unfold validate_connection, try_except, due in *.
  rewrite Hapi. unfold bind at 1, datetime_now.
  destruct (_last_connection_check (self w)) as [checked|]; [|reflexivity].
  now replace (timedelta.seconds (clock w - checked) <? 300) with false
    by (symmetry; apply Z.ltb_ge; exact Hdue).
Qed.

(** What a due validation does when the probe is answered at once *)
Lemma validate_connection_after_probe
    (w : World) (endpoint : Transport) (version_info : value) :
  api (self w) = Some endpoint ->
  due w ->
  answer (endpoint (issued w) version_get) = inr version_info ->
  validate_connection w
  = (Returned (Py.truthy version_info),
     {| clock := clock w + took (endpoint (issued w) version_get);
        self := {| api := Some endpoint;
                   _last_connection_check :=
                     if Py.truthy version_info then Some (clock w)
                     else _last_connection_check (self w) |};
        issued := (issued w ++ [version_get])%list;
        slept := slept w; logged := logged w |}).
Proof.
  intros Hapi Hdue Hok. rewrite (validate_connection_probes w endpoint Hapi Hdue).
  unfold try_except, probe, execute, _execute_with_retry.
  change (range 3) with [0; 1; 2]. unfold bind at 1.
  rewrite retry_from_cons. unfold try_except.
  change (lambda version_get) with (one_call false version_get).
  rewrite attempt_is_remote, (remote_connected _ w endpoint Hapi), Hok.
  cbv beta iota. destruct (Py.truthy version_info).
  - unfold bind, set_last_connection_check, ret. cbn. now rewrite Hapi.
  - unfold ret. cbn. destruct (self w) as [a l]. cbn in *. now rewrite Hapi.
Qed.

(** X4.  When a check is due and the endpoint answers the version call
    at once, the answer is the truth value of what it sent: one call is
    made, and only a truthy answer is recorded as a check, under the time
    read before the call was made, not the time it came back. *)
Theorem validate_connection_probe_answered
    (w : World) (endpoint : Transport) (version_info : value) :
  api (self w) = Some endpoint ->
  due w ->
  answer (endpoint (issued w) version_get) = inr version_info ->
  validate_connection w
  = (Returned (Py.truthy version_info),
     {| clock := clock w + took (endpoint (issued w) version_get);
        self := {| api := Some endpoint;
                   _last_connection_check :=
                     if Py.truthy version_info then Some (clock w)
                     else _last_connection_check (self w) |};
        issued := (issued w ++ [version_get])%list;
        slept := slept w; logged := logged w |}).
Proof.
  intros Hapi Hdue Hok.
  exact (validate_connection_after_probe w endpoint version_info Hapi Hdue Hok).
Qed.

Lemma validate_connection_probe_answered_witness :
  fst (validate_connection (Scenario.connected (Scenario.flaky 0 (VDict [])) 7))
  = Returned false
  /\ _last_connection_check
       (self (snd (validate_connection
                     (Scenario.connected (Scenario.flaky 0 (VStr "8.1")) 7))))
     = Some 7.
Proof.
  split.
  - rewrite (validate_connection_probe_answered
               (Scenario.connected (Scenario.flaky 0 (VDict [])) 7)
               (Scenario.flaky 0 (VDict [])) (VDict []) eq_refl I eq_refl).
    reflexivity.
  - rewrite (validate_connection_probe_answered
               (Scenario.connected (Scenario.flaky 0 (VStr "8.1")) 7)
               (Scenario.flaky 0 (VStr "8.1")) (VStr "8.1") eq_refl I eq_refl).
    reflexivity.
Defined.

(** X5.  When a check is due and the endpoint fails all three attempts,
    the answer is [False] and nothing is raised: three calls were made,
    the wrapper slept twice, the recorded check is left as it was, and
    the last log record says why. *)
Theorem validate_connection_endpoint_down
    (w : World) (endpoint : Transport) (errs : nat -> exn) :
  api (self w) = Some endpoint ->
  due w ->
  (forall i, (i < 3)%nat ->
     answer (endpoint (issued w ++ repeat version_get i)%list version_get)
     = inl (errs i)) ->
  exists w',
    validate_connection w = (Returned false, w')
    /\ issued w' = (issued w ++ [version_get; version_get; version_get])%list
    /\ self w' = self w
    /\ last (logged w')
       = Some (ERROR,
               "Connection validation failed: Operation failed after 3 attempts: "
                 ++ Exn.str (errs 2%nat)).
Proof.
  intros Hapi Hdue Hdown. rewrite (validate_connection_probes w endpoint Hapi Hdue).
  unfold try_except, probe, execute, _execute_with_retry. unfold bind at 1.
  change (lambda version_get) with (one_call false version_get).
  change (range 3) with (map Z.of_nat (seq 0 3)).
  destruct (retry_from_exhausted false version_get endpoint 3 (1 * second)
              3 0%nat None w errs Hapi Hdown) as (w' & -> & Hi & Hs).
  eexists. split; [reflexivity|]. cbn [issued self logged].
  split; [exact Hi|]. split; [exact Hs|]. now rewrite last_snoc.
Qed.

Lemma validate_connection_endpoint_down_witness :
  exists w',
    validate_connection (Scenario.connected Scenario.down 0) = (Returned false, w')
    /\ length (issued w') = 3%nat.
Proof.
  destruct (validate_connection_endpoint_down
              (Scenario.connected Scenario.down 0) Scenario.down
              (fun _ => Scenario.refused) eq_refl I) as (w' & H & Hi & _ & _).
  - intros i _. reflexivity.
  - exists w'. split; [exact H|]. now rewrite Hi.
Defined.

(** X6.  Two validations in a row cost one probe: once a probe made at
    some moment has been answered with a truthy value, any validation
    run less than 300 seconds after that moment, on the client as the
    probe left it, answers [True] and leaves the world as it is. *)
Theorem validate_connection_twice_probes_once
    (w w2 : World) (endpoint : Transport) (version_info : value) :
  api (self w) = Some endpoint ->
  due w ->
  answer (endpoint (issued w) version_get) = inr version_info ->
  Py.truthy version_info = true ->
  self w2 = self (snd (validate_connection w)) ->
  0 <= clock w2 - clock w < 300 * second ->
  fst (validate_connection w) = Returned true
  /\ issued (snd (validate_connection w)) = (issued w ++ [version_get])%list
  /\ validate_connection w2 = (Returned true, w2).
Proof.
  intros Hapi Hdue Hok Htrue Hself Hsoon.
  rewrite (validate_connection_after_probe w endpoint version_info
             Hapi Hdue Hok) in *.
  rewrite Htrue in *. cbn [fst snd issued] in *.
  split; [reflexivity|]. split; [reflexivity|].
  apply validate_connection_cached with endpoint (clock w).
  - now rewrite Hself.
  - now rewrite Hself.
  - exact Hsoon.
Qed.

Lemma validate_connection_twice_probes_once_witness :
  let w := Scenario.connected (Scenario.flaky 0 (VStr "8.1")) 0 in
  let w1 := snd (validate_connection w) in
  issued w1 = [version_get]
  /\ validate_connection w1 = (Returned true, w1).
Proof.
  cbv zeta.
  destruct (validate_connection_twice_probes_once
              (Scenario.connected (Scenario.flaky 0 (VStr "8.1")) 0)
              (snd (validate_connection
                      (Scenario.connected (Scenario.flaky 0 (VStr "8.1")) 0)))
              (Scenario.flaky 0 (VStr "8.1")) (VStr "8.1")
              eq_refl I eq_refl eq_refl eq_refl) as (_ & Hi & Hagain).
  - vm_compute. split; [discriminate | reflexivity].
  - split; [exact Hi | exact Hagain].
Defined.

(** ** The task wait, step by step *)

Lemma get_task_status_world (node upid : value) (w : World)
    (endpoint : Transport) (status : value) :
  api (self w) = Some endpoint ->
  answer (endpoint (issued w) (tasks_status_get node upid)) = inr status ->
  get_task_status node upid w
  = (Returned status,
     {| clock := clock w + took (endpoint (issued w) (tasks_status_get node upid));
        self := self w;
        issued := (issued w ++ [tasks_status_get node upid])%list;
        slept := slept w; logged := logged w |}).
Proof.
  intros Hapi Hok. unfold get_task_status, execute, _execute_with_retry.
  change (range 3) with [0; 1; 2]. rewrite retry_from_cons. unfold try_except.
  change (lambda (tasks_status_get node upid))
    with (one_call false (tasks_status_get node upid)).
  now rewrite attempt_is_remote, (remote_connected _ w endpoint Hapi), Hok.
Qed.

(** One turn of the loop on a status that ends the wait *)
Lemma poll_terminal (fuel : nat) (node upid : value) (timeout start_time : Z)
    (w : World) (endpoint : Transport) (final : value) :
  api (self w) = Some endpoint ->
  answer (endpoint (issued w) (tasks_status_get node upid)) = inr final ->
  terminal final ->
  poll (S fuel) node upid timeout start_time w
  = (Returned final,
     {| clock := clock w + took (endpoint (issued w) (tasks_status_get node upid));
        self := self w;
        issued := (issued w ++ [tasks_status_get node upid])%list;
        slept := slept w; logged := logged w |}).
Proof.
  intros Hapi Hok (state & Hget & Hstate). rewrite poll_unfold.
  unfold bind at 1. rewrite (get_task_status_world _ _ _ _ _ Hapi Hok).
  rewrite Hget. unfold lift. unfold bind at 1, ret at 1. now rewrite Hstate.
Qed.

(** One turn of the loop on a running task, the timeout not met *)
Lemma poll_running (fuel : nat) (node upid : value) (timeout start_time : Z)
    (w : World) (endpoint : Transport) :
  api (self w) = Some endpoint ->
  endpoint (issued w) (tasks_status_get node upid)
  = {| answer := inr running; took := 0 |} ->
  timedelta.seconds (clock w - start_time) <= timeout ->
  poll (S fuel) node upid timeout start_time w
  = poll fuel node upid timeout start_time
      {| clock := clock w + 2 * second; self := self w;
         issued := (issued w ++ [tasks_status_get node upid])%list;
         slept := (slept w ++ [2 * second])%list; logged := logged w |}.
Proof.
  intros Hapi Hreply Hin. rewrite poll_unfold. unfold bind at 1.
  rewrite (get_task_status_world node upid w endpoint running Hapi)
    by now rewrite Hreply.
  rewrite Hreply. cbn [took]. rewrite Z.add_0_r.
  rewrite getitem_running. unfold lift. unfold bind at 1, ret at 1.
  change (Py.eq_str (VStr "running") "running") with true.
  cbv beta iota. cbn [negb]. cbv iota.
  unfold bind at 1, datetime_now at 1. cbn [clock].
  replace (timedelta.seconds (clock w - start_time) >? timeout) with false
    by (symmetry; rewrite Z.gtb_ltb; apply Z.ltb_ge; exact Hin).
  reflexivity.
Qed.

Lemma poll_after_running (node upid : value) (timeout start_time : Z)
    (endpoint : Transport) (final : value) :
  terminal final ->
  forall (j fuel : nat) (w : World),
    (j < fuel)%nat ->
    api (self w) = Some endpoint ->
    reports_after endpoint (issued w) node upid j final ->
    (forall i, (i < j)%nat ->
       timedelta.seconds (clock w + Z.of_nat i * (2 * second) - start_time)
       <= timeout) ->
    exists w',
      poll fuel node upid timeout start_time w = (Returned final, w')
      /\ issued w' = (issued w ++ repeat (tasks_status_get node upid) (S j))%list
      /\ slept w' = (slept w ++ repeat (2 * second) j)%list
      /\ self w' = self w.
Proof.
  intros Hfinal. induction j as [|j IH]; intros fuel w Hfuel Hapi [Hrun Hend] Htime.
  - destruct fuel as [|fuel]; [lia|]. cbn [repeat] in *.
    rewrite app_nil_r in Hend.
    rewrite (poll_terminal fuel node upid timeout start_time w endpoint final
               Hapi Hend Hfinal).
    eexists. split; [reflexivity|]. cbn. now rewrite app_nil_r.
  - destruct fuel as [|fuel]; [lia|].
    pose proof (Hrun 0%nat ltac:(lia)) as H0. cbn [repeat] in H0.
    rewrite app_nil_r in H0.
    pose proof (Htime 0%nat ltac:(lia)) as T0.
    replace (clock w + Z.of_nat 0 * (2 * second) - start_time)
      with (clock w - start_time) in T0 by lia.
    rewrite (poll_running fuel node upid timeout start_time w endpoint Hapi H0 T0).
    match goal with
    | |- context [poll fuel _ _ _ _ ?w2] =>
        destruct (IH fuel w2) as (w' & Hpoll & Hi & Hs & Hself)
    end.
    + lia.
    + exact Hapi.
    + cbn [issued]. split.
      * intros i Hi. rewrite repeat_shift. apply Hrun. lia.
      * rewrite repeat_shift. exact Hend.
    + intros i Hi. cbn [clock].
      replace (clock w + 2 * second + Z.of_nat i * (2 * second) - start_time)
        with (clock w + Z.of_nat (S i) * (2 * second) - start_time) by lia.
      apply Htime. lia.
    + exists w'. split; [exact Hpoll|]. cbn [issued slept self] in *.
      rewrite Hi, Hs, repeat_shift. split; [reflexivity|].
      split; [|exact Hself]. now rewrite <- app_assoc.
Qed.

Lemma seconds_of_polls (i : nat) :
  Z.of_nat i < 43200 ->
  timedelta.seconds (Z.of_nat i * (2 * second)) = 2 * Z.of_nat i.
Proof.
  intros H. unfold timedelta.seconds, second.
  replace (Z.of_nat i * (2 * 1000000)) with (2 * Z.of_nat i * 1000000) by lia.
  rewrite Z.div_mul by lia. apply Z.mod_small. lia.
Qed.

(** X7.  A task that reports ["running"] to [j] fetches and then a
    status that is not ["running"]: with fuel for [j + 1] turns, an
    endpoint that answers at once and a timeout the [j] two-second sleeps
    stay within, [wait_for_task] returns that status after exactly
    [j + 1] status fetches and [j] sleeps of two seconds.  For [j = 0]
    the status comes back whatever the timeout is, a negative one too. *)
Theorem wait_for_task_returns_first_terminal
    (fuel j : nat) (node upid final : value) (timeout : Z)
    (endpoint : Transport) (w : World) :
  api (self w) = Some endpoint ->
  (j < fuel)%nat ->
  Z.of_nat j < 43200 ->
  (forall i, (i < j)%nat -> 2 * Z.of_nat i <= timeout) ->
  terminal final ->
  reports_after endpoint (issued w) node upid j final ->
  exists w',
    wait_for_task fuel node upid timeout w = (Returned final, w')
    /\ issued w' = (issued w ++ repeat (tasks_status_get node upid) (j + 1))%list
    /\ slept w' = (slept w ++ repeat (2 * second) j)%list.
Proof.
  intros Hapi Hfuel Hday Htime Hfinal Hreports.
  unfold wait_for_task, bind, datetime_now. cbv beta iota.
  destruct (poll_after_running node upid timeout (clock w) endpoint final
              Hfinal j fuel w Hfuel Hapi Hreports) as (w' & Hpoll & Hi & Hs & _).
  - intros i Hi.
    replace (clock w + Z.of_nat i * (2 * second) - clock w)
      with (Z.of_nat i * (2 * second)) by lia.
    rewrite seconds_of_polls by lia. now apply Htime.
  - exists w'. rewrite Nat.add_1_r. repeat split; assumption.
Qed.

Lemma wait_for_task_returns_first_terminal_witness :
  exists w',
    wait_for_task 5 (VStr "pve1") (VStr "UPID:123") 300
      (Scenario.connected Stage.accepting 0)
    = (Returned (VDict [("status", VStr "stopped"); ("exitstatus", VStr "OK")]), w')
    /\ length (issued w') = 3%nat
    /\ slept w' = [2 * second; 2 * second].
Proof.
  destruct (wait_for_task_returns_first_terminal 5 2 (VStr "pve1")
              (VStr "UPID:123")
              (VDict [("status", VStr "stopped"); ("exitstatus", VStr "OK")])
              300 Stage.accepting (Scenario.connected Stage.accepting 0))
    as (w' & H & Hi & Hs).
  - reflexivity.
  - lia.
  - lia.
  - intros i Hi. lia.
  - exists (VStr "stopped"). split; reflexivity.
  - split.
    + intros [|[|i]] Hi; [reflexivity | reflexivity | lia].
    + reflexivity.
  - exists w'. split; [exact H|]. rewrite Hi, Hs. split; reflexivity.
Defined.

(** X8.  A status without a ["status"] entry, or one that is no
    dictionary, ends the wait with the error of the subscript, a
    [KeyError] for the missing entry, after the one fetch: it is neither
    taken for a finished task nor polled again. *)
Theorem wait_for_task_status_without_state
    (fuel : nat) (node upid status : value) (timeout : Z)
    (endpoint : Transport) (w : World) (e : exn) :
  api (self w) = Some endpoint ->
  answer (endpoint (issued w) (tasks_status_get node upid)) = inr status ->
  getitem status "status" = inl e ->
  wait_for_task (S fuel) node upid timeout w
  = (Raised e,
     {| clock := clock w + took (endpoint (issued w) (tasks_status_get node upid));
        self := self w;
        issued := (issued w ++ [tasks_status_get node upid])%list;
        slept := slept w; logged := logged w |}).
Proof.
  intros Hapi Hok Hget. unfold wait_for_task. unfold bind at 1, datetime_now.
  cbv beta iota. rewrite poll_unfold. unfold bind at 1.
  rewrite (get_task_status_world _ _ _ _ _ Hapi Hok).
  rewrite Hget. reflexivity.
Qed.

Lemma wait_for_task_status_without_state_witness :
  fst (wait_for_task 1 (VStr "pve1") (VStr "UPID:123") 300
         (Scenario.connected
            (Scenario.flaky 0 (VDict [("exitstatus", VStr "OK")])) 0))
  = Raised (Foreign "KeyError" "'status'").
Proof.
  rewrite (wait_for_task_status_without_state 0 (VStr "pve1") (VStr "UPID:123")
             (VDict [("exitstatus", VStr "OK")]) 300
             (Scenario.flaky 0 (VDict [("exitstatus", VStr "OK")]))
             (Scenario.connected
                (Scenario.flaky 0 (VDict [("exitstatus", VStr "OK")])) 0)
             (Foreign "KeyError" "'status'") eq_refl eq_refl eq_refl).
  reflexivity.
Defined.

(** X9.  With a negative timeout a task found running fails the wait on
    the spot, whatever the clock says: one fetch, no sleep, and the
    message names the handle and the timeout. *)
Theorem wait_for_task_negative_timeout
    (fuel : nat) (node upid : value) (timeout : Z)
    (endpoint : Transport) (w : World) :
  api (self w) = Some endpoint ->
  answer (endpoint (issued w) (tasks_status_get node upid)) = inr running ->
  timeout < 0 ->
  wait_for_task (S fuel) node upid timeout w
  = (Raised (Proxmox ProxmoxMCPException
               ("Task " ++ Py.str upid ++ " timed out after "
                  ++ Py.repr_int timeout ++ " seconds")
               "PROXMOX_MCP_ERROR" []),
     {| clock := clock w + took (endpoint (issued w) (tasks_status_get node upid));
        self := self w;
        issued := (issued w ++ [tasks_status_get node upid])%list;
        slept := slept w; logged := logged w |}).
Proof.
  intros Hapi Hok Hneg. unfold wait_for_task. unfold bind at 1, datetime_now.
  cbv beta iota. rewrite poll_unfold. unfold bind at 1.
  rewrite (get_task_status_world _ _ _ _ _ Hapi Hok).
  rewrite getitem_running. unfold lift. unfold bind at 1, ret at 1.
  change (Py.eq_str (VStr "running") "running") with true.
  cbv beta iota. cbn [negb]. cbv iota.
  unfold bind at 1, datetime_now at 1. cbn [clock].
  match goal with
  | |- context [timedelta.seconds ?d >? timeout] =>
      pose proof (seconds_bounds d) as Hb;
      replace (timedelta.seconds d >? timeout) with true
        by (symmetry; rewrite Z.gtb_ltb; apply Z.ltb_lt; lia)
  end.
  reflexivity.
Qed.

Lemma wait_for_task_negative_timeout_witness :
  fst (wait_for_task 1 (VStr "pve1") (VStr "UPID:123") (-1)
         (Scenario.connected Scenario.slow_task 0))
  = Raised (Exn.mcp "Task UPID:123 timed out after -1 seconds").
Proof.
  rewrite (wait_for_task_negative_timeout 0 (VStr "pve1") (VStr "UPID:123") (-1)
             Scenario.slow_task (Scenario.connected Scenario.slow_task 0)
             eq_refl eq_refl).
  - reflexivity.
  - lia.
Defined.

(** ** The VM service *)

Lemma execute_answered (c : RemoteCall) (w : World) (endpoint : Transport)
    (v : value) :
  api (self w) = Some endpoint ->
  answer (endpoint (issued w) c) = inr v ->
  execute (lambda c) w
  = (Returned v,
     {| clock := clock w + took (endpoint (issued w) c); self := self w;
        issued := (issued w ++ [c])%list;
        slept := slept w; logged := logged w |}).
Proof.
  intros Hapi Hok. unfold execute, _execute_with_retry.
  change (range 3) with [0; 1; 2]. rewrite retry_from_cons. unfold try_except.
  change (lambda c) with (one_call false c).
  now rewrite attempt_is_remote, (remote_connected _ w endpoint Hapi), Hok.
Qed.

(** What leaves a body wrapped in "log the error, raise it again under a
    prefix" is the server's base exception under that prefix. *)
Lemma rewrapped {A} (body : M A) (record : exn -> string) (prefix : string)
    (w w' : World) (e : exn) :
  try_except body
    (fun cause => log ERROR (record cause) ;;;
                  raise (Exn.mcp (prefix ++ Exn.str cause)))%py w
  = (Raised e, w') ->
  exists cause, e = Exn.mcp (prefix ++ cause).
Proof.
  unfold try_except. destruct (body w) as [[a|cause| |interruption] w1]; intros H;
    try discriminate H.
  unfold bind, log, raise in H. injection H as <- _.
  now exists (Exn.str cause).
Qed.

(** X10.  Whatever the client does under [start_vm], [stop_vm] or
    [delete_vm] of the VM service, every [Exception] that reaches the
    caller is the server's base exception, with the generic code and a
    message that starts with "Failed to start VM: ", "Failed to stop
    VM: " or "Failed to delete VM: "; so it is for the methods on the
    client of this process.  The handlers are [except Exception]: when
    the client's call, or the wait for the task, is cut short by what is
    no [Exception] (a cancellation, an interrupt from the keyboard), that
    reaches the caller as it is, from the world it was raised in, and
    nothing is logged. *)
Theorem vm_service_raises_under_its_prefix
    (client_start_vm : value -> value -> M value)
    (client_stop_vm client_delete_vm : value -> value -> value -> M value)
    (client_wait_for_task : value -> value -> M value)
    (node vmid flag : value) (w w' : World) :
  (forall e : exn,
      VMService.start_vm_on client_start_vm node vmid w = (Raised e, w') ->
      exists cause,
        e = Proxmox ProxmoxMCPException ("Failed to start VM: " ++ cause)
              "PROXMOX_MCP_ERROR" [])
  /\ (forall e : exn,
        VMService.stop_vm_on client_stop_vm node vmid flag w = (Raised e, w') ->
        exists cause,
          e = Proxmox ProxmoxMCPException ("Failed to stop VM: " ++ cause)
                "PROXMOX_MCP_ERROR" [])
  /\ (forall e : exn,
        VMService.delete_vm_on client_delete_vm client_wait_for_task
          node vmid flag w = (Raised e, w') ->
        exists cause,
          e = Proxmox ProxmoxMCPException ("Failed to delete VM: " ++ cause)
                "PROXMOX_MCP_ERROR" [])
  /\ (forall b : BaseException,
        client_start_vm node vmid w = (Interrupted b, w') ->
        VMService.start_vm_on client_start_vm node vmid w = (Interrupted b, w'))
  /\ (forall b : BaseException,
        client_stop_vm node vmid flag w = (Interrupted b, w') ->
        VMService.stop_vm_on client_stop_vm node vmid flag w = (Interrupted b, w'))
  /\ (forall b : BaseException,
        client_delete_vm node vmid flag w = (Interrupted b, w') ->
        VMService.delete_vm_on client_delete_vm client_wait_for_task
          node vmid flag w = (Interrupted b, w'))
  /\ (forall (b : BaseException) (task_id : value) (w1 : World),
        client_delete_vm node vmid flag w = (Returned task_id, w1) ->
        client_wait_for_task node task_id w1 = (Interrupted b, w') ->
        VMService.delete_vm_on client_delete_vm client_wait_for_task
          node vmid flag w = (Interrupted b, w')).
Proof.
  split; [|split; [|split; [|split; [|split; [|split]]]]].
  - intros e H. apply rewrapped in H. exact H.
  - intros e H. apply rewrapped in H. exact H.
  - intros e H. apply rewrapped in H. exact H.
  - intros b H. unfold VMService.start_vm_on, try_except, bind. now rewrite H.
  - intros b H. unfold VMService.stop_vm_on, try_except, bind. now rewrite H.
  - intros b H. unfold VMService.delete_vm_on, try_except, bind. now rewrite H.
  - intros b task_id w1 H1 H2. unfold VMService.delete_vm_on, try_except, bind.
    now rewrite H1, H2.
Qed.

Lemma vm_service_raises_under_its_prefix_witness :
  (exists cause,
      fst (VMService.start_vm (VStr "pve1") (VInt 101)
             (Scenario.connected Scenario.down 0))
      = Raised (Proxmox ProxmoxMCPException ("Failed to start VM: " ++ cause)
                  "PROXMOX_MCP_ERROR" []))
  /\ VMService.start_vm_on (fun _ _ => interrupt CancelledError)
       (VStr "pve1") (VInt 101) (Scenario.connected Scenario.down 0)
     = (Interrupted CancelledError, Scenario.connected Scenario.down 0).
Proof.
  split.
  - destruct (proj1 (vm_service_raises_under_its_prefix
                       ProxmoxClient.start_vm ProxmoxClient.stop_vm
                       ProxmoxClient.delete_vm
                       (fun node task_id =>
                          ProxmoxClient.wait_for_task 0 node task_id 300)
                       (VStr "pve1") (VInt 101) VNone
                       (Scenario.connected Scenario.down 0)
                       (snd (VMService.start_vm (VStr "pve1") (VInt 101)
                               (Scenario.connected Scenario.down 0))))
                (Exn.mcp ("Failed to start VM: Operation failed after 3 attempts: "
                            ++ "connection refused")) eq_refl) as [cause Hcause].
    exists cause. now rewrite <- Hcause.
  - apply (proj1 (proj2 (proj2 (proj2
             (vm_service_raises_under_its_prefix
                (fun _ _ => interrupt CancelledError)
                ProxmoxClient.stop_vm ProxmoxClient.delete_vm
                (fun node task_id => ProxmoxClient.wait_for_task 0 node task_id 300)
                (VStr "pve1") (VInt 101) VNone
                (Scenario.connected Scenario.down 0)
                (Scenario.connected Scenario.down 0)))))).
    reflexivity.
Defined.

(** X11.  [stop_vm] goes by the truth value of [force], not by its
    being [True]: any truthy value, the string ["false"] among them,
    sends the hard stop, and only a falsy one sends the shutdown.  The
    reply carries [force] as it was given. *)
Theorem stop_vm_goes_by_truthiness
    (node vmid force task_id : value) (endpoint : Transport) (w : World) :
  let sent := if Py.truthy force
              then qemu_status_stop_post node vmid
              else qemu_status_shutdown_post node vmid in
  api (self w) = Some endpoint ->
  answer (endpoint (issued w) sent) = inr task_id ->
  VMService.stop_vm node vmid force w
  = (Returned (VDict [ ("vmid", vmid); ("node", node); ("task_id", task_id);
                       ("action", VStr "stop"); ("force", force);
                       ("status", VStr "stopped") ]),
     {| clock := clock w + took (endpoint (issued w) sent); self := self w;
        issued := (issued w ++ [sent])%list;
        slept := slept w; logged := logged w |}).
Proof.
  intros sent Hapi Hok. subst sent.
  unfold VMService.stop_vm, VMService.stop_vm_on, try_except, ProxmoxClient.stop_vm. unfold bind at 1.
  destruct (Py.truthy force);
    now rewrite (execute_answered _ w endpoint task_id Hapi Hok).
Qed.

Lemma stop_vm_goes_by_truthiness_witness :
  issued (snd (VMService.stop_vm (VStr "pve1") (VInt 101) (VStr "false")
                 (Scenario.connected Stage.accepting 0)))
  = [qemu_status_stop_post (VStr "pve1") (VInt 101)].
Proof.
  rewrite (stop_vm_goes_by_truthiness (VStr "pve1") (VInt 101) (VStr "false")
             (VStr "UPID:123") Stage.accepting
             (Scenario.connected Stage.accepting 0) eq_refl eq_refl).
  reflexivity.
Defined.

(** X12.  [delete_vm] sends the delete call (with [purge] as 1 or 0),
    waits on the handle it got, and goes by the exit status of the task:
    ["OK"] gives the reply with status ["deleted"]; anything else, a
    missing exit status too, gives the exception "Failed to delete VM: VM
    deletion failed: " followed by that exit status.  Either way the
    endpoint has seen the delete call and then [j + 1] status fetches. *)
Theorem delete_vm_goes_by_exit_status
    (fuel j : nat) (node vmid purge task_id : value) (final : dict)
    (endpoint : Transport) (w : World) :
  let sent := qemu_delete node vmid (if Py.truthy purge then 1 else 0) in
  let exitstatus := Py.get final "exitstatus" VNone in
  api (self w) = Some endpoint ->
  answer (endpoint (issued w) sent) = inr task_id ->
  (j < fuel)%nat ->
  (j <= 150)%nat ->
  terminal (VDict final) ->
  reports_after endpoint (issued w ++ [sent])%list node task_id j (VDict final) ->
  exists w',
    VMService.delete_vm fuel node vmid purge w
    = (if Py.eq_str exitstatus "OK"
       then Returned (VDict [ ("vmid", vmid); ("node", node);
                              ("task_id", task_id); ("action", VStr "delete");
                              ("purge", purge); ("status", VStr "deleted") ])
       else Raised (Exn.mcp ("Failed to delete VM: VM deletion failed: "
                               ++ Py.str exitstatus)),
       w')
    /\ issued w'
       = (issued w ++ sent :: repeat (tasks_status_get node task_id) (j + 1))%list.
Proof.
  intros sent exitstatus Hapi Hok Hfuel Hj Hfinal Hreports.
  unfold VMService.delete_vm, VMService.delete_vm_on, try_except, ProxmoxClient.delete_vm.
  unfold bind at 1. fold sent.
  rewrite (execute_answered sent w endpoint task_id Hapi Hok).
  unfold bind at 1, wait_for_task. unfold bind at 1, datetime_now.
  cbv beta iota. cbn [clock].
  match goal with
  | |- context [poll fuel node task_id 300 ?start ?w1] =>
      destruct (poll_after_running node task_id 300 start endpoint (VDict final)
                  Hfinal j fuel w1 Hfuel Hapi Hreports)
        as (w2 & -> & Hi & _ & _)
  end.
  - intros i Hi. cbn [clock].
    match goal with
    | |- timedelta.seconds ?d <= _ =>
        replace d with (Z.of_nat i * (2 * second)) by lia
    end.
    rewrite seconds_of_polls by lia. lia.
  - cbn [issued] in Hi. cbn [get_method lift]. unfold bind at 1, ret at 1.
    fold exitstatus. rewrite Nat.add_1_r.
    destruct (Py.eq_str exitstatus "OK"); cbn [negb].
    + exists w2. split; [reflexivity|]. now rewrite Hi, <- app_assoc.
    + eexists. split; [reflexivity|]. cbn [issued]. now rewrite Hi, <- app_assoc.
Qed.

Lemma delete_vm_goes_by_exit_status_witness :
  exists w',
    VMService.delete_vm 5 (VStr "pve1") (VInt 101) (VBool false)
      (Scenario.connected Stage.accepting 0)
    = (Returned (VDict [ ("vmid", VInt 101); ("node", VStr "pve1");
                         ("task_id", VStr "UPID:123"); ("action", VStr "delete");
                         ("purge", VBool false); ("status", VStr "deleted") ]),
       w')
    /\ length (issued w') = 4%nat.
Proof.
  destruct (delete_vm_goes_by_exit_status 5 2 (VStr "pve1") (VInt 101)
              (VBool false) (VStr "UPID:123")
              [("status", VStr "stopped"); ("exitstatus", VStr "OK")]
              Stage.accepting (Scenario.connected Stage.accepting 0))
    as (w' & H & Hi).
  - reflexivity.
  - reflexivity.
  - lia.
  - lia.
  - exists (VStr "stopped"). split; reflexivity.
  - split.
    + intros [|[|i]] Hi; [reflexivity | reflexivity | lia].
    + reflexivity.
  - exists w'. split; [exact H|]. now rewrite Hi.
Defined.

(** ** The dispatcher and the schemas it publishes *)

Lemma contains_lookup {V} (d : list (string * V)) (key : string) :
  Py.contains d key = match Py.lookup d key with Some _ => true | None => false end.
Proof.
  induction d as [|[k v] d IH]; [reflexivity|]. cbn.
  now destruct (String.eqb k key).
Qed.

Lemma arg_missing (arguments : dict) (key : string) :
  Py.lookup arguments key = None ->
  ProxmoxMCPServer.arg arguments key = raise (Exn.key_error key).
Proof. intros H. unfold ProxmoxMCPServer.arg, getitem. now rewrite H. Qed.

(** Settles every [arguments[key]] of the goal that a hypothesis on the
    required keys covers. *)
Ltac required_present Hreq arguments :=
  repeat match goal with
    | |- context [ProxmoxMCPServer.arg arguments ?k] =>
        let C := fresh "C" in
        let E := fresh "E" in
        let v := fresh "v" in
        pose proof (Hreq k ltac:(cbn; tauto)) as C;
        rewrite contains_lookup in C;
        destruct (Py.lookup arguments k) as [v|] eqn:E; [|discriminate C];
        clear C; rewrite (arg_present arguments k v E)
    end.

Section Schemas.
Import ProxmoxMCPServer.

Variable svc : ServiceCall -> M value.

(** X13.  The published schemas tell the truth about what the
    dispatcher needs: for every tool that [handle_list_tools] lists,
    arguments that hold every key of its [required] list get through
    to a service method, whatever else they hold or lack. *)
Theorem required_arguments_suffice (t : Tool) (arguments : dict) :
  In t handle_list_tools ->
  (forall key, In key (required t) -> Py.contains arguments key = true) ->
  exists c, _execute_tool svc (name t) arguments = svc c.
Proof.
  intros Hin Hreq. unfold handle_list_tools in Hin. cbn [In] in Hin.
  repeat (destruct Hin as [<-|Hin];
          [cbn [name required] in *; unfold _execute_tool;
           cbn [String.eqb Ascii.eqb Bool.eqb];
           required_present Hreq arguments; eexists; reflexivity|]).
  contradiction.
Qed.

(** X14.  And they tell all of it: for every listed tool, if a key of
    its [required] list is missing, the first such key is what the
    caller is told, as "Tool execution failed: 'key'"; one error record
    is logged, no service method is called and nothing else changes. *)
Theorem missing_required_argument_is_named
    (t : Tool) (arguments : dict) (key : string) (w : World) :
  In t handle_list_tools ->
  List.find (fun k => negb (Py.contains arguments k)) (required t) = Some key ->
  handle_call_tool svc (name t) arguments w
  = (Returned [ {| type := "text";
                   text := "Tool execution failed: " ++ Py.repr_str key |} ],
     {| clock := clock w; self := self w; issued := issued w;
        slept := slept w;
        logged := (logged w
                   ++ [(ERROR, ("Error executing tool " ++ name t ++ ": "
                                  ++ Py.repr_str key)%string)])%list |}).
Proof.
  intros Hin Hfind. unfold handle_list_tools in Hin. cbn [In] in Hin.
  repeat (destruct Hin as [<-|Hin];
          [cbn [name required List.find] in *;
           try discriminate Hfind;
           unfold handle_call_tool, _execute_tool;
           cbn [String.eqb Ascii.eqb Bool.eqb];
           rewrite ?contains_lookup in Hfind;
           repeat match type of Hfind with
             | context [Py.lookup arguments ?k] =>
                 let E := fresh "E" in
                 let v := fresh "v" in
                 destruct (Py.lookup arguments k) as [v|] eqn:E;
                 cbn [negb] in Hfind;
                 [rewrite (arg_present arguments k v E)
                 |rewrite (arg_missing arguments k E);
                  injection Hfind as <-; reflexivity]
             end;
           discriminate Hfind|]).
  contradiction.
Qed.

End Schemas.

Lemma required_arguments_suffice_witness :
  exists c,
    ProxmoxMCPServer._execute_tool Stage.idle "clone_vm"
      [("newid", VInt 102); ("vmid", VInt 101); ("node", VStr "pve1")]
    = Stage.idle c.
Proof.
  apply (required_arguments_suffice Stage.idle
           {| name := "clone_vm"; required := ["node"; "vmid"; "newid"] |}
           [("newid", VInt 102); ("vmid", VInt 101); ("node", VStr "pve1")]).
  - cbn. tauto.
  - intros key H. cbn in H.
    repeat (destruct H as [<-|H]; [reflexivity|]). contradiction.
Defined.

Lemma missing_required_argument_is_named_witness :
  fst (ProxmoxMCPServer.handle_call_tool Stage.idle "start_vm"
         [("node", VStr "pve1")] (Scenario.connected Scenario.down 0))
  = Returned [ {| type := "text"; text := "Tool execution failed: 'vmid'" |} ].
Proof.
  assert (H : In {| name := "start_vm"; required := ["node"; "vmid"] |}
                ProxmoxMCPServer.handle_list_tools) by (cbn; tauto).
  pose proof (missing_required_argument_is_named Stage.idle
                {| name := "start_vm"; required := ["node"; "vmid"] |}
                [("node", VStr "pve1")] "vmid"
                (Scenario.connected Scenario.down 0) H eq_refl) as E.
  cbn [name] in E. rewrite E. reflexivity.
Defined.

(** ** Connecting and disconnecting *)

Lemma keeps_client_bind {A B} (m : M A) (k : A -> M B) :
  keeps_client m -> (forall a, keeps_client (k a)) -> keeps_client (bind m k).
Proof.
  intros Hm Hk w. unfold bind. specialize (Hm w).
  destruct (m w) as [[a|e| |interruption] w1]; cbn in *; try exact Hm.
  now rewrite Hk.
Qed.

Lemma keeps_client_try {A} (m : M A) (handler : exn -> M A) :
  keeps_client m -> (forall e, keeps_client (handler e)) ->
  keeps_client (try_except m handler).
Proof.
  intros Hm Hh w. unfold try_except. specialize (Hm w).
  destruct (m w) as [[a|e| |interruption] w1]; cbn in *; try exact Hm.
  now rewrite Hh.
Qed.

Lemma keeps_client_log (lvl : level) (msg : string) : keeps_client (log lvl msg).
Proof. intros w. reflexivity. Qed.

Lemma keeps_client_sleep (d : Z) : keeps_client (sleep d).
Proof. intros w. reflexivity. Qed.

Lemma keeps_client_remote (c : RemoteCall) : keeps_client (remote c).
Proof. intros w. unfold remote. now destruct (api (self w)). Qed.

Lemma keeps_client_retry_from (coroutine : bool) (c : RemoteCall) (n d : Z) :
  forall attempts last,
    keeps_client (retry_from (one_call coroutine c) n d attempts last).
Proof.
  induction attempts as [|attempt rest IH]; intros last.
  - intros w. reflexivity.
  - rewrite retry_from_cons, attempt_is_remote. apply keeps_client_try.
    + apply keeps_client_remote.
    + intros e. apply keeps_client_bind; [apply keeps_client_log|]. intros _.
      apply keeps_client_bind; [|intros _; apply IH].
      destruct (attempt <? n - 1);
        [apply keeps_client_sleep | apply keeps_client_log].
Qed.

Lemma keeps_client_execute (c : RemoteCall) : keeps_client (execute (lambda c)).
Proof. apply (keeps_client_retry_from false). Qed.

(** The retry wrapper around one remote call comes back: it returns or
    raises, the loop is bounded. *)
Lemma retry_from_comes_back (coroutine : bool) (c : RemoteCall) (n d : Z) :
  forall attempts last w,
    fst (retry_from (one_call coroutine c) n d attempts last w) <> Pending.
Proof.
  induction attempts as [|attempt rest IH]; intros last w.
  - discriminate.
  - destruct (remote c w) as [[v|e| |interruption] w1] eqn:Hcall.
    + rewrite retry_from_cons, attempt_is_remote. unfold try_except.
      rewrite Hcall. discriminate.
    + rewrite (retry_from_failed_attempt (one_call coroutine c) n d attempt rest
                 last w w1 e Hcall). apply IH.
    + unfold remote in Hcall. destruct (api (self w)) as [endpoint|].
      * destruct (answer (endpoint (issued w) c)); discriminate.
      * discriminate.
    + unfold remote in Hcall. destruct (api (self w)) as [endpoint|].
      * destruct (answer (endpoint (issued w) c)); discriminate.
      * discriminate.
Qed.

(** The endpoint fails with [Exception]s, which the wrapper catches: a
    remote call behind it ends in no other way. *)
Lemma retry_from_not_interrupted (coroutine : bool) (c : RemoteCall) (n d : Z) :
  forall attempts last w b,
    fst (retry_from (one_call coroutine c) n d attempts last w) <> Interrupted b.
Proof.
  induction attempts as [|attempt rest IH]; intros last w b.
  - discriminate.
  - destruct (remote c w) as [[v|e| |interruption] w1] eqn:Hcall.
    + rewrite retry_from_cons, attempt_is_remote. unfold try_except.
      rewrite Hcall. discriminate.
    + rewrite (retry_from_failed_attempt (one_call coroutine c) n d attempt rest
                 last w w1 e Hcall). apply IH.
    + unfold remote in Hcall. destruct (api (self w)) as [endpoint|].
      * destruct (answer (endpoint (issued w) c)); discriminate.
      * discriminate.
    + unfold remote in Hcall. destruct (api (self w)) as [endpoint|].
      * destruct (answer (endpoint (issued w) c)); discriminate.
      * discriminate.
Qed.

Section Connecting.
Variable ProxmoxAPI : exn + Transport.

Lemma connect_refused (w : World) (e : exn) :
  ProxmoxAPI = inl e ->
  Lifecycle.connect ProxmoxAPI w
  = (Returned false,
     {| clock := clock w; self := self w; issued := issued w;
        slept := slept w;
        logged := (logged w
                   ++ [(ERROR, ("Failed to connect to Proxmox VE: "
                                  ++ Exn.str e)%string)])%list |}).
Proof. intros ->. reflexivity. Qed.

(** X15.  [connect] answers [True] only when it is in the state that
    answer promises: the handle the constructor gave is in place, and
    the check on record is dated by the clock as [connect] leaves it,
    after the probe came back. *)
Theorem connect_true_means_connected_and_checked (w w' : World) :
  Lifecycle.connect ProxmoxAPI w = (Returned true, w') ->
  exists endpoint,
    ProxmoxAPI = inr endpoint
    /\ api (self w') = Some endpoint
    /\ _last_connection_check (self w') = Some (clock w').
Proof.
  unfold Lifecycle.connect, try_except. destruct ProxmoxAPI as [e|endpoint].
  - cbn. discriminate.
  - intros H. exists endpoint. split; [reflexivity|].
    unfold lift in H. unfold bind at 1, ret at 1 in H.
    unfold bind at 1, set_api at 1 in H.
    match type of H with
    | context [bind (execute (lambda version_get)) ?k ?w1] =>
        pose proof (keeps_client_execute version_get w1) as Hkeep;
        unfold bind at 1 in H;
        destruct (execute (lambda version_get) w1) as [[v|e| |interruption] w2]
    end; cbn [snd self] in Hkeep.
    + destruct (Py.truthy v); cbn [negb] in H.
      * destruct (get_method_or v "version" (VStr "Unknown")) as [e|version];
          cbn in H; [discriminate H|].
        injection H as <-. cbn. rewrite Hkeep. split; reflexivity.
      * cbn in H. discriminate H.
    + cbn in H. discriminate H.
    + discriminate H.
    + discriminate H.
Qed.

(** X16.  A connect that fails after the handle was made leaves the
    handle in place: when the endpoint fails all three attempts of the
    probe, [connect] answers [False], having made three calls, and
    [self.api] is the new handle all the same, the check on record
    being left as it was. *)
Theorem connect_failed_probe_keeps_handle
    (endpoint : Transport) (w : World) (errs : nat -> exn) :
  ProxmoxAPI = inr endpoint ->
  (forall i, (i < 3)%nat ->
     answer (endpoint (issued w ++ repeat version_get i)%list version_get)
     = inl (errs i)) ->
  exists w',
    Lifecycle.connect ProxmoxAPI w = (Returned false, w')
    /\ api (self w') = Some endpoint
    /\ _last_connection_check (self w') = _last_connection_check (self w)
    /\ issued w' = (issued w ++ [version_get; version_get; version_get])%list.
Proof.
  intros -> Hdown. unfold Lifecycle.connect, try_except.
  unfold lift. unfold bind at 1, ret at 1. unfold bind at 1, set_api at 1.
  unfold bind at 1, execute, _execute_with_retry.
  change (lambda version_get) with (one_call false version_get).
  change (range 3) with (map Z.of_nat (seq 0 3)).
  match goal with
  | |- context [retry_from _ _ _ _ None ?w1] =>
      destruct (retry_from_exhausted false version_get endpoint 3 (1 * second)
                  3 0%nat None w1 errs eq_refl Hdown) as (w' & -> & Hi & Hs)
  end.
  eexists. split; [reflexivity|]. cbn [issued self] in *.
  rewrite Hs, Hi. repeat split.
Qed.

End Connecting.

Lemma connect_true_means_connected_and_checked_witness :
  let w' := snd (Lifecycle.connect
                   (inr (Scenario.flaky 0 (VDict [("version", VStr "8.1")])))
                   (Scenario.connected Scenario.down 5)) in
  exists endpoint,
    api (self w') = Some endpoint
    /\ _last_connection_check (self w') = Some (clock w').
Proof.
  cbv zeta.
  destruct (connect_true_means_connected_and_checked
              (inr (Scenario.flaky 0 (VDict [("version", VStr "8.1")])))
              (Scenario.connected Scenario.down 5)
              (snd (Lifecycle.connect
                      (inr (Scenario.flaky 0 (VDict [("version", VStr "8.1")])))
                      (Scenario.connected Scenario.down 5)))
              eq_refl) as (endpoint & _ & H).
  exists endpoint. exact H.
Defined.

Lemma connect_failed_probe_keeps_handle_witness :
  exists w',
    Lifecycle.connect (inr Scenario.down)
      {| clock := 0;
         self := {| api := None; _last_connection_check := None |};
         issued := []; slept := []; logged := [] |}
    = (Returned false, w')
    /\ api (self w') = Some Scenario.down.
Proof.
  destruct (connect_failed_probe_keeps_handle (inr Scenario.down) Scenario.down
              {| clock := 0;
                 self := {| api := None; _last_connection_check := None |};
                 issued := []; slept := []; logged := [] |}
              (fun _ => Scenario.refused) eq_refl) as (w' & H & Hapi & _).
  - intros i _. reflexivity.
  - exists w'. split; assumption.
Defined.

(** X17.  [disconnect] cuts the client off and keeps its books: the
    handle is gone, the record of calls and the date of the last check
    stay; from there [validate_connection] answers [False] without a
    call, every accessor fails without reaching the endpoint, and a
    second [disconnect] changes nothing in the client. *)
Theorem disconnect_cuts_the_client_off (w : World) (c : RemoteCall) :
  let w1 := snd (Lifecycle.disconnect w) in
  fst (Lifecycle.disconnect w) = Returned tt
  /\ api (self w1) = None
  /\ _last_connection_check (self w1) = _last_connection_check (self w)
  /\ issued w1 = issued w
  /\ validate_connection w1 = (Returned false, w1)
  /\ (exists w2,
        execute (lambda c) w1
        = (Raised (Exn.mcp ("Operation failed after 3 attempts: "
                              ++ "'NoneType' object has no attribute '"
                              ++ first_attribute c ++ "'")), w2)
        /\ issued w2 = issued w)
  /\ self (snd (Lifecycle.disconnect w1)) = self w1.
Proof.
  cbv zeta. repeat split.
  destruct (retry_from_disconnected false c 3 (1 * second) (range 3) None
              (snd (Lifecycle.disconnect w)) eq_refl) as (w2 & Hrun & Hi & _).
  exists w2. split; [exact Hrun | exact Hi].
Qed.

(** ** The session manager *)

Lemma connect_comes_back (ProxmoxAPI : exn + Transport) (w : World) :
  exists b w', Lifecycle.connect ProxmoxAPI w = (Returned b, w').
Proof.
  unfold Lifecycle.connect, try_except. destruct ProxmoxAPI as [e|endpoint].
  - eexists. eexists. reflexivity.
  - unfold lift. unfold bind at 1, ret at 1. unfold bind at 1, set_api at 1.
    unfold bind at 1.
    match goal with
    | |- context [execute (lambda version_get) ?w1] =>
        pose proof (retry_from_comes_back false version_get 3 (1 * second)
                      (range 3) None w1) as Hback;
        pose proof (retry_from_not_interrupted false version_get 3 (1 * second)
                      (range 3) None w1) as Hthrough;
        change (retry_from (one_call false version_get) 3 (1 * second)
                  (range 3) None w1)
          with (execute (lambda version_get) w1) in Hback, Hthrough;
        destruct (execute (lambda version_get) w1) as [[v|e| |interruption] w2]
    end.
    + destruct (Py.truthy v); cbn [negb].
      * destruct (get_method_or v "version" (VStr "Unknown")) as [e|version];
          eexists; eexists; reflexivity.
      * eexists. eexists. reflexivity.
    + eexists. eexists. reflexivity.
    + now contradiction Hback.
    + now contradiction (Hthrough interruption).
Qed.

(** X18.  The session manager answers what the client answers: its
    [validate_connection] is the client's, step for step, and its
    [connect] returns the client's answer (never raising), adding one
    log record when that answer is [True]. *)
Theorem session_manager_answers_as_the_client
    (ProxmoxAPI : exn + Transport) (proxmox_host : string) (w : World) :
  ProxmoxAuthManager.validate_connection w = ProxmoxClient.validate_connection w
  /\ exists b w',
       Lifecycle.connect ProxmoxAPI w = (Returned b, w')
       /\ ProxmoxAuthManager.connect ProxmoxAPI proxmox_host w
          = (Returned b,
             if b
             then {| clock := clock w'; self := self w'; issued := issued w';
                     slept := slept w';
                     logged := (logged w'
                                ++ [(INFO, ("Successfully connected to Proxmox VE: "
                                              ++ proxmox_host)%string)])%list |}
             else w').
Proof.
  split.
  - unfold ProxmoxAuthManager.validate_connection, try_except.
    pose proof (validate_connection_never_raises w) as Hnever.
    destruct (validate_connection w) as [[b|e| |interruption] w1]; try reflexivity.
    now contradiction (Hnever e).
  - destruct (connect_comes_back ProxmoxAPI w) as (b & w' & H).
    exists b, w'. split; [exact H|].
    unfold ProxmoxAuthManager.connect, try_except. unfold bind at 1.
    rewrite H. destruct b; reflexivity.
Qed.

(** ** Resources *)

Section ReadingResources.
Import Resources.

Variable read : ResourceSource -> M value.

(** X19.  A URI that [handle_list_resources] does not list is refused
    by raising, not by a reply: the exception is the base one, its
    message wraps the cause twice over, "Failed to read resource:
    Unknown resource URI: " and the URI; one error record is logged
    and no service is asked. *)
Theorem unknown_resource_is_raised (address : string) (w : World) :
  ~ In address (map uri handle_list_resources) ->
  handle_read_resource read address w
  = (Raised (Proxmox ProxmoxMCPException
               ("Failed to read resource: Unknown resource URI: " ++ address)
               "PROXMOX_MCP_ERROR" []),
     {| clock := clock w; self := self w; issued := issued w;
        slept := slept w;
        logged := (logged w
                   ++ [(ERROR, ("Error reading resource " ++ address
                                  ++ ": Unknown resource URI: " ++ address)%string)])%list |}).
Proof.
  intros Hout. unfold handle_read_resource.
  repeat match goal with
         | |- context [String.eqb address ?s] =>
             destruct (String.eqb_spec address s) as [->|_];
             [exfalso; apply Hout; vm_compute; tauto|]
         end.
  reflexivity.
Qed.

(** X20.  Every URI that [handle_list_resources] lists is served: it
    has a service method behind it, and reading it gives the [str] of
    what that method returns, in the world the method leaves; when the
    method raises, the reader raises the base exception "Failed to read
    resource: " followed by the text of the cause. *)
Theorem listed_resource_is_served (r : Resource) (w : World) :
  In r handle_list_resources ->
  exists source,
    (forall v w1, read source w = (Returned v, w1) ->
       handle_read_resource read (uri r) w = (Returned (Py.str v), w1))
    /\ (forall e w1, read source w = (Raised e, w1) ->
          fst (handle_read_resource read (uri r) w)
          = Raised (Exn.mcp ("Failed to read resource: " ++ Exn.str e))).
Proof.
  intros Hin. unfold handle_list_resources in Hin. cbn [In] in Hin.
  repeat (destruct Hin as [<-|Hin];
          [cbn [uri]; unfold handle_read_resource;
           cbn [String.eqb Ascii.eqb Bool.eqb];
           eexists; split;
           [intros v w1 H; unfold try_except, serve, bind; now rewrite H
           |intros e w1 H; unfold try_except, serve, bind; now rewrite H]|]).
  contradiction.
Qed.

End ReadingResources.

Lemma unknown_resource_is_raised_witness :
  fst (Resources.handle_read_resource (fun _ => ret VNone) "proxmox://vms"
         (Scenario.connected Scenario.down 0))
  = Raised (Exn.mcp "Failed to read resource: Unknown resource URI: proxmox://vms").
Proof.
  rewrite (unknown_resource_is_raised (fun _ => ret VNone) "proxmox://vms"
             (Scenario.connected Scenario.down 0)).
  - reflexivity.
  - vm_compute. intros H.
    repeat (destruct H as [H|H]; [discriminate H|]). exact H.
Defined.

Lemma listed_resource_is_served_witness :
  exists source : ResourceSource,
    forall v w1,
      ret (VList []) (Scenario.connected Scenario.down 0) = (Returned v, w1) ->
      Resources.handle_read_resource (fun _ => ret (VList [])) "proxmox://vms/list"
        (Scenario.connected Scenario.down 0)
      = (Returned (Py.str v), w1).
Proof.
  destruct (listed_resource_is_served (fun _ => ret (VList []))
              {| uri := "proxmox://vms/list"; title := "Virtual Machines" |}
              (Scenario.connected Scenario.down 0)) as (source & H & _).
  - cbn. tauto.
  - exists source. exact H.
Defined.

(** ** Authorization, seen from the table *)

(** X21.  With enforcement on, a grant is bounded by the table: the
    role is one of the three built-in ones, the permission is one of the
    admin's, and for any role but the admin it is one of the operator's.
    So nothing puts a role above the admin, and what the admin alone
    holds (creating, deleting, configuring) no other role name can
    reach. *)
Theorem grants_are_bounded_by_the_table
    (settings : Settings) (role permission : string) :
  enable_rbac settings = true ->
  RBACManager.check_permission settings role permission = true ->
  In role ["admin"; "operator"; "viewer"]
  /\ In permission RBACManager.admin_permissions
  /\ (role <> "admin" -> In permission RBACManager.operator_permissions).
Proof.
  intros Hon Hgrant. unfold RBACManager.check_permission in Hgrant.
  rewrite Hon in Hgrant. cbn [negb] in Hgrant.
  destruct (RBACManager.ROLES !! role) as [perms|] eqn:Hrole;
    [|discriminate Hgrant].
  cbn [default] in Hgrant. apply py_in_spec in Hgrant.
  destruct (ROLES_known role perms Hrole)
    as [[-> ->]|[[-> ->]|[-> ->]]].
  - split; [cbn; tauto|]. split; [exact Hgrant|]. intros H. now contradiction H.
  - split; [cbn; tauto|]. split; [now apply operator_in_admin|].
    intros _. exact Hgrant.
  - split; [cbn; tauto|].
    split; [now apply operator_in_admin, viewer_in_operator|].
    intros _. now apply viewer_in_operator.
Qed.

Lemma grants_are_bounded_by_the_table_witness :
  In "vm:stop" RBACManager.admin_permissions
  /\ ("operator" <> "admin" -> In "vm:stop" RBACManager.operator_permissions).
Proof.
  destruct (grants_are_bounded_by_the_table (default_settings "s3cret")
              "operator" "vm:stop" eq_refl eq_refl) as (_ & Ha & Ho).
  split; assumption.
Defined.

(** ** Tokens, at the edges *)

Lemma lookup_setitem_same {V} (d : list (string * V)) (key : string) (v : V) :
  Py.lookup (Py.setitem d key v) key = Some v.
Proof.
  induction d as [|[k v0] d IH]; cbn.
  - now rewrite String.eqb_refl.
  - destruct (String.eqb k key) eqn:E; cbn; now rewrite E.
Qed.

Lemma lookup_setitem_other {V} (d : list (string * V)) (key other : string) (v : V) :
  other <> key ->
  Py.lookup (Py.setitem d key v) other = Py.lookup d other.
Proof.
  intros Hne. induction d as [|[k v0] d IH]; cbn.
  - destruct (String.eqb_spec key other) as [->|_]; [now contradiction Hne|reflexivity].
  - destruct (String.eqb_spec k key) as [->|Hk]; cbn.
    + destruct (String.eqb_spec key other) as [->|_];
        [now contradiction Hne|reflexivity].
    + now destruct (String.eqb k other).
Qed.

Lemma keys_setitem {V} (d : list (string * V)) (key : string) (v : V) :
  map fst (Py.setitem d key v)
  = if Py.contains d key then map fst d else (map fst d ++ [key])%list.
Proof.
  induction d as [|[k v0] d IH]; cbn; [reflexivity|].
  destruct (String.eqb k key) eqn:E; cbn; [reflexivity|].
  rewrite IH. now destruct (Py.contains d key).
Qed.

Section TokenEdges.
Import JWTManager.

Variable Token : Type.
Variable jwt_encode : claims -> string -> string -> exn + Token.
Variable jwt_decode : Token -> string -> list string -> Z -> exn + dict.
Variable settings : Settings.

(** X22.  The expiry in a token is the server's, never the caller's:
    whatever the caller's claims hold, under ["exp"] too, the claims
    handed to the encoder carry under ["exp"] the issuing time plus the
    lifetime (the [expires_delta] given, or the configured minutes when
    it is absent or zero); every other claim goes through as it is, and
    the claims keep their order, ["exp"] staying where the caller had
    it or going last. *)
Theorem create_access_token_sets_the_expiry
    (data : claims) (expires_delta : option Z) (w : World) :
  exists to_encode : claims,
    create_access_token Token jwt_encode settings data expires_delta w
    = lift (jwt_encode to_encode (secret_key settings) (jwt_algorithm settings)) w
    /\ Py.lookup to_encode "exp"
       = Some (Datetime (clock w + lifetime settings expires_delta))
    /\ (forall key, key <> "exp" ->
          Py.lookup to_encode key = Py.lookup data key)
    /\ map fst to_encode
       = (if Py.contains data "exp" then map fst data
          else map fst data ++ ["exp"])%list
    /\ lifetime settings (Some 0) = lifetime settings None.
Proof.
  exists (Py.setitem data "exp"
            (Datetime (clock w + lifetime settings expires_delta))).
  split.
  - unfold create_access_token, lifetime, bind, datetime_utcnow, datetime_now.
    destruct expires_delta as [delta|]; [destruct (delta =? 0)|]; reflexivity.
  - split; [apply lookup_setitem_same|].
    split; [intros key Hne; now apply lookup_setitem_other|].
    split; [apply keys_setitem | reflexivity].
Qed.

Hypothesis decode_genuine :
  forall (c : claims) (key a : string) (algorithms : list string)
         (now : Z) (t : Token),
    Jose.only_expiry_checked c = true ->
    jwt_encode c key a = inr t -> In a algorithms ->
    jwt_decode t key algorithms now
    = if Jose.expired (Jose.wire c) now
      then inl (Foreign "ExpiredSignatureError" "Signature has expired.")
      else inr (Jose.wire c).

(** X23.  A negative [expires_delta] of a second or more makes a token
    that is expired as it is issued: [create_access_token] hands it
    out all the same, and [verify_token], read on the same clock,
    answers [None] for it.  (Of the token library this needs that a
    genuine token decodes to its claims unless its expiry lies before
    the library's clock.) *)
Theorem negative_lifetime_token_is_born_expired
    (subject : string) (delta : Z) (w : World) (token : Token) :
  delta <= - second ->
  jwt_encode [("sub", Plain (VStr subject)); ("exp", Datetime (clock w + delta))]
    (secret_key settings) (jwt_algorithm settings) = inr token ->
  create_access_token Token jwt_encode settings (subject_claims subject)
    (Some delta) w = (Returned token, w)
  /\ fst (verify_token Token jwt_decode settings token w) = Returned None.
Proof.
  intros Hneg Henc. split.
  - unfold create_access_token, bind, datetime_utcnow, datetime_now.
    replace (delta =? 0) with false
      by (symmetry; apply Z.eqb_neq; unfold second in Hneg; lia).
    unfold subject_claims. cbn [Py.setitem String.eqb Ascii.eqb Bool.eqb].
    now rewrite Henc.
  - unfold verify_token.
    rewrite (decode_genuine
               [("sub", Plain (VStr subject)); ("exp", Datetime (clock w + delta))]
               _ _ [jwt_algorithm settings] (clock w / 1000000)
               _ eq_refl Henc (or_introl eq_refl)).
    unfold Jose.expired.
    change (Py.lookup
              (Jose.wire [("sub", Plain (VStr subject));
                          ("exp", Datetime (clock w + delta))]) "exp")
      with (Some (VInt ((clock w + delta) / 1000000))).
    assert (Hlate : (clock w + delta) / 1000000 < clock w / 1000000).
    { unfold second in Hneg.
      assert (H : (clock w + delta) / 1000000 <= (clock w + (-1) * 1000000) / 1000000)
        by (apply Z.div_le_mono; lia).
      rewrite Z.div_add in H by lia. lia. }
    apply Z.ltb_lt in Hlate. cbv beta iota. rewrite Hlate. reflexivity.
Qed.

End TokenEdges.

Lemma negative_lifetime_token_is_born_expired_witness :
  let w := Scenario.connected Scenario.down 1700000000000000 in
  fst (JWTManager.verify_token Symbolic.Token Symbolic.decode
         (default_settings "s3cret")
         (Symbolic.Signed [("sub", Plain (VStr "alice"));
                           ("exp", Datetime (1700000000000000 + - 60 * second))]
            "s3cret" "HS256") w)
  = Returned None.
Proof.
  cbv zeta.
  apply (negative_lifetime_token_is_born_expired Symbolic.Token Symbolic.encode
           Symbolic.decode (default_settings "s3cret") symbolic_decode_genuine
           "alice" (- 60 * second)
           (Scenario.connected Scenario.down 1700000000000000)).
  - vm_compute. discriminate.
  - reflexivity.
Defined.

(** ** Dictionaries: merging and dropping *)

Lemma contains_In {V} (d : list (string * V)) (key : string) :
  Py.contains d key = true <-> In key (map fst d).
Proof.
  induction d as [|[k v] d IH]; cbn; [split; [discriminate|tauto]|].
  destruct (String.eqb_spec k key) as [->|Hne]; [tauto|].
  rewrite IH. split; [tauto|]. intros [H|H]; [now contradiction Hne|exact H].
Qed.

Lemma lookup_absent {V} (d : list (string * V)) (key : string) :
  ~ In key (map fst d) -> Py.lookup d key = None.
Proof.
  intros H. pose proof (contains_lookup d key) as C.
  destruct (Py.lookup d key); [|reflexivity].
  apply contains_In in C. now contradiction H.
Qed.

Lemma lookup_merge (extra : dict) :
  NoDup (map fst extra) ->
  forall (base : dict) (key : string),
    Py.lookup (Py2.merge base extra) key
    = match Py.lookup extra key with
      | Some v => Some v
      | None => Py.lookup base key
      end.
Proof.
  unfold Py2.merge. induction extra as [|[k v] extra IH]; intros Hnd base key;
    [reflexivity|].
  cbn [fold_left fst snd map] in *. apply NoDup_cons in Hnd as [Hk Hnd].
  rewrite (IH Hnd). cbn [Py.lookup].
  destruct (String.eqb_spec k key) as [->|Hne].
  - rewrite lookup_absent by (now rewrite <- list_elem_of_In).
    apply lookup_setitem_same.
  - destruct (Py.lookup extra key); [reflexivity|].
    apply lookup_setitem_other. congruence.
Qed.

Lemma nodup_keys_setitem {V} (d : list (string * V)) (key : string) (v : V) :
  NoDup (map fst d) -> NoDup (map fst (Py.setitem d key v)).
Proof.
  intros H. rewrite keys_setitem. destruct (Py.contains d key) eqn:C; [exact H|].
  apply NoDup_app. split; [exact H|]. split.
  - intros x Hx Hin. apply list_elem_of_In in Hx, Hin. cbn in Hin.
    destruct Hin as [<-|[]].
    apply contains_In in Hx. congruence.
  - apply NoDup_singleton.
Qed.

Lemma nodup_keys_merge (extra base : dict) :
  NoDup (map fst base) -> NoDup (map fst (Py2.merge base extra)).
Proof.
  unfold Py2.merge. revert base. induction extra as [|[k v] extra IH];
    intros base H; [exact H|].
  cbn [fold_left]. apply IH. now apply nodup_keys_setitem.
Qed.

Lemma lookup_drop_none (d : dict) (key : string) :
  NoDup (map fst d) ->
  Py.lookup (Py2.drop_none d) key
  = match Py.lookup d key with
    | Some VNone => None
    | found => found
    end.
Proof.
  unfold Py2.drop_none. induction d as [|[k v] d IH]; intros Hnd; [reflexivity|].
  cbn [map fst] in Hnd. apply NoDup_cons in Hnd as [Hk Hnd].
  specialize (IH Hnd). cbn [List.filter snd Py.lookup].
  assert (Hgone : String.eqb k key = true ->
            Py.lookup (List.filter
                         (fun kv => match snd kv with VNone => false | _ => true end)
                         d) key = None).
  { intros E. apply String.eqb_eq in E. subst key. rewrite IH.
    rewrite lookup_absent by (now rewrite <- list_elem_of_In). reflexivity. }
  destruct v; cbn [Py.lookup];
    destruct (String.eqb k key) eqn:E; try reflexivity; try exact IH.
  now apply Hgone.
Qed.

(** ** The rest of the VM service *)

Section RestOfTheVMService.
Import VMService2.

Variable get_vms : value -> M value.
Variable client_create_vm : value -> value -> dict -> M value.
Variable client_clone_vm : value -> value -> value -> dict -> M value.
Variable client_migrate_vm : value -> value -> value -> dict -> M value.

Lemma matches_dict (filters vm : dict) :
  exists keep,
    matches filters (VDict vm) = inr keep
    /\ (keep = true <-> admits filters vm).
Proof.
  induction filters as [|[key wanted] rest (keep & Hrun & Hkeep)].
  - exists true. split; [reflexivity|]. split; [|reflexivity].
    intros _ key wanted held [].
  - cbn [matches Py2.contains getitem]. rewrite contains_lookup.
    destruct (Py.lookup vm key) as [held|] eqn:Hheld.
    + destruct (Py2.eqv held wanted) eqn:Heq; cbn [negb].
      * exists keep. split; [exact Hrun|]. rewrite Hkeep. split.
        -- intros H k x h [E|Hin] Hl.
           ++ injection E as <- <-. rewrite Hheld in Hl. now injection Hl as <-.
           ++ now apply (H k x h).
        -- intros H k x h Hin. apply H. now right.
      * exists false. split; [reflexivity|]. split; [discriminate|].
        intros H. specialize (H key wanted held (or_introl eq_refl) Hheld).
        congruence.
    + exists keep. split; [exact Hrun|]. rewrite Hkeep. split.
      * intros H k x h [E|Hin] Hl.
        -- injection E as <- <-. congruence.
        -- now apply (H k x h).
      * intros H k x h Hin. apply H. now right.
Qed.

Lemma select_dicts (filters : dict) (vms : list value) :
  all_dicts vms ->
  exists kept,
    select filters vms = inr kept
    /\ sublist kept vms
    /\ (forall d, In (VDict d) kept <-> In (VDict d) vms /\ admits filters d).
Proof.
  induction vms as [|vm vms IH]; intros Hall.
  - exists []. split; [reflexivity|]. split; [constructor|].
    intros d. cbn. tauto.
  - destruct (Hall vm (or_introl eq_refl)) as [d0 ->].
    destruct IH as (kept & Hrun & Hsub & Hin).
    { intros vm Hvm. apply Hall. now right. }
    destruct (matches_dict filters d0) as (keep & Hm & Hkeep).
    cbn [select]. rewrite Hm, Hrun. destruct keep.
    + exists (VDict d0 :: kept). split; [reflexivity|].
      split; [now constructor|]. intros d. cbn [In]. rewrite Hin. split.
      * intros [E|[H1 H2]]; [|tauto]. injection E as <-.
        split; [now left | now apply Hkeep].
      * intros [[E|H1] H2]; [now left | right; tauto].
    + exists kept. split; [reflexivity|].
      split; [now constructor|]. intros d. cbn [In]. rewrite Hin. split.
      * tauto.
      * intros [[E|H1] H2]; [|tauto]. injection E as <-.
        apply Hkeep in H2. discriminate H2.
Qed.

(** X24.  [list_vms] with filters keeps, in order, the VMs that have
    no filtered key under another value: of the dictionaries the
    client lists, a VM is in the reply exactly when each filter entry
    either equals what the VM holds under that key or names a key the
    VM does not have.  Without filters ([None] or empty) the client's
    answer is passed on as it is. *)
Theorem list_vms_keeps_what_the_filters_admit
    (node : value) (filters : dict) (vms : list value) (w w1 : World) :
  get_vms node w = (Returned (VList vms), w1) ->
  all_dicts vms ->
  list_vms get_vms node None w = (Returned (VList vms), w1)
  /\ list_vms get_vms node (Some []) w = (Returned (VList vms), w1)
  /\ (filters <> [] ->
      exists kept,
        list_vms get_vms node (Some filters) w = (Returned (VList kept), w1)
        /\ sublist kept vms
        /\ (forall d, In (VDict d) kept
                      <-> In (VDict d) vms /\ admits filters d)).
Proof.
  intros Hget Hall. split; [|split].
  - unfold list_vms, try_except, bind. now rewrite Hget.
  - unfold list_vms, try_except, bind. now rewrite Hget.
  - intros Hsome. destruct filters as [|f filters]; [now contradiction Hsome|].
    destruct (select_dicts (f :: filters) vms Hall) as (kept & Hrun & Hsub & Hin).
    exists kept. split; [|split; assumption].
    unfold list_vms, try_except. unfold bind at 1. rewrite Hget.
    cbn [Py2.iterate lift]. unfold bind at 1, ret at 1.
    rewrite Hrun. reflexivity.
Qed.

(** X25.  [create_vm] asks for memory before it asks the client for
    anything: with a [config] whose ["memory"] is missing or falsy
    ([None], 0, the empty string) it raises "Failed to create VM:
    Memory configuration is required", logs the error, and the client
    is not called. *)
Theorem create_vm_requires_memory
    (fuel : nat) (node vmid : value) (config : dict) (w : World) :
  Py.truthy (Py.get config "memory" VNone) = false ->
  create_vm client_create_vm fuel node vmid (VDict config) w
  = (Raised (Proxmox ProxmoxMCPException
               "Failed to create VM: Memory configuration is required"
               "PROXMOX_MCP_ERROR" []),
     {| clock := clock w; self := self w; issued := issued w;
        slept := slept w;
        logged := (logged w
                   ++ [(ERROR, ("Failed to create VM " ++ Py.str vmid
                                  ++ ": Memory configuration is required")%string)])%list |}).
Proof.
  intros Hmem. unfold create_vm, try_except. cbn [as_dict lift].
  unfold bind at 1, ret at 1. now rewrite Hmem.
Qed.

Lemma in_lookup {V} (d : list (string * V)) (key : string) (v : V) :
  In (key, v) d -> Py.lookup d key <> None.
Proof.
  clear. intros Hin Hnone. pose proof (contains_lookup d key) as C.
  rewrite Hnone in C.
  assert (Py.contains d key = true) as C'
    by (apply contains_In, in_map_iff; now exists (key, v)).
  congruence.
Qed.

(** A request free of the positional names is bound as it is *)
Lemma keywords_accepted (qualname : string) (positional : list string)
    (request : dict) :
  free_of positional request ->
  Py2.keywords qualname positional request = inr request.
Proof.
  clear. intros Hfree. unfold Py2.keywords.
  destruct (List.find (fun kv => existsb (String.eqb (fst kv)) positional) request)
    as [[key v]|] eqn:Hfind; [|reflexivity].
  apply find_some in Hfind as [Hin Hpos]. cbn [fst] in Hpos.
  apply existsb_exists in Hpos as (name & Hname & E).
  apply String.eqb_eq in E. subst name.
  now contradiction (in_lookup request key v Hin (Hfree key Hname)).
Qed.

(** X26.  What [create_vm] sends for a [config] with memory: under
    every key, the caller's entry if there is one, else the default
    (one core, one socket, kvm64, l26, boot order cdn, a virtio card
    on vmbr0), and nothing at all where that is [None], so that a
    caller's explicit [None] takes a default away.  A request that
    holds none of ["self"], ["node"], ["vmid"] is what the client is
    called with, and what the client raises comes back under "Failed to
    create VM: ".  A request that holds one of them never reaches the
    client: the request is passed as [**vm_config] beside [node] and
    [vmid], so the call itself fails with a [TypeError] that names the
    first such key, and that is what the caller is told. *)
Theorem create_vm_sends_config_over_defaults
    (fuel : nat) (node vmid : value) (config : dict) (key : string)
    (w w1 : World) (e : exn) :
  NoDup (map fst config) ->
  Py.truthy (Py.get config "memory" VNone) = true ->
  Py.lookup (vm_config_of config) key
  = match chosen config create_defaults key with
    | Some VNone => None
    | found => found
    end
  /\ (free_of ["self"; "node"; "vmid"] (vm_config_of config) ->
      client_create_vm node vmid (vm_config_of config) w = (Raised e, w1) ->
      fst (create_vm client_create_vm fuel node vmid (VDict config) w)
      = Raised (Exn.mcp ("Failed to create VM: " ++ Exn.str e)))
  /\ (forall (name : string) (v : value),
        List.find (fun kv => existsb (String.eqb (fst kv)) ["self"; "node"; "vmid"])
          (vm_config_of config) = Some (name, v) ->
        create_vm client_create_vm fuel node vmid (VDict config) w
        = (Raised (Exn.mcp ("Failed to create VM: ProxmoxClient.create_vm() "
                              ++ "got multiple values for argument '"
                              ++ name ++ "'")),
           {| clock := clock w; self := self w; issued := issued w;
              slept := slept w;
              logged :=
                (logged w
                 ++ [(ERROR, ("Failed to create VM " ++ Py.str vmid
                                ++ ": ProxmoxClient.create_vm() "
                                ++ "got multiple values for argument '"
                                ++ name ++ "'")%string)])%list |})).
Proof.
  clear get_vms client_clone_vm client_migrate_vm.
  intros Hnd Hmem. split; [|split].
  - unfold vm_config_of, chosen.
    rewrite lookup_drop_none by (apply nodup_keys_merge; cbn;
                                 repeat constructor; cbn;
                                 rewrite ?list_elem_of_In; cbn; intuition discriminate).
    rewrite (lookup_merge config Hnd).
    destruct (Py.lookup config key) as [v|] eqn:Hkey; [reflexivity|].
    cbn [Py.lookup create_defaults]. unfold Py.get.
    repeat match goal with
           | |- context [String.eqb ?k key] =>
               destruct (String.eqb_spec k key) as [<-|_];
               [rewrite Hkey; reflexivity|]
           end.
    reflexivity.
  - intros Hfree Hcall. unfold create_vm, try_except. cbn [as_dict lift].
    unfold bind at 1, ret at 1. rewrite Hmem. cbn [negb].
    rewrite (keywords_accepted _ _ _ Hfree). cbn [lift].
    unfold bind at 1, ret at 1. unfold bind at 1. now rewrite Hcall.
  - intros name v Hfind. unfold create_vm, try_except. cbn [as_dict lift].
    unfold bind at 1, ret at 1. rewrite Hmem. cbn [negb].
    unfold Py2.keywords. rewrite Hfind. reflexivity.
Qed.

(** X27.  [migrate_vm] sends the caller's [with_local_disks] under two
    names, ["with-local-disks"] and the caller's own spelling, both
    with the caller's value, since the whole [config] is sent along;
    and, the request holding none of ["self"], ["node"], ["vmid"],
    ["target"] (the names the call binds by position, which it may not
    repeat), it replies as soon as the client's call returns, in the
    world that call leaves, with the status ["migrating"]: the task is
    not waited for. *)
Theorem migrate_vm_sends_local_disks_twice
    (node vmid target_node task_id : value) (config : dict) (flag : value)
    (w w1 : World) :
  NoDup (map fst config) ->
  Py.lookup config "with_local_disks" = Some flag ->
  Py.lookup config "with-local-disks" = None ->
  free_of ["self"; "node"; "vmid"; "target"] (migrate_params_of config) ->
  client_migrate_vm node vmid target_node (migrate_params_of config) w
  = (Returned task_id, w1) ->
  Py.lookup (migrate_params_of config) "with-local-disks" = Some flag
  /\ Py.lookup (migrate_params_of config) "with_local_disks" = Some flag
  /\ migrate_vm client_migrate_vm node vmid target_node (VDict config) w
     = (Returned (VDict [ ("vmid", vmid); ("source_node", node);
                          ("target_node", target_node); ("task_id", task_id);
                          ("action", VStr "migrate");
                          ("online", Py.get config "online" (VInt 1));
                          ("status", VStr "migrating") ]), w1).
Proof.
  intros Hnd Hflag Hdash Hfree Hcall.
  assert (Hparams : forall key,
             Py.lookup (migrate_params_of config) key
             = chosen config
                 [ ("online", Py.get config "online" (VInt 1));
                   ("with-local-disks", Py.get config "with_local_disks" (VInt 0)) ]
                 key).
  { intros key. unfold migrate_params_of. now rewrite (lookup_merge config Hnd). }
  split; [|split].
  - rewrite Hparams. unfold chosen. rewrite Hdash. cbn. unfold Py.get.
    now rewrite Hflag.
  - rewrite Hparams. unfold chosen. now rewrite Hflag.
  - unfold migrate_vm, try_except, Py2.or_empty.
    destruct config as [|c config]; [discriminate Hflag|].
    cbn [Py.truthy as_dict lift]. unfold bind at 1, ret at 1.
    rewrite (keywords_accepted _ _ _ Hfree). cbn [lift].
    unfold bind at 1, ret at 1.
    unfold bind at 1. rewrite Hcall. unfold ret.
    assert (Honline : Py.get (migrate_params_of (c :: config)) "online" (VInt 1)
                      = Py.get (c :: config) "online" (VInt 1)).
    { unfold Py.get at 1. rewrite Hparams. unfold chosen, Py.get.
      now destruct (Py.lookup (c :: config) "online"). }
    now rewrite Honline.
Qed.

(** X28.  [clone_vm] sends the caller's [config] over three defaults
    (the name "clone-of-" and the source id, a full clone, the source
    node as target), waits on the handle the client returns, and goes
    by the exit status of the task.  With a request that holds none of
    ["self"], ["node"], ["vmid"], ["newid"], the client is called with
    the request, in which every key holds the caller's entry if there
    is one and the default otherwise; after [j + 1] status fetches an
    exit status ["OK"] gives the reply with status ["cloned"], the
    request under ["config"] and, under ["target_node"], the caller's
    target if there is one and the source node otherwise; any other
    exit status gives "Failed to clone VM: VM cloning failed: "
    followed by it.  No [config] ([None]) is an empty one. *)
Theorem clone_vm_sends_config_over_defaults
    (fuel j : nat) (node vmid newid task_id : value) (config final : dict)
    (endpoint : Transport) (w w1 : World) :
  let clone_params := clone_params_of node vmid config in
  let exitstatus := Py.get final "exitstatus" VNone in
  NoDup (map fst config) ->
  free_of ["self"; "node"; "vmid"; "newid"] clone_params ->
  client_clone_vm node vmid newid clone_params w = (Returned task_id, w1) ->
  api (self w1) = Some endpoint ->
  (j < fuel)%nat ->
  (j <= 150)%nat ->
  terminal (VDict final) ->
  reports_after endpoint (issued w1) node task_id j (VDict final) ->
  (forall key,
      Py.lookup clone_params key = chosen config (clone_defaults node vmid) key)
  /\ (exists w',
         clone_vm client_clone_vm fuel node vmid newid (VDict config) w
         = (if Py.eq_str exitstatus "OK"
            then Returned (VDict [ ("source_vmid", vmid); ("new_vmid", newid);
                                   ("node", node);
                                   ("target_node", Py.get config "target" node);
                                   ("task_id", task_id); ("action", VStr "clone");
                                   ("status", VStr "cloned");
                                   ("config", VDict clone_params) ])
            else Raised (Exn.mcp ("Failed to clone VM: VM cloning failed: "
                                    ++ Py.str exitstatus)),
            w')
         /\ issued w'
            = (issued w1 ++ repeat (tasks_status_get node task_id) (j + 1))%list)
  /\ clone_vm client_clone_vm fuel node vmid newid VNone
     = clone_vm client_clone_vm fuel node vmid newid (VDict []).
Proof.
  clear get_vms client_create_vm client_migrate_vm.
  intros clone_params exitstatus Hnd Hfree Hcall Hapi Hfuel Hj Hfinal Hreports.
  assert (Hparams : forall k,
             Py.lookup clone_params k
             = chosen config (clone_defaults node vmid) k).
  { intros k. unfold clone_params, clone_params_of, chosen.
    rewrite (lookup_merge config Hnd).
    destruct (Py.lookup config k) as [v|] eqn:Hk; [reflexivity|].
    cbn [Py.lookup clone_defaults]. unfold Py.get.
    repeat match goal with
           | |- context [String.eqb ?s k] =>
               destruct (String.eqb_spec s k) as [<-|_];
               [rewrite Hk; reflexivity|]
           end.
    reflexivity. }
  assert (Htarget : Py.get clone_params "target" node = Py.get config "target" node).
  { unfold Py.get at 1. rewrite Hparams. unfold chosen, Py.get.
    now destruct (Py.lookup config "target"). }
  split; [exact Hparams|]. split; [|reflexivity].
  unfold clone_vm, try_except.
  replace (Py2.or_empty (VDict config)) with (VDict config)
    by (unfold Py2.or_empty; now destruct config).
  cbn [as_dict lift]. unfold bind at 1, ret at 1. fold clone_params.
  rewrite (keywords_accepted _ _ _ Hfree). cbn [lift].
  unfold bind at 1, ret at 1. unfold bind at 1. rewrite Hcall.
  unfold bind at 1, wait_for_task. unfold bind at 1, datetime_now.
  cbv beta iota.
  destruct (poll_after_running node task_id 300 (clock w1) endpoint (VDict final)
              Hfinal j fuel w1 Hfuel Hapi Hreports)
    as (w2 & -> & Hi & _ & _).
  - intros i Hi.
    match goal with
    | |- timedelta.seconds ?d <= _ =>
        replace d with (Z.of_nat i * (2 * second)) by lia
    end.
    rewrite seconds_of_polls by lia. lia.
  - cbn [get_method lift]. unfold bind at 1, ret at 1.
    fold exitstatus. rewrite Htarget, Nat.add_1_r.
    destruct (Py.eq_str exitstatus "OK"); cbn [negb].
    + exists w2. split; [reflexivity | exact Hi].
    + eexists. split; [reflexivity|]. cbn [issued]. exact Hi.
Qed.

End RestOfTheVMService.

Lemma list_vms_keeps_what_the_filters_admit_witness :
  exists kept,
    VMService2.list_vms Fake.get_vms VNone (Some [("status", VStr "running")])
      (Scenario.connected Scenario.down 0)
    = (Returned (VList kept), Scenario.connected Scenario.down 0)
    /\ In (VDict [("vmid", VInt 102)]) kept.
Proof.
  destruct (list_vms_keeps_what_the_filters_admit Fake.get_vms VNone
              [("status", VStr "running")] Fake.three_vms
              (Scenario.connected Scenario.down 0)
              (Scenario.connected Scenario.down 0) eq_refl) as (_ & _ & H).
  - intros vm Hvm. cbn in Hvm.
    repeat (destruct Hvm as [<-|Hvm]; [eexists; reflexivity|]). contradiction.
  - destruct (H ltac:(discriminate)) as (kept & Hrun & _ & Hin).
    exists kept. split; [exact Hrun|]. apply Hin. split.
    + cbn. tauto.
    + intros key wanted held [E|[]] Hheld. injection E as <- <-.
      discriminate Hheld.
Defined.

Lemma create_vm_requires_memory_witness :
  fst (VMService2.create_vm Fake.accept3 3 (VStr "pve1") (VInt 101)
         (VDict [("memory", VInt 0); ("cores", VInt 4)])
         (Scenario.connected Scenario.down 0))
  = Raised (Exn.mcp "Failed to create VM: Memory configuration is required").
Proof.
  rewrite (create_vm_requires_memory Fake.accept3 3 (VStr "pve1") (VInt 101)
             [("memory", VInt 0); ("cores", VInt 4)]
             (Scenario.connected Scenario.down 0) eq_refl).
  reflexivity.
Defined.

Lemma create_vm_sends_config_over_defaults_witness :
  Py.lookup (VMService2.vm_config_of [("memory", VInt 2048); ("boot", VNone)]) "boot"
  = None
  /\ fst (VMService2.create_vm Fake.refuse3 3 (VStr "pve1") (VInt 101)
            (VDict [("memory", VInt 2048); ("boot", VNone)])
            (Scenario.connected Scenario.down 0))
     = Raised (Exn.mcp "Failed to create VM: connection refused")
  /\ fst (VMService2.create_vm Fake.accept3 3 (VStr "pve1") (VInt 101)
            (VDict [("memory", VInt 2048); ("vmid", VInt 7); ("node", VStr "pve2")])
            (Scenario.connected Scenario.down 0))
     = Raised (Exn.mcp ("Failed to create VM: ProxmoxClient.create_vm() "
                          ++ "got multiple values for argument 'vmid'")).
Proof.
  split; [|split].
  - rewrite (proj1 (create_vm_sends_config_over_defaults Fake.refuse3 3
                      (VStr "pve1") (VInt 101)
                      [("memory", VInt 2048); ("boot", VNone)] "boot"
                      (Scenario.connected Scenario.down 0)
                      (Scenario.connected Scenario.down 0) Scenario.refused
                      ltac:(repeat constructor; rewrite ?list_elem_of_In; cbn;
                            intuition discriminate)
                      eq_refl)).
    reflexivity.
  - apply (proj1 (proj2 (create_vm_sends_config_over_defaults Fake.refuse3 3
                           (VStr "pve1") (VInt 101)
                           [("memory", VInt 2048); ("boot", VNone)] "boot"
                           (Scenario.connected Scenario.down 0)
                           (Scenario.connected Scenario.down 0) Scenario.refused
                           ltac:(repeat constructor; rewrite ?list_elem_of_In; cbn;
                                 intuition discriminate)
                           eq_refl))).
    + intros name H. cbn in H.
      repeat (destruct H as [<-|H]; [reflexivity|]). contradiction.
    + reflexivity.
  - rewrite (proj2 (proj2 (create_vm_sends_config_over_defaults Fake.accept3 3
                             (VStr "pve1") (VInt 101)
                             [("memory", VInt 2048); ("vmid", VInt 7);
                              ("node", VStr "pve2")] "boot"
                             (Scenario.connected Scenario.down 0)
                             (Scenario.connected Scenario.down 0) Scenario.refused
                             ltac:(repeat constructor; rewrite ?list_elem_of_In; cbn;
                                   intuition discriminate)
                             eq_refl))
               "vmid" (VInt 7) eq_refl).
    reflexivity.
Defined.

Lemma migrate_vm_sends_local_disks_twice_witness :
  Py.lookup (VMService2.migrate_params_of [("with_local_disks", VInt 1)])
    "with-local-disks" = Some (VInt 1)
  /\ Py.lookup (VMService2.migrate_params_of [("with_local_disks", VInt 1)])
       "with_local_disks" = Some (VInt 1)
  /\ fst (VMService2.migrate_vm Fake.accept4 (VStr "pve1") (VInt 101) (VStr "pve2")
            (VDict [("with_local_disks", VInt 1)])
            (Scenario.connected Scenario.down 0))
     = Returned (VDict [ ("vmid", VInt 101); ("source_node", VStr "pve1");
                         ("target_node", VStr "pve2"); ("task_id", VStr "UPID:123");
                         ("action", VStr "migrate"); ("online", VInt 1);
                         ("status", VStr "migrating") ]).
Proof.
  destruct (migrate_vm_sends_local_disks_twice Fake.accept4
              (VStr "pve1") (VInt 101) (VStr "pve2") (VStr "UPID:123")
              [("with_local_disks", VInt 1)] (VInt 1)
              (Scenario.connected Scenario.down 0)
              (Scenario.connected Scenario.down 0)) as (H1 & H2 & H3).
  - repeat constructor. rewrite list_elem_of_In. cbn. tauto.
  - reflexivity.
  - reflexivity.
  - intros name H. cbn in H.
    repeat (destruct H as [<-|H]; [reflexivity|]). contradiction.
  - reflexivity.
  - split; [exact H1|]. split; [exact H2|]. now rewrite H3.
Defined.

Lemma clone_vm_sends_config_over_defaults_witness :
  exists w',
    VMService2.clone_vm Fake.accept4 5 (VStr "pve1") (VInt 101) (VInt 102)
      (VDict [("name", VStr "copy")]) (Scenario.connected Stage.accepting 0)
    = (Returned (VDict [ ("source_vmid", VInt 101); ("new_vmid", VInt 102);
                         ("node", VStr "pve1"); ("target_node", VStr "pve1");
                         ("task_id", VStr "UPID:123"); ("action", VStr "clone");
                         ("status", VStr "cloned");
                         ("config", VDict [ ("name", VStr "copy"); ("full", VInt 1);
                                            ("target", VStr "pve1") ]) ]),
       w')
    /\ length (issued w') = 3%nat.
Proof.
  destruct (clone_vm_sends_config_over_defaults Fake.accept4 5 2
              (VStr "pve1") (VInt 101) (VInt 102) (VStr "UPID:123")
              [("name", VStr "copy")]
              [("status", VStr "stopped"); ("exitstatus", VStr "OK")]
              Stage.accepting
              (Scenario.connected Stage.accepting 0)
              (Scenario.connected Stage.accepting 0))
    as (_ & (w' & H & Hi) & _).
  - repeat constructor. rewrite list_elem_of_In. cbn. tauto.
  - intros name H. cbn in H.
    repeat (destruct H as [<-|H]; [reflexivity|]). contradiction.
  - reflexivity.
  - reflexivity.
  - lia.
  - lia.
  - exists (VStr "stopped"). split; reflexivity.
  - split.
    + intros [|[|i]] Hi; [reflexivity | reflexivity | lia].
    + reflexivity.
  - exists w'. split; [exact H|]. now rewrite Hi.
Defined.
